(** * 6-DOF HIL simulator: sensor encoder and loop controller

    A shallow embedding of [DroneStateEncoder.h] and [Drone.cpp] and the
    properties the specification states about them.

    Conventions of the embedding.
    - C++ [double] and [float] values are real numbers ([R]): arithmetic is
      exact, [std::pow] on a positive base is [Rpower], [M_E] is [exp 1],
      [M_PI] is [PI].  A float literal is the real number the float holds
      ([9.81f] is [10286531 / 2^20], [.0001f] is [13743895 / 2^37]).
    - Two stores of a [double] into a [float] are the conversion
      [to_float]: the entries of [x_y_z] in [get_body_frame_acceleration],
      which are compared with float literals, and [abs_pressure] in
      [hil_sensor_msg].  Of [to_float] only two properties of IEEE
      rounding are used: it keeps the values a float holds, and it is
      monotone.  Elsewhere a float holds the real number assigned to it.
    - Conversions from a floating value to an integer type truncate toward
      zero and then reduce modulo the width of the target type.
    - An [Eigen::VectorXd] of [STATE_SIZE] entries is a total map from the
      index to its entry; only the indices below 12 are ever used.
    - Calls on collaborators whose code is not part of the sources (the
      dynamics base class, the sensors, the CAELUS rotation helpers, the
      relay, the clock) are fields of an interface record. *)

From Stdlib Require Import Reals ZArith List Bool Lia Lra Psatz.
From Equations Require Import Equations.
Import ListNotations.

Open Scope R_scope.

(** ** Integer conversions *)

Module Conv.

(** [(intN_t) r] and [(uintN_t) r]: the fractional part is discarded. *)
Definition trunc (r : R) : Z :=
  if Rle_dec 0 r then Int_part r else (- Int_part (- r))%Z.

(** [std::round]: halfway cases away from zero. *)
Definition round (r : R) : Z :=
  if Rle_dec 0 r then Int_part (r + / 2) else (- Int_part (- r + / 2))%Z.

Definition wrap_u (w : Z) (z : Z) : Z := (z mod 2 ^ w)%Z.

Definition wrap_s (w : Z) (z : Z) : Z :=
  ((z + 2 ^ (w - 1)) mod 2 ^ w - 2 ^ (w - 1))%Z.

Definition to_uint16 (r : R) : Z := wrap_u 16 (trunc r).
Definition to_int16 (r : R) : Z := wrap_s 16 (trunc r).
Definition to_int32 (r : R) : Z := wrap_s 32 (trunc r).

(** [atan2 (y, x)] of the C library, from [atan] and the quadrant. *)
Definition atan2 (y x : R) : R :=
  if Rlt_dec 0 x then atan (y / x)
  else if Rlt_dec x 0 then
    (if Rle_dec 0 y then atan (y / x) + PI else atan (y / x) - PI)
  else if Rlt_dec 0 y then PI / 2
  else if Rlt_dec y 0 then - (PI / 2)
  else 0.

End Conv.

(** ** Certified lower bounds on the exponential

  [alt_to_baro] is checked against tabulated pressures.  The bounds come
  from [1 + y <= exp y] at [y = x / 2^k] followed by [k] squarings, each
  rounded down to a multiple of [2^-p]. *)

Module ExpBound.

Fixpoint square_down (p : Z) (k : nat) (l : Z) : Z :=
  match k with
  | O => l
  | S k' => square_down p k' (l * l / 2 ^ p)%Z
  end.

(** A fixed-point number [exp_lb num den k p / 2^p] below [exp (num/den)]. *)
Definition exp_lb (num den : Z) (k : nat) (p : Z) : Z :=
  square_down p k
    ((2 ^ p * (den * 2 ^ Z.of_nat k + num)) / (den * 2 ^ Z.of_nat k))%Z.

(** Decides, by computation on integers, a sufficient condition for
    [n / d < exp (num / den)]. *)
Definition exp_gt_check (num den n d : Z) (k : nat) (p : Z) : bool :=
  (0 <=? p)%Z && (0 <? den)%Z && (0 <=? den * 2 ^ Z.of_nat k + num)%Z
  && (0 <? d)%Z && (n * 2 ^ p <? exp_lb num den k p * d)%Z.

End ExpBound.

(** ** MAVLink frames *)

Module Mavlink.

Definition MAV_CMD_SET_MESSAGE_INTERVAL : Z := 511.
Definition MAV_MODE_FLAG_SAFETY_ARMED : Z := 128.

Record mavlink_system_time_t := {
  st_time_unix_usec : Z;
  st_time_boot_ms : Z }.

Record mavlink_hil_gps_t := {
  gps_time_usec : Z;
  gps_fix_type : Z;
  gps_lat : Z;
  gps_lon : Z;
  gps_alt : Z;
  gps_eph : Z;
  gps_epv : Z;
  gps_vel : Z;
  gps_vn : Z;
  gps_ve : Z;
  gps_vd : Z;
  gps_cog : Z;
  gps_satellites_visible : Z;
  gps_id : Z;
  gps_yaw : Z }.

Record mavlink_hil_sensor_t := {
  sen_time_usec : Z;
  sen_xacc : R; sen_yacc : R; sen_zacc : R;
  sen_xgyro : R; sen_ygyro : R; sen_zgyro : R;
  sen_xmag : R; sen_ymag : R; sen_zmag : R;
  sen_abs_pressure : R;
  sen_diff_pressure : R;
  sen_pressure_alt : R;
  sen_temperature : R;
  sen_fields_updated : Z;
  sen_id : Z }.

Record mavlink_hil_state_quaternion_t := {
  hsq_time_usec : Z;
  hsq_attitude_quaternion : R * R * R * R;
  hsq_rollspeed : R; hsq_pitchspeed : R; hsq_yawspeed : R;
  hsq_lat : Z; hsq_lon : Z; hsq_alt : Z;
  hsq_vx : Z; hsq_vy : Z; hsq_vz : Z;
  hsq_ind_airspeed : Z;
  hsq_true_airspeed : Z;
  hsq_xacc : Z; hsq_yacc : Z; hsq_zacc : Z }.

Record mavlink_command_ack_t := {
  ack_command : Z;
  ack_result : Z;
  ack_progress : Z;
  ack_result_param2 : Z;
  ack_target_system : Z;
  ack_target_component : Z }.

Record mavlink_command_long_t := {
  cl_target_system : Z;
  cl_target_component : Z;
  cl_command : Z;
  cl_confirmation : Z;
  cl_param1 : R; cl_param2 : R; cl_param3 : R; cl_param4 : R;
  cl_param5 : R; cl_param6 : R; cl_param7 : R }.

Record mavlink_hil_actuator_controls_t := {
  hac_time_usec : Z;
  hac_controls : nat -> R;
  hac_mode : Z;
  hac_flags : Z }.

(** The decoded body of a frame; [UNKNOWN] stands for every message id the
    simulator has no case for. *)
Inductive payload :=
| HEARTBEAT
| HIL_ACTUATOR_CONTROLS (c : mavlink_hil_actuator_controls_t)
| COMMAND_LONG (c : mavlink_command_long_t)
| COMMAND_ACK (a : mavlink_command_ack_t)
| SYSTEM_TIME (t : mavlink_system_time_t)
| HIL_GPS (g : mavlink_hil_gps_t)
| HIL_SENSOR (s : mavlink_hil_sensor_t)
| HIL_STATE_QUATERNION (q : mavlink_hil_state_quaternion_t)
| UNKNOWN (msgid : Z).

Record mavlink_message_t := {
  sysid : Z;
  compid : Z;
  body : payload }.

(** The message id of a frame, as MAVLink numbers them. *)
Definition msgid (m : mavlink_message_t) : Z :=
  match body m with
  | HEARTBEAT => 0
  | SYSTEM_TIME _ => 2
  | COMMAND_LONG _ => 76
  | COMMAND_ACK _ => 77
  | HIL_ACTUATOR_CONTROLS _ => 93
  | HIL_SENSOR _ => 107
  | HIL_GPS _ => 113
  | HIL_STATE_QUATERNION _ => 115
  | UNKNOWN id => id
  end.

Definition MAVLINK_MSG_ID_SYSTEM_TIME : Z := 2.
Definition MAVLINK_MSG_ID_COMMAND_ACK : Z := 77.
Definition MAVLINK_MSG_ID_HIL_SENSOR : Z := 107.
Definition MAVLINK_MSG_ID_HIL_GPS : Z := 113.
Definition MAVLINK_MSG_ID_HIL_STATE_QUATERNION : Z := 115.

Definition is_command_long (m : mavlink_message_t) : bool :=
  match body m with COMMAND_LONG _ => true | _ => false end.
Definition is_hil_actuator_controls (m : mavlink_message_t) : bool :=
  match body m with HIL_ACTUATOR_CONTROLS _ => true | _ => false end.

Definition hil_gps_of (m : mavlink_message_t) : option mavlink_hil_gps_t :=
  match body m with HIL_GPS g => Some g | _ => None end.
Definition hil_state_quaternion_of (m : mavlink_message_t)
  : option mavlink_hil_state_quaternion_t :=
  match body m with HIL_STATE_QUATERNION q => Some q | _ => None end.
Definition command_ack_of (m : mavlink_message_t)
  : option mavlink_command_ack_t :=
  match body m with COMMAND_ACK a => Some a | _ => None end.

End Mavlink.

(** ** The sensor encoder ([DroneStateEncoder.h]) *)

Module Encoder.
Import Conv Mavlink.

(** [Eigen::VectorXd] with [STATE_SIZE] entries. *)
Definition VectorXd := nat -> R.

Record Vector3d := { vx : R; vy : R; vz : R }.

Definition Vector3d_zero : Vector3d := {| vx := 0; vy := 0; vz := 0 |}.

Definition scale3 (k : R) (v : Vector3d) : Vector3d :=
  {| vx := vx v * k; vy := vy v * k; vz := vz v * k |}.

Definition add3 (a b : Vector3d) : Vector3d :=
  {| vx := vx a + vx b; vy := vy a + vy b; vz := vz a + vz b |}.

Definition norm3 (v : Vector3d) : R :=
  sqrt (vx v * vx v + vy v * vy v + vz v * vz v).

(** [v.segment(start, 3)] *)
Definition segment3 (v : VectorXd) (start : nat) : Vector3d :=
  {| vx := v start; vy := v (S start); vz := v (S (S start)) |}.

Definition K_Pb : R := 101325.
Definition K_Tb : R := 28815 / 100.
Definition K_Lb : R := - (65 / 10000).
Definition K_M : R := 289644 / 10000000.
Definition K_G : R := 980665 / 100000.
Definition K_R : R := 831432 / 100000.
Definition M_E : R := exp 1.
Definition M_PI : R := PI.
(** [#define G_FORCE 9.81f]: the float next to 9.81. *)
Definition G_FORCE : R := 10286531 / 1048576.
(** The float literal [.0001f]. *)
Definition FLT_0001 : R := 13743895 / 137438953472.
Definition INITIAL_LAT : R := 49766809 / 1000000.
Definition INITIAL_LON : R := - (75571598 / 10000000).

(** Number of self-calls [alt_to_baro] makes on its argument. *)
Definition baro_depth (alt : R) : nat :=
  if Rle_dec alt 11000 then 0%nat else 1%nat.

Equations? alt_to_baro (alt : R) : R by wf (baro_depth alt) lt :=
  alt_to_baro alt with Rle_dec alt 11000 => {
    | left _ :=
        K_Pb * Rpower (K_Tb / (K_Tb + (K_Lb * alt))) ((K_G * K_M) / (K_R * K_Lb));
    | right _ with Rle_dec alt 20000 => {
        | left _ :=
            let f := 11000 in
            let a := alt_to_baro f in
            let c := K_Tb + (f * K_Lb) in
            a * Rpower M_E (((- K_G) * K_M * (alt - f)) / (K_R * c));
        | right _ := 0 } }.
Proof.
  subst f. unfold baro_depth.
  destruct (Rle_dec 11000 11000) as [_ | Hn]; [| lra].
  destruct (Rle_dec alt 11000) as [Hle | _]; [contradiction | lia].
Qed.

Definition euler_to_quaterions (euler_rpy : R * R * R) : R * R * R * R :=
  let '(roll, pitch, yaw) := euler_rpy in
  (sin (roll / 2) * cos (pitch / 2) * cos (yaw / 2)
     - cos (roll / 2) * sin (pitch / 2) * sin (yaw / 2),
   cos (roll / 2) * sin (pitch / 2) * cos (yaw / 2)
     + sin (roll / 2) * cos (pitch / 2) * sin (yaw / 2),
   cos (roll / 2) * cos (pitch / 2) * sin (yaw / 2)
     - sin (roll / 2) * sin (pitch / 2) * cos (yaw / 2),
   cos (roll / 2) * cos (pitch / 2) * cos (yaw / 2)
     + sin (roll / 2) * sin (pitch / 2) * sin (yaw / 2)).

(** The pure virtual members of [DroneStateEncoder]: what the encoder reads
    from the object it is mixed into. *)
Class DroneStateEncoder (D : Type) := {
  get_sim_time : D -> Z;
  get_environment_wind : D -> Vector3d;
  get_temperature_reading : D -> R;
  get_vector_state : D -> VectorXd;
  get_vector_dx_state : D -> VectorXd }.

(** The real numbers a [float] (IEEE binary32) holds: [m * 2^e] with a
    24-bit [m] and the exponent range of the format. *)
Definition binary32 (x : R) : Prop :=
  exists m e : Z,
    (Z.abs m < 2 ^ 24)%Z /\ (-149 <= e <= 104)%Z /\ x = IZR m * powerRZ 2 e.

(** What the encoder uses and the sources do not define.  [body2earth x v]
    is the product [caelus_fdm::body2earth(x) * v] and
    [convertState2LlA lat0 lon0 x] returns the three output arguments
    (latitude, longitude, altitude), both of the CAELUS flight-dynamics
    package; [magnetic_field_for_latlonalt] is the magnetic table;
    [to_float x] is the machine's conversion [(float) x] of a [double],
    whatever its rounding mode: it keeps a value that a float holds and it
    is monotone. *)
Class External := {
  body2earth : VectorXd -> Vector3d -> Vector3d;
  convertState2LlA : R -> R -> VectorXd -> Vector3d;
  magnetic_field_for_latlonalt : Z * Z * Z -> Vector3d;
  to_float : R -> R;
  to_float_exact : forall x : R, binary32 x -> to_float x = x;
  to_float_monotone : forall x y : R, x <= y -> to_float x <= to_float y }.

Section Getters.
Context {D : Type} `{DroneStateEncoder D} `{External}.

Definition get_attitude (d : D) : R * R * R * R :=
  let state := get_vector_state d in
  euler_to_quaterions (state 6%nat, state 7%nat, state 8%nat).

Definition get_rpy_speed (d : D) : R * R * R :=
  let state := get_vector_state d in
  (state 9%nat, state 10%nat, state 11%nat).

(** Each component is stored in an [int16_t] first and multiplied by 100
    in place afterwards. *)
Definition get_ground_speed (d : D) : Z * Z * Z :=
  let state_derivative := get_vector_dx_state d in
  let x := to_int16 (state_derivative 0%nat) in
  let y := to_int16 (state_derivative 1%nat) in
  let z := to_int16 (state_derivative 2%nat) in
  (wrap_s 16 (x * 100), wrap_s 16 (y * 100), wrap_s 16 (z * 100)).

(** [x_y_z] is an array of [float]: each entry of [dx] is narrowed when it
    is stored, and the comparison is one of floats, with [.0001f]. *)
Definition get_body_frame_acceleration (d : D) : R * R * R :=
  let state_derivative := get_vector_dx_state d in
  let x := to_float (state_derivative 3%nat) in
  let y := to_float (state_derivative 4%nat) in
  let z := to_float (state_derivative 5%nat) in
  if Rlt_dec z FLT_0001 then
    if Rgt_dec z (- FLT_0001) then (x, y, - G_FORCE) else (x, y, z)
  else (x, y, z).

Definition get_body_frame_origin (d : D) : R * R * R :=
  let state := get_vector_state d in
  (state 0%nat, state 1%nat, state 2%nat).

Definition get_earth_fixed_velocity (d : D) : Z * Z * Z :=
  let state := get_vector_state d in
  let xyz_dot_body_frame := segment3 state 3 in
  let earth_frame_velocity := body2earth state xyz_dot_body_frame in
  (to_int16 (vx earth_frame_velocity),
   to_int16 (vy earth_frame_velocity),
   to_int16 (vz earth_frame_velocity)).

Definition get_lat_lon_alt (d : D) : Z * Z * Z :=
  let state := get_vector_state d in
  let d_lat_lon_alt := convertState2LlA INITIAL_LAT INITIAL_LON state in
  (to_int32 (vx d_lat_lon_alt * 10000000),
   to_int32 (vy d_lat_lon_alt * 10000000),
   to_int32 (vz d_lat_lon_alt * 1000)).

Definition get_true_wind_speed (d : D) : Z :=
  let '(g0, g1, g2) := get_ground_speed d in
  let ground_speed_vec := {| vx := IZR g0; vy := IZR g1; vz := IZR g2 |} in
  let environment_wind := scale3 100 (get_environment_wind d) in
  let cumulative_wind := scale3 (-1) (add3 ground_speed_vec environment_wind) in
  let wind_magnitude := norm3 cumulative_wind in
  to_uint16 wind_magnitude.

Definition get_course_over_ground (d : D) : Z :=
  let state := get_vector_state d in
  let xyz_dot := (state 3%nat, state 4%nat, state 5%nat) in
  let '(xd, yd, _) := xyz_dot in
  to_uint16 (((atan2 xd yd * 180) / M_PI) * 100).

Definition get_vehicle_yaw_wrt_earth_north (d : D) : Z :=
  let state := get_vector_state d in
  let yaw := wrap_u 16 (round ((((state 8%nat) * 180) / M_PI) * 100)) in
  if (yaw =? 0)%Z then wrap_u 16 (yaw + 1) else yaw.

Definition hil_state_quaternion_msg (d : D) (system_id component_id : Z)
  : mavlink_message_t :=
  let attitude := get_attitude d in
  let '(r, p, y) := get_rpy_speed d in
  let '(lat, lon, alt) := get_lat_lon_alt d in
  let '(g0, g1, g2) := get_ground_speed d in
  let '(fa0, fa1, fa2) := get_body_frame_acceleration d in
  let true_wind_speed := get_true_wind_speed d in
  let acc0 := wrap_s 16 (round ((fa0 / G_FORCE) * 1000)) in
  let acc1 := wrap_s 16 (round ((fa1 / G_FORCE) * 1000)) in
  let acc2 := wrap_s 16 (round ((fa2 / G_FORCE) * 1000)) in
  {| sysid := system_id; compid := component_id;
     body := HIL_STATE_QUATERNION
       {| hsq_time_usec := get_sim_time d;
          hsq_attitude_quaternion := attitude;
          hsq_rollspeed := r; hsq_pitchspeed := p; hsq_yawspeed := y;
          hsq_lat := lat; hsq_lon := lon; hsq_alt := alt;
          hsq_vx := g0; hsq_vy := g1; hsq_vz := g2;
          hsq_ind_airspeed := true_wind_speed;
          hsq_true_airspeed := true_wind_speed;
          hsq_xacc := acc0; hsq_yacc := acc1; hsq_zacc := acc2 |} |}.

Definition hil_sensor_msg (d : D) (system_id component_id : Z)
  : mavlink_message_t :=
  let '(a0, a1, a2) := get_body_frame_acceleration d in
  let '(gx, gy, gz) := get_rpy_speed d in
  let lat_lon_alt := get_lat_lon_alt d in
  let '(_, _, alt) := lat_lon_alt in
  let abs_pressure := to_float (alt_to_baro (IZR alt / 1000) / 100) in
  let diff_pressure := 0 in
  let mag_field_vec := magnetic_field_for_latlonalt lat_lon_alt in
  {| sysid := system_id; compid := component_id;
     body := HIL_SENSOR
       {| sen_time_usec := get_sim_time d;
          sen_xacc := a0; sen_yacc := a1; sen_zacc := a2;
          sen_xgyro := gx; sen_ygyro := gy; sen_zgyro := gz;
          sen_xmag := vx mag_field_vec;
          sen_ymag := vy mag_field_vec;
          sen_zmag := vz mag_field_vec;
          sen_abs_pressure := abs_pressure;
          sen_diff_pressure := diff_pressure;
          sen_pressure_alt := IZR alt;
          sen_temperature := get_temperature_reading d;
          sen_fields_updated :=
            Z.lor (Z.lor (Z.lor 7 56) 448) 7680;
          sen_id := 0 |} |}.

(** The local [course_over_ground] is initialised to 0 and packed as it is:
    no statement of [hil_gps_msg] assigns it. *)
Definition hil_gps_msg (d : D) (system_id component_id : Z)
  : mavlink_message_t :=
  let course_over_ground := 0%Z in
  let sat_visible := 255%Z in
  let eph := to_uint16 ((3 / 10) * 100) in
  let epv := to_uint16 ((4 / 10) * 100) in
  let '(l0, l1, l2) := get_lat_lon_alt d in
  let '(vn, ve, vd) := get_earth_fixed_velocity d in
  let vehicle_yaw := get_vehicle_yaw_wrt_earth_north d in
  let '(s0, s1, s2) := get_ground_speed d in
  let ground_speed := (wrap_u 16 s0, wrap_u 16 s1, wrap_u 16 s2) in
  let '(u0, u1, _) := ground_speed in
  let gps_ground_speed := to_uint16 (sqrt (IZR u0 ^ 2 + IZR u1 ^ 2)) in
  {| sysid := system_id; compid := component_id;
     body := HIL_GPS
       {| gps_time_usec := get_sim_time d;
          gps_fix_type := 3;
          gps_lat := l1;
          gps_lon := l0;
          gps_alt := l2;
          gps_eph := eph;
          gps_epv := epv;
          gps_vel := gps_ground_speed;
          gps_vn := vn; gps_ve := ve; gps_vd := vd;
          gps_cog := course_over_ground;
          gps_satellites_visible := sat_visible;
          gps_id := 0;
          gps_yaw := vehicle_yaw |} |}.

(** [now_unix_usec] is the reading of the host's [system_clock]. *)
Definition system_time_msg (d : D) (now_unix_usec : Z)
  (system_id component_id : Z) : mavlink_message_t :=
  let time_unix_usec := now_unix_usec in
  let time_boot_ms := wrap_u 32 (get_sim_time d / 1000) in
  {| sysid := system_id; compid := component_id;
     body := SYSTEM_TIME
       {| st_time_unix_usec := time_unix_usec;
          st_time_boot_ms := time_boot_ms |} |}.

End Getters.

End Encoder.

(** ** The vehicle and its HIL loop ([Drone.cpp]) *)

Module Drone.
Import Conv Mavlink Encoder.

(** *** Collaborating objects *)

(** Modelled from the spec: [Clock] is a collaborator outside the sources,
    with [current_time_us () -> microseconds] and [unlock_time ()]; the
    lock is what the pacing thread waits on. *)
Record Clock := {
  current_time_us : Z;
  time_locked : bool }.

Definition unlock_time (c : Clock) : Clock :=
  {| current_time_us := current_time_us c; time_locked := false |}.

(** Modelled from the spec: [MAVLinkMessageRelay] is a collaborator outside
    the sources, with [enqueue_message (frame)] and
    [connection_open () -> bool]; [enqueued] lists the arguments of the
    calls of [enqueue_message], oldest first. *)
Record MAVLinkMessageRelay := {
  connection_open : bool;
  enqueued : list mavlink_message_t }.

Definition enqueue_message (m : mavlink_message_t) (r : MAVLinkMessageRelay)
  : MAVLinkMessageRelay :=
  {| connection_open := connection_open r; enqueued := enqueued r ++ [m] |}.

(** The base class [MAVLinkSystem (1, 1)]. *)
Record MAVLinkSystem := {
  system_id : Z;
  component_id : Z }.

(** The base class [DynamicObject]: the state vector, its derivative and
    the clock it was constructed with. *)
Record DynamicObject := {
  state : VectorXd;
  dx_state : VectorXd;
  clock : Clock }.

(** Modelled from the spec: the three controllers are stateful holders of
    the most recent command vector, which [set_control] replaces. *)
Record Controllers := {
  thrust_propellers : list R;
  ailerons : list R;
  vtol_propellers : list R }.

(** The members the loop controller works on.  They are declared in
    [Drone.h], which is not part of the sources: the counters are integers
    whose increments are taken without overflow, and the telemetry period
    holds the value it is assigned. *)
Record HilLoop := {
  armed : bool;
  should_reply_lockstep : bool;
  hil_actuator_controls_msg_n : Z;
  sys_time_throttle_counter : Z;
  last_autopilot_telemetry : Z;
  hil_state_quaternion_message_frequency : R }.

Record Drone := {
  mavlink_system : MAVLinkSystem;
  dynamic_object : DynamicObject;
  controllers : Controllers;
  hil : HilLoop;
  connection : MAVLinkMessageRelay;
  message_queue : list mavlink_message_t;
  ground_height : R;
  mav_mode : Z;
  system_clock_now : Z }.

(** Code that [Drone.cpp] calls and the sources do not contain.
    [MAVLinkSystem_update] and [DynamicObject_update] are the [update]
    methods of the two base classes, each acting on its own sub-object; the
    integrator samples the controllers through the callbacks installed by
    [_setup_drone].  The three [sensors_] functions are the readings of
    [get_sensors ()]. *)
Class Plant := {
  MAVLinkSystem_update : Z -> MAVLinkSystem -> MAVLinkSystem;
  DynamicObject_update : Z -> Controllers -> DynamicObject -> DynamicObject;
  sensors_get_earth_frame_position : DynamicObject -> Vector3d;
  sensors_get_earth_frame_velocity : DynamicObject -> Vector3d;
  sensors_get_body_frame_acceleration : DynamicObject -> Vector3d }.

(** *** Field updates *)

Definition set_state (x : VectorXd) (o : DynamicObject) : DynamicObject :=
  {| state := x; dx_state := dx_state o; clock := clock o |}.
Definition set_dx_state (dx : VectorXd) (o : DynamicObject) : DynamicObject :=
  {| state := state o; dx_state := dx; clock := clock o |}.
Definition set_clock (c : Clock) (o : DynamicObject) : DynamicObject :=
  {| state := state o; dx_state := dx_state o; clock := c |}.

Definition set_armed (b : bool) (h : HilLoop) : HilLoop :=
  {| armed := b;
     should_reply_lockstep := should_reply_lockstep h;
     hil_actuator_controls_msg_n := hil_actuator_controls_msg_n h;
     sys_time_throttle_counter := sys_time_throttle_counter h;
     last_autopilot_telemetry := last_autopilot_telemetry h;
     hil_state_quaternion_message_frequency :=
       hil_state_quaternion_message_frequency h |}.
Definition set_should_reply_lockstep (b : bool) (h : HilLoop) : HilLoop :=
  {| armed := armed h;
     should_reply_lockstep := b;
     hil_actuator_controls_msg_n := hil_actuator_controls_msg_n h;
     sys_time_throttle_counter := sys_time_throttle_counter h;
     last_autopilot_telemetry := last_autopilot_telemetry h;
     hil_state_quaternion_message_frequency :=
       hil_state_quaternion_message_frequency h |}.
Definition set_hil_actuator_controls_msg_n (n : Z) (h : HilLoop) : HilLoop :=
  {| armed := armed h;
     should_reply_lockstep := should_reply_lockstep h;
     hil_actuator_controls_msg_n := n;
     sys_time_throttle_counter := sys_time_throttle_counter h;
     last_autopilot_telemetry := last_autopilot_telemetry h;
     hil_state_quaternion_message_frequency :=
       hil_state_quaternion_message_frequency h |}.
Definition set_sys_time_throttle_counter (n : Z) (h : HilLoop) : HilLoop :=
  {| armed := armed h;
     should_reply_lockstep := should_reply_lockstep h;
     hil_actuator_controls_msg_n := hil_actuator_controls_msg_n h;
     sys_time_throttle_counter := n;
     last_autopilot_telemetry := last_autopilot_telemetry h;
     hil_state_quaternion_message_frequency :=
       hil_state_quaternion_message_frequency h |}.
Definition set_last_autopilot_telemetry (t : Z) (h : HilLoop) : HilLoop :=
  {| armed := armed h;
     should_reply_lockstep := should_reply_lockstep h;
     hil_actuator_controls_msg_n := hil_actuator_controls_msg_n h;
     sys_time_throttle_counter := sys_time_throttle_counter h;
     last_autopilot_telemetry := t;
     hil_state_quaternion_message_frequency :=
       hil_state_quaternion_message_frequency h |}.
Definition set_hil_state_quaternion_message_frequency (f : R) (h : HilLoop)
  : HilLoop :=
  {| armed := armed h;
     should_reply_lockstep := should_reply_lockstep h;
     hil_actuator_controls_msg_n := hil_actuator_controls_msg_n h;
     sys_time_throttle_counter := sys_time_throttle_counter h;
     last_autopilot_telemetry := last_autopilot_telemetry h;
     hil_state_quaternion_message_frequency := f |}.

Definition with_mavlink_system (f : MAVLinkSystem -> MAVLinkSystem) (d : Drone)
  : Drone :=
  {| mavlink_system := f (mavlink_system d);
     dynamic_object := dynamic_object d;
     controllers := controllers d;
     hil := hil d;
     connection := connection d;
     message_queue := message_queue d;
     ground_height := ground_height d;
     mav_mode := mav_mode d;
     system_clock_now := system_clock_now d |}.
Definition with_dynamic_object (f : DynamicObject -> DynamicObject) (d : Drone)
  : Drone :=
  {| mavlink_system := mavlink_system d;
     dynamic_object := f (dynamic_object d);
     controllers := controllers d;
     hil := hil d;
     connection := connection d;
     message_queue := message_queue d;
     ground_height := ground_height d;
     mav_mode := mav_mode d;
     system_clock_now := system_clock_now d |}.
Definition with_controllers (f : Controllers -> Controllers) (d : Drone)
  : Drone :=
  {| mavlink_system := mavlink_system d;
     dynamic_object := dynamic_object d;
     controllers := f (controllers d);
     hil := hil d;
     connection := connection d;
     message_queue := message_queue d;
     ground_height := ground_height d;
     mav_mode := mav_mode d;
     system_clock_now := system_clock_now d |}.
Definition with_hil (f : HilLoop -> HilLoop) (d : Drone) : Drone :=
  {| mavlink_system := mavlink_system d;
     dynamic_object := dynamic_object d;
     controllers := controllers d;
     hil := f (hil d);
     connection := connection d;
     message_queue := message_queue d;
     ground_height := ground_height d;
     mav_mode := mav_mode d;
     system_clock_now := system_clock_now d |}.
Definition with_connection (f : MAVLinkMessageRelay -> MAVLinkMessageRelay)
  (d : Drone) : Drone :=
  {| mavlink_system := mavlink_system d;
     dynamic_object := dynamic_object d;
     controllers := controllers d;
     hil := hil d;
     connection := f (connection d);
     message_queue := message_queue d;
     ground_height := ground_height d;
     mav_mode := mav_mode d;
     system_clock_now := system_clock_now d |}.
Definition set_message_queue (q : list mavlink_message_t) (d : Drone) : Drone :=
  {| mavlink_system := mavlink_system d;
     dynamic_object := dynamic_object d;
     controllers := controllers d;
     hil := hil d;
     connection := connection d;
     message_queue := q;
     ground_height := ground_height d;
     mav_mode := mav_mode d;
     system_clock_now := system_clock_now d |}.
Definition set_ground_height (z : R) (d : Drone) : Drone :=
  {| mavlink_system := mavlink_system d;
     dynamic_object := dynamic_object d;
     controllers := controllers d;
     hil := hil d;
     connection := connection d;
     message_queue := message_queue d;
     ground_height := z;
     mav_mode := mav_mode d;
     system_clock_now := system_clock_now d |}.
Definition set_system_clock_now (t : Z) (d : Drone) : Drone :=
  {| mavlink_system := mavlink_system d;
     dynamic_object := dynamic_object d;
     controllers := controllers d;
     hil := hil d;
     connection := connection d;
     message_queue := message_queue d;
     ground_height := ground_height d;
     mav_mode := mav_mode d;
     system_clock_now := t |}.

(** [v[i] = a] *)
Definition set_at (i : nat) (a : R) (v : VectorXd) : VectorXd :=
  fun j => if Nat.eqb j i then a else v j.

(** [v.segment(start, n) = Eigen::VectorXd::Zero(n)] *)
Definition zero_segment (start n : nat) (v : VectorXd) : VectorXd :=
  fun j => if Nat.leb start j && Nat.ltb j (start + n) then 0 else v j.

(** *** [DroneStateEncoder] as implemented by the drone *)

Definition get_sim_time (d : Drone) : Z :=
  wrap_u 64 (current_time_us (clock (dynamic_object d))).

Definition get_mav_mode (d : Drone) : Z := mav_mode d.

Definition get_vector_state (d : Drone) : VectorXd := state (dynamic_object d).

Definition get_vector_dx_state (d : Drone) : VectorXd :=
  dx_state (dynamic_object d).

Definition get_environment_wind (d : Drone) : Vector3d :=
  let wind := Vector3d_zero in
  wind.

Definition get_temperature_reading (d : Drone) : R := 25.

#[export] Instance Drone_encoder : DroneStateEncoder Drone := {|
  Encoder.get_sim_time := get_sim_time;
  Encoder.get_environment_wind := get_environment_wind;
  Encoder.get_temperature_reading := get_temperature_reading;
  Encoder.get_vector_state := get_vector_state;
  Encoder.get_vector_dx_state := get_vector_dx_state |}.

(** *** The member functions *)

Section Loop.
Context `{Plant} `{External}.

(** The condition under which [fake_ground_transform] clamps. *)
Definition ground_contact (us : Z) (d : Drone) : Prop :=
  let dt := (IZR us / 1000) / 1000 in
  let position := sensors_get_earth_frame_position (dynamic_object d) in
  let velocity := sensors_get_earth_frame_velocity (dynamic_object d) in
  let acceleration :=
    body2earth (state (dynamic_object d))
      (sensors_get_body_frame_acceleration (dynamic_object d)) in
  vz position >= ground_height d - 1 / 1000
  /\ vz velocity + vz acceleration * dt >= 0.

Definition fake_ground_transform (us : Z) (d : Drone) : Drone :=
  let dt := (IZR us / 1000) / 1000 in
  let position := sensors_get_earth_frame_position (dynamic_object d) in
  let velocity := sensors_get_earth_frame_velocity (dynamic_object d) in
  let acceleration :=
    body2earth (state (dynamic_object d))
      (sensors_get_body_frame_acceleration (dynamic_object d)) in
  if Rge_dec (vz position) (ground_height d - 1 / 1000) then
    if Rge_dec (vz velocity + vz acceleration * dt) 0 then
      with_dynamic_object
        (fun o =>
           let o := set_state (set_at 2 0 (state o)) o in
           let o := set_state (zero_segment 3 3 (state o)) o in
           let o := set_dx_state (zero_segment 3 3 (dx_state o)) o in
           let o := set_dx_state (set_at 5 G_FORCE (dx_state o)) o in
           let o := set_state (zero_segment 9 3 (state o)) o in
           let o := set_state (zero_segment 6 3 (state o)) o in
           o)
        d
    else d
  else d.

Definition _publish_hil_gps (d : Drone) : Drone :=
  with_connection
    (enqueue_message
       (hil_gps_msg d (system_id (mavlink_system d))
          (component_id (mavlink_system d))))
    d.

Definition _publish_system_time (d : Drone) : Drone :=
  with_connection
    (enqueue_message
       (system_time_msg d (system_clock_now d) (system_id (mavlink_system d))
          (component_id (mavlink_system d))))
    d.

Definition _publish_hil_sensor (d : Drone) : Drone :=
  with_connection
    (enqueue_message
       (hil_sensor_msg d (system_id (mavlink_system d))
          (component_id (mavlink_system d))))
    d.

Definition _publish_hil_state_quaternion (d : Drone) : Drone :=
  let msg :=
    hil_state_quaternion_msg d (system_id (mavlink_system d))
      (component_id (mavlink_system d)) in
  with_connection (enqueue_message msg) d.

(** The condition of the second early return, before its negation. *)
Definition lockstep_gate (d : Drone) : bool :=
  should_reply_lockstep (hil d)
  || (hil_actuator_controls_msg_n (hil d) <? 300)%Z.

Definition _publish_state (us : Z) (d : Drone) : Drone :=
  if negb (connection_open (connection d)) then d
  else if negb (lockstep_gate d) then d
  else
    let d := with_dynamic_object (fun o => set_clock (unlock_time (clock o)) o) d in
    let counter := sys_time_throttle_counter (hil d) in
    let d := with_hil (set_sys_time_throttle_counter (counter + 1)) d in
    let d :=
      if negb (counter mod 1000 =? 0)%Z then _publish_system_time d else d in
    let d := _publish_hil_gps d in
    let d := _publish_hil_sensor d in
    let d := with_hil (set_should_reply_lockstep false) d in
    let now := current_time_us (clock (dynamic_object d)) in
    let should_send_autopilot_telemetry :=
      Rgt_dec (IZR (now - last_autopilot_telemetry (hil d)))
        (hil_state_quaternion_message_frequency (hil d)) in
    if should_send_autopilot_telemetry then
      let d := with_hil (set_last_autopilot_telemetry now) d in
      _publish_hil_state_quaternion d
    else d.

Definition command_ack_pack (system_id component_id : Z)
  (command result progress result_param2 target_system target_component : Z)
  : mavlink_message_t :=
  {| sysid := system_id; compid := component_id;
     body := COMMAND_ACK
       {| ack_command := command;
          ack_result := result;
          ack_progress := progress;
          ack_result_param2 := result_param2;
          ack_target_system := target_system;
          ack_target_component := target_component |} |}.

Definition _process_command_long_message (command : mavlink_command_long_t)
  (d : Drone) : Drone :=
  let command_id := cl_command command in
  let d :=
    if (command_id =? MAV_CMD_SET_MESSAGE_INTERVAL)%Z then
      with_hil
        (set_hil_state_quaternion_message_frequency (cl_param2 command)) d
    else d in
  let command_ack_msg :=
    command_ack_pack (system_id (mavlink_system d))
      (component_id (mavlink_system d)) command_id 0 0 0
      (cl_target_system command) (cl_target_component command) in
  with_connection (enqueue_message command_ack_msg) d.

Definition _process_hil_actuator_controls
  (controls : mavlink_hil_actuator_controls_t) (d : Drone) : Drone :=
  let d := with_hil (set_should_reply_lockstep true) d in
  let d :=
    with_hil
      (set_hil_actuator_controls_msg_n (hil_actuator_controls_msg_n (hil d) + 1))
      d in
  let d :=
    with_hil
      (set_armed
         (Z.land (hac_mode controls) MAV_MODE_FLAG_SAFETY_ARMED >? 0)%Z)
      d in
  let vtol_prop_controls :=
    map (hac_controls controls) [0; 1; 2; 3]%nat in
  let ailerons_controls :=
    map (fun i => hac_controls controls (4 + i)%nat) [0; 1]%nat in
  let thrust_propeller_controls :=
    map (fun i => hac_controls controls (8 + i)%nat) [0]%nat in
  with_controllers
    (fun _ =>
       {| thrust_propellers := thrust_propeller_controls;
          ailerons := ailerons_controls;
          vtol_propellers := vtol_prop_controls |})
    d.

Definition _process_mavlink_message (m : mavlink_message_t) (d : Drone)
  : Drone :=
  match body m with
  | HEARTBEAT => d
  | HIL_ACTUATOR_CONTROLS c => _process_hil_actuator_controls c d
  | COMMAND_LONG c => _process_command_long_message c d
  | _ => d
  end.

(** The acknowledgements [_process_command_long_message] packs for the
    [COMMAND_LONG] frames of a queue, in the order of the queue. *)
Definition command_acks (s : MAVLinkSystem) (q : list mavlink_message_t)
  : list mavlink_message_t :=
  flat_map
    (fun m =>
       match body m with
       | COMMAND_LONG c =>
           [command_ack_pack (system_id s) (component_id s) (cl_command c)
              0 0 0 (cl_target_system c) (cl_target_component c)]
       | _ => []
       end)
    q.

(** [consume_all] hands every queued frame to the callback, oldest first,
    and leaves the queue empty. *)
Definition _process_mavlink_messages (d : Drone) : Drone :=
  fold_left (fun d m => _process_mavlink_message m d) (message_queue d)
    (set_message_queue [] d).

Definition handle_mavlink_message (m : mavlink_message_t) (d : Drone) : Drone :=
  set_message_queue (message_queue d ++ [m]) d.

Definition update (us : Z) (d : Drone) : Drone :=
  let d := with_mavlink_system (MAVLinkSystem_update us) d in
  let d := with_dynamic_object (DynamicObject_update us (controllers d)) d in
  let d := fake_ground_transform us d in
  let d := _process_mavlink_messages d in
  _publish_state us d.

(** The phase order the specification gives for a tick, for comparison
    with [update]: inbound-drain, integrate, correct, publish. *)
Definition update_in_spec_order (us : Z) (d : Drone) : Drone :=
  let d := with_mavlink_system (MAVLinkSystem_update us) d in
  let d := _process_mavlink_messages d in
  let d := with_dynamic_object (DynamicObject_update us (controllers d)) d in
  let d := fake_ground_transform us d in
  _publish_state us d.

(** *** Runs of several ticks *)

(** What reaches the drone between two ticks: the frames the relay's I/O
    thread hands to [handle_mavlink_message], the state of the connection
    and the host clock. *)
Record TickInput := {
  inbound : list mavlink_message_t;
  relay_open : bool;
  host_clock : Z }.

(** A tick input during which the relay is open and no
    [HIL_ACTUATOR_CONTROLS] arrives. *)
Definition unanswered (i : TickInput) : Prop :=
  relay_open i = true
  /\ Forall (fun m => is_hil_actuator_controls m = false) (inbound i).

(** A tick input in which no [HIL_ACTUATOR_CONTROLS] arrives, the relay
    being open or closed. *)
Definition silent (i : TickInput) : Prop :=
  Forall (fun m => is_hil_actuator_controls m = false) (inbound i).

Definition arrive (i : TickInput) (d : Drone) : Drone :=
  let d :=
    with_connection
      (fun r =>
         {| connection_open := relay_open i; enqueued := enqueued r |}) d in
  let d := set_system_clock_now (host_clock i) d in
  fold_left (fun d m => handle_mavlink_message m d) (inbound i) d.

Definition tick (us : Z) (d : Drone) (i : TickInput) : Drone :=
  update us (arrive i d).

Definition run (us : Z) (inputs : list TickInput) (d : Drone) : Drone :=
  fold_left (tick us) inputs d.

(** The drone after the first three calls of [update] in the tick that
    starts from [d]: the two base-class updates and the corrector. *)
Definition after_dynamics (us : Z) (d : Drone) : Drone :=
  let d := with_mavlink_system (MAVLinkSystem_update us) d in
  let d := with_dynamic_object (DynamicObject_update us (controllers d)) d in
  fake_ground_transform us d.

(** The drone as [_publish_state] finds it in that tick. *)
Definition before_publish (us : Z) (d : Drone) : Drone :=
  _process_mavlink_messages (after_dynamics us d).

(** The frames a call of [_publish_state] hands to the relay. *)
Definition published (us : Z) (d : Drone) : list mavlink_message_t :=
  skipn (length (enqueued (connection d)))
    (enqueued (connection (_publish_state us d))).

(** The frames [_publish_state] hands to the relay in the tick that
    starts from [d]. *)
Definition telemetry_of_tick (us : Z) (d : Drone) : list mavlink_message_t :=
  published us (before_publish us d).

(** All frames handed to the relay during the tick that starts from [d]. *)
Definition frames_of_tick (us : Z) (d : Drone) : list mavlink_message_t :=
  skipn (length (enqueued (connection d)))
    (enqueued (connection (update us d))).

End Loop.

End Drone.

(** ** The variant of [Drone.cpp] without the ground corrector *)

Module LegacyDrone.
Import Conv Mavlink Encoder Drone.

Definition _process_command_long_message (command : mavlink_command_long_t)
  (d : Drone) : Drone :=
  let command_id := cl_command command in
  let d :=
    if (command_id =? MAV_CMD_SET_MESSAGE_INTERVAL)%Z then
      with_hil
        (set_hil_state_quaternion_message_frequency (cl_param1 command)) d
    else d in
  let command_ack_msg :=
    command_ack_pack (system_id (mavlink_system d))
      (component_id (mavlink_system d)) command_id 0 0 0
      (cl_target_system command) (cl_target_component command) in
  with_connection (enqueue_message command_ack_msg) d.

End LegacyDrone.

(** ** The formulas as the specification words them *)

Module SpecFormulas.

(** Attitude quaternion [(q_x, q_y, q_z, q_w)] of the ZYX convention. *)
Definition zyx_quaternion (phi theta psi : R) : R * R * R * R :=
  let q_x := sin (phi / 2) * cos (theta / 2) * cos (psi / 2)
             - cos (phi / 2) * sin (theta / 2) * sin (psi / 2) in
  let q_y := cos (phi / 2) * sin (theta / 2) * cos (psi / 2)
             + sin (phi / 2) * cos (theta / 2) * sin (psi / 2) in
  let q_z := cos (phi / 2) * cos (theta / 2) * sin (psi / 2)
             - sin (phi / 2) * sin (theta / 2) * cos (psi / 2) in
  let q_w := cos (phi / 2) * cos (theta / 2) * cos (psi / 2)
             + sin (phi / 2) * sin (theta / 2) * sin (psi / 2) in
  (q_x, q_y, q_z, q_w).

Definition P_b : R := 101325.
Definition T_b : R := 288 + 15 / 100.
Definition L_b : R := - (65 / 10000).
Definition g : R := 9 + 80665 / 100000.
Definition M : R := 289644 / 10000000.
Definition R_gas : R := 8 + 31432 / 100000.

(** ISA pressure below the tropopause. *)
Definition isa_troposphere (alt : R) : R :=
  P_b * Rpower (T_b / (T_b + L_b * alt)) (g * M / (R_gas * L_b)).

(** Piecewise ISA altitude-to-pressure formula, in Pa. *)
Definition isa_pressure (alt : R) : R :=
  if Rle_dec alt 11000 then isa_troposphere alt
  else if Rle_dec alt 20000 then
    isa_troposphere 11000
    * exp (- g * M * (alt - 11000) / (R_gas * (T_b + 11000 * L_b)))
  else 0.

End SpecFormulas.

(** ** A test bench

    Concrete collaborators and a freshly constructed drone, for running the
    loop on explicit inputs. *)

Module Bench.
Import Conv Mavlink Encoder Drone.

Definition thrust_command (c : Controllers) : R := nth 0 (thrust_propellers c) 0.

(** A one-axis plant: the forward acceleration is the thrust command and
    the forward speed is advanced by one Euler step; the sensors read the
    position, velocity and acceleration off the two vectors. *)
Definition bench_plant : Plant := {|
  MAVLinkSystem_update := fun _ s => s;
  DynamicObject_update := fun us c o =>
    let dt := IZR us / 1000000 in
    let x := state o in
    set_dx_state (set_at 3 (thrust_command c) (dx_state o))
      (set_state (set_at 3 (x 3%nat + thrust_command c * dt) x) o);
  sensors_get_earth_frame_position := fun o => segment3 (state o) 0;
  sensors_get_earth_frame_velocity := fun o => segment3 (dx_state o) 0;
  sensors_get_body_frame_acceleration := fun o => segment3 (dx_state o) 3 |}.

(** Level attitude, a flat earth that keeps the origin's latitude and
    longitude, and a conversion to float without loss, which has both
    properties asked of [to_float]. *)
Definition bench_external : External := {|
  body2earth := fun _ v => v;
  convertState2LlA := fun lat0 lon0 x =>
    {| vx := lat0; vy := lon0; vz := - x 2%nat |};
  magnetic_field_for_latlonalt := fun _ => Vector3d_zero;
  to_float := fun x => x;
  to_float_exact := fun x _ => eq_refl;
  to_float_monotone := fun x y Hxy => Hxy |}.

Definition zero_vector : VectorXd := fun _ => 0.

Definition fresh_drone : Drone := {|
  mavlink_system := {| system_id := 1; component_id := 1 |};
  dynamic_object :=
    {| state := zero_vector;
       dx_state := zero_vector;
       clock := {| current_time_us := 0; time_locked := true |} |};
  controllers :=
    {| thrust_propellers := []; ailerons := []; vtol_propellers := [] |};
  hil :=
    {| armed := false;
       should_reply_lockstep := false;
       hil_actuator_controls_msg_n := 0;
       sys_time_throttle_counter := 0;
       last_autopilot_telemetry := 0;
       hil_state_quaternion_message_frequency := 1000000 |};
  connection := {| connection_open := true; enqueued := [] |};
  message_queue := [];
  ground_height := 0;
  mav_mode := 0;
  system_clock_now := 0 |}.

(** The fresh drone with the given state vector and derivative. *)
Definition drone_at (x dx : VectorXd) : Drone :=
  with_dynamic_object (fun o => set_dx_state dx (set_state x o)) fresh_drone.

(** A tick during which nothing arrives and the relay is open. *)
Definition quiet_input : TickInput :=
  {| inbound := []; relay_open := true; host_clock := 0 |}.

Definition command_long (command : Z) (param1 param2 : R)
  : mavlink_command_long_t :=
  {| cl_target_system := 1; cl_target_component := 1;
     cl_command := command; cl_confirmation := 0;
     cl_param1 := param1; cl_param2 := param2; cl_param3 := 0;
     cl_param4 := 0; cl_param5 := 0; cl_param6 := 0; cl_param7 := 0 |}.

Definition frame (p : payload) : mavlink_message_t :=
  {| sysid := 255; compid := 0; body := p |}.

(** Full forward thrust, nothing else. *)
Definition full_thrust : mavlink_hil_actuator_controls_t :=
  {| hac_time_usec := 0;
     hac_controls := fun i => if Nat.eqb i 8 then 1 else 0;
     hac_mode := 128;
     hac_flags := 0 |}.

(** A runway 10 m above the origin of the NED frame, the vehicle at rest
    on it. *)
Definition raised_runway : Drone :=
  set_ground_height (- 10) (drone_at (set_at 2 (- 10) zero_vector) zero_vector).

(** The vehicle 100 m above the ground, at rest. *)
Definition airborne : Drone :=
  drone_at (set_at 2 (- 100) zero_vector) zero_vector.

(** Forward body speed 1 m/s, nothing else. *)
Definition heading_forward : Drone :=
  drone_at (set_at 3 1 zero_vector) zero_vector.

(** A [SET_MESSAGE_INTERVAL] command arrives while the relay is closed. *)
Definition command_while_closed : TickInput :=
  {| inbound :=
       [frame (COMMAND_LONG (command_long MAV_CMD_SET_MESSAGE_INTERVAL 0 50000))];
     relay_open := false;
     host_clock := 0 |}.

(** A [HEARTBEAT] arrives while the relay is closed. *)
Definition heartbeat_while_closed : TickInput :=
  {| inbound := [frame HEARTBEAT]; relay_open := false; host_clock := 0 |}.

(** One [HIL_ACTUATOR_CONTROLS] with full thrust arrives. *)
Definition thrust_arrives : TickInput :=
  {| inbound := [frame (HIL_ACTUATOR_CONTROLS full_thrust)];
     relay_open := true;
     host_clock := 0 |}.

End Bench.

(** ** The loop of the variant without the ground corrector

    The second [Drone.cpp] keeps its own [state], [dx_state] and [time] and
    has two controllers, [propellers] and [ailerons].  It is embedded on the
    record of the first: [time] is the clock's [current_time_us],
    [propellers] is the [thrust_propellers] field; the fields the variant
    does not have are never read or written. *)

Module LegacyLoop.
Import Conv Mavlink Encoder Drone.

(** Code the variant calls and the sources do not contain: the [update] of
    [MAVLinkSystem] and [dynamics_solver.do_step], which integrates from
    the given state, time and step and returns the state and the last
    derivative it evaluated. *)
Class Solver := {
  MAVLinkSystem_update : Z -> MAVLinkSystem -> MAVLinkSystem;
  do_step : Controllers -> VectorXd -> Z -> R -> VectorXd * VectorXd }.

Definition time (d : Drone) : Z := current_time_us (clock (dynamic_object d)).

Definition set_time (t : Z) (d : Drone) : Drone :=
  with_dynamic_object
    (fun o =>
       set_clock
         {| current_time_us := t; time_locked := time_locked (clock o) |} o)
    d.

(** The state the constructor leaves: all zero but [state[3] = 28]. *)
Definition initial_state : VectorXd := set_at 3 28 (set_at 2 0 (fun _ => 0)).

Section Loop.
Context `{Solver} `{External}.

Definition _step_dynamics (us : Z) (d : Drone) : Drone :=
  let '(x, dx) :=
    do_step (controllers d) (state (dynamic_object d))
      (get_sim_time d / 1000) (1 / 100) in
  let d := with_dynamic_object (fun o => set_dx_state dx (set_state x o)) d in
  set_time (time d + us) d.

Definition _publish_state (d : Drone) : Drone :=
  if negb (connection_open (connection d)) then d
  else
    let d := with_hil (set_last_autopilot_telemetry (time d)) d in
    let d := _publish_hil_gps d in
    let d := _publish_hil_sensor d in
    let d := _publish_system_time d in
    let should_send_autopilot_telemetry :=
      Rgt_dec (IZR (time d - last_autopilot_telemetry (hil d)))
        (hil_state_quaternion_message_frequency (hil d)) in
    if should_send_autopilot_telemetry then _publish_hil_state_quaternion d
    else d.

(** [set_control] is called twice on [propellers]: first with channel 8,
    then with channels 4 and 5. *)
Definition _process_hil_actuator_controls
  (controls : mavlink_hil_actuator_controls_t) (d : Drone) : Drone :=
  let d :=
    with_hil
      (set_armed
         (Z.land (hac_mode controls) MAV_MODE_FLAG_SAFETY_ARMED >? 0)%Z)
      d in
  let ailerons_controls :=
    map (fun i => hac_controls controls (4 + i)%nat) [0; 1]%nat in
  let propeller_controls :=
    map (fun i => hac_controls controls (8 + i)%nat) [0]%nat in
  let d :=
    with_controllers
      (fun c =>
         {| thrust_propellers := propeller_controls;
            ailerons := ailerons c;
            vtol_propellers := vtol_propellers c |})
      d in
  with_controllers
    (fun c =>
       {| thrust_propellers := ailerons_controls;
          ailerons := ailerons c;
          vtol_propellers := vtol_propellers c |})
    d.

Definition _process_mavlink_message (m : mavlink_message_t) (d : Drone)
  : Drone :=
  match body m with
  | HEARTBEAT => d
  | HIL_ACTUATOR_CONTROLS c => _process_hil_actuator_controls c d
  | COMMAND_LONG c => LegacyDrone._process_command_long_message c d
  | _ => d
  end.

Definition _process_mavlink_messages (d : Drone) : Drone :=
  fold_left (fun d m => _process_mavlink_message m d) (message_queue d)
    (set_message_queue [] d).

Definition update (us : Z) (d : Drone) : Drone :=
  let d := with_mavlink_system (MAVLinkSystem_update us) d in
  let d := _process_mavlink_messages d in
  let d := _publish_state d in
  _step_dynamics us d.

Definition tick (us : Z) (d : Drone) (i : TickInput) : Drone :=
  update us (arrive i d).

Definition run (us : Z) (inputs : list TickInput) (d : Drone) : Drone :=
  fold_left (tick us) inputs d.

(** The frames a call of [_publish_state] hands to the relay. *)
Definition published (d : Drone) : list mavlink_message_t :=
  skipn (length (enqueued (connection d)))
    (enqueued (connection (_publish_state d))).

End Loop.

End LegacyLoop.

(** ** Counting frames *)

Module Counting.
Import Mavlink.

(** Number of [HIL_ACTUATOR_CONTROLS] frames in a list. *)
Definition actuator_frames (q : list mavlink_message_t) : Z :=
  Z.of_nat (length (filter is_hil_actuator_controls q)).

End Counting.

(** ** More bench inputs *)

Module BenchMore.
Import Conv Mavlink Encoder Drone Bench.

(** A solver that leaves the state where it is and reports a zero
    derivative. *)
Definition still_solver : LegacyLoop.Solver := {|
  LegacyLoop.MAVLinkSystem_update := fun _ s => s;
  LegacyLoop.do_step := fun _ x _ _ => (x, zero_vector) |}.

(** The bench drone once 300 [HIL_ACTUATOR_CONTROLS] have been counted. *)
Definition after_bootstrap : Drone :=
  with_hil (set_hil_actuator_controls_msg_n 300) fresh_drone.

(** The bench drone with the simulation clock at 2 s. *)
Definition at_two_seconds : Drone :=
  with_dynamic_object
    (set_clock {| current_time_us := 2000000; time_locked := true |})
    fresh_drone.

(** Ground speed 1.5 m/s north, 2.5 m/s east. *)
Definition cruising : Drone :=
  drone_at zero_vector (set_at 1 (5 / 2) (set_at 0 (3 / 2) zero_vector)).

End BenchMore.

(** * Properties *)

(** ** Facts about the integer conversions *)

Module ConvFacts.
Import Conv.

Lemma Int_part_IZR (z : Z) : Int_part (IZR z) = z.
Proof.
  symmetry. apply Int_part_spec. split; lra.
Qed.

Lemma trunc_IZR (z : Z) : trunc (IZR z) = z.
Proof.
  unfold trunc. destruct (Rle_dec 0 (IZR z)) as [_ | _].
  - apply Int_part_IZR.
  - rewrite <- opp_IZR, Int_part_IZR. lia.
Qed.

Lemma trunc_between (r : R) (z : Z) :
  (0 <= z)%Z -> IZR z <= r < IZR z + 1 -> trunc r = z.
Proof.
  intros Hz [Hlo Hhi]. unfold trunc.
  assert (0 <= IZR z) by (apply IZR_le; exact Hz).
  destruct (Rle_dec 0 r) as [_ | Hn]; [| lra].
  symmetry. apply Int_part_spec. split; lra.
Qed.

Lemma wrap_u_small (w z : Z) : (0 <= z < 2 ^ w)%Z -> wrap_u w z = z.
Proof. intros H. unfold wrap_u. apply Z.mod_small. exact H. Qed.

Lemma wrap_s_range (z : Z) : (- 32768 <= wrap_s 16 z < 32768)%Z.
Proof.
  unfold wrap_s. change (2 ^ (16 - 1))%Z with 32768%Z.
  change (2 ^ 16)%Z with 65536%Z.
  pose proof (Z.mod_pos_bound (z + 32768) 65536 ltac:(lia)). lia.
Qed.

Example trunc_positive : trunc (3 / 2) = 1%Z.
Proof. apply trunc_between; [lia | lra]. Qed.

Example trunc_negative : trunc (- (3 / 2)) = (- 1)%Z.
Proof.
  unfold trunc. destruct (Rle_dec 0 (- (3 / 2))) as [Hle | _]; [lra |].
  replace (Int_part (- - (3 / 2))) with 1%Z; [reflexivity |].
  apply Int_part_spec. lra.
Qed.

Example round_half_away : round (5 / 2) = 3%Z /\ round (- (5 / 2)) = (- 3)%Z.
Proof.
  unfold round. split.
  - destruct (Rle_dec 0 (5 / 2)) as [_ | Hn]; [| lra].
    symmetry. apply Int_part_spec. lra.
  - destruct (Rle_dec 0 (- (5 / 2))) as [Hle | _]; [lra |].
    replace (Int_part (- - (5 / 2) + / 2)) with 3%Z; [reflexivity |].
    apply Int_part_spec. lra.
Qed.

Example int16_wraps : wrap_s 16 (400 * 100) = (- 25536)%Z.
Proof. reflexivity. Qed.

End ConvFacts.

(** ** Soundness of the exponential bounds *)

Module ExpBoundFacts.
Import ExpBound.

Lemma IZR_div_le (n d : Z) : (0 < d)%Z -> IZR (n / d) <= IZR n / IZR d.
Proof.
  intros Hd.
  assert (Hd' : 0 < IZR d) by (apply IZR_lt; exact Hd).
  apply Rmult_le_reg_r with (IZR d); [exact Hd' |].
  unfold Rdiv. rewrite Rmult_assoc, Rinv_l by lra. rewrite Rmult_1_r.
  rewrite <- mult_IZR. apply IZR_le.
  rewrite Z.mul_comm. apply Z.mul_div_le. exact Hd.
Qed.

Lemma square_down_sound (p : Z) (k : nat) :
  (0 <= p)%Z ->
  forall (l : Z) (y : R),
    (0 <= l)%Z ->
    IZR l / IZR (2 ^ p) <= exp y ->
    IZR (square_down p k l) / IZR (2 ^ p) <= exp (y * 2 ^ k).
Proof.
  intros Hp. induction k as [| k IH]; intros l y Hl Hle; simpl.
  - rewrite Rmult_1_r. exact Hle.
  - assert (Hpp : (0 < 2 ^ p)%Z) by (apply Z.pow_pos_nonneg; lia).
    assert (Hpr : 0 < IZR (2 ^ p)) by (apply IZR_lt; exact Hpp).
    replace (y * (2 * 2 ^ k)) with ((y + y) * 2 ^ k) by ring.
    apply IH.
    + apply Z.div_pos; [apply Z.mul_nonneg_nonneg; exact Hl | exact Hpp].
    + rewrite exp_plus.
      apply Rle_trans with ((IZR l / IZR (2 ^ p)) * (IZR l / IZR (2 ^ p))).
      * apply Rle_trans with (IZR (l * l) / IZR (2 ^ p) / IZR (2 ^ p)).
        -- apply Rmult_le_compat_r; [left; apply Rinv_0_lt_compat; exact Hpr |].
           apply IZR_div_le. exact Hpp.
        -- rewrite mult_IZR. right. field. lra.
      * assert (0 <= IZR l / IZR (2 ^ p)).
        { apply Rmult_le_pos; [apply IZR_le; exact Hl |].
          left. apply Rinv_0_lt_compat. exact Hpr. }
        apply Rmult_le_compat; assumption.
Qed.

Lemma exp_lb_sound (num den : Z) (k : nat) (p : Z) :
  (0 <= p)%Z -> (0 < den)%Z -> (0 <= den * 2 ^ Z.of_nat k + num)%Z ->
  IZR (exp_lb num den k p) / IZR (2 ^ p) <= exp (IZR num / IZR den).
Proof.
  intros Hp Hden Hpos. unfold exp_lb.
  set (D := (den * 2 ^ Z.of_nat k)%Z) in *.
  assert (H2k : (0 < 2 ^ Z.of_nat k)%Z) by (apply Z.pow_pos_nonneg; lia).
  assert (HD : (0 < D)%Z) by (unfold D; lia).
  assert (HDr : 0 < IZR D) by (apply IZR_lt; exact HD).
  assert (Hdr : 0 < IZR den) by (apply IZR_lt; exact Hden).
  assert (Hpp : (0 < 2 ^ p)%Z) by (apply Z.pow_pos_nonneg; lia).
  assert (Hpr : 0 < IZR (2 ^ p)) by (apply IZR_lt; exact Hpp).
  assert (Hk : IZR D = IZR den * 2 ^ k).
  { unfold D. rewrite mult_IZR. f_equal.
    change 2 with (IZR 2). rewrite pow_IZR. reflexivity. }
  assert (Hkr : 0 < 2 ^ k) by (apply pow_lt; lra).
  replace (IZR num / IZR den) with (IZR num / IZR D * 2 ^ k)
    by (rewrite Hk; field; lra).
  apply square_down_sound; [exact Hp | |].
  - apply Z.div_pos; [| exact HD]. apply Z.mul_nonneg_nonneg; lia.
  - apply Rle_trans with (1 + IZR num / IZR D); [| apply exp_ineq1_le].
    apply Rle_trans with (IZR (2 ^ p * (D + num)) / IZR D / IZR (2 ^ p)).
    + apply Rmult_le_compat_r; [left; apply Rinv_0_lt_compat; exact Hpr |].
      apply IZR_div_le. exact HD.
    + rewrite mult_IZR, plus_IZR. right. field. lra.
Qed.

(** The same bound read from the other side: [exp (- x) >= l] gives
    [exp x <= 1 / l]. *)
Lemma exp_ub_of_lb (x l : R) : 0 < l -> l <= exp (- x) -> exp x <= / l.
Proof.
  intros Hl Hle. rewrite exp_Ropp in Hle.
  pose proof (exp_pos x) as Hx.
  apply Rmult_le_reg_r with l; [exact Hl |].
  rewrite Rinv_l by lra.
  apply Rmult_le_reg_r with (/ exp x); [apply Rinv_0_lt_compat; exact Hx |].
  rewrite Rmult_1_l.
  replace (exp x * l * / exp x) with l by (field; lra).
  exact Hle.
Qed.

Lemma exp_gt_check_sound (num den n d : Z) (k : nat) (p : Z) :
  exp_gt_check num den n d k p = true ->
  IZR n / IZR d < exp (IZR num / IZR den).
Proof.
  unfold exp_gt_check. intros Hc.
  repeat (apply andb_prop in Hc; destruct Hc as [Hc ?]).
  apply Z.leb_le in Hc.
  repeat match goal with
         | Hb : (_ <? _)%Z = true |- _ => apply Z.ltb_lt in Hb
         | Hb : (_ <=? _)%Z = true |- _ => apply Z.leb_le in Hb
         end.
  pose proof (exp_lb_sound num den k p Hc ltac:(assumption) ltac:(assumption))
    as Hlb.
  assert (Hpp : (0 < 2 ^ p)%Z) by (apply Z.pow_pos_nonneg; lia).
  assert (Hpr : 0 < IZR (2 ^ p)) by (apply IZR_lt; exact Hpp).
  assert (Hd : 0 < IZR d) by (apply IZR_lt; assumption).
  eapply Rlt_le_trans; [| exact Hlb].
  apply Rmult_lt_reg_r with (IZR d * IZR (2 ^ p)); [nra |].
  replace (IZR n / IZR d * (IZR d * IZR (2 ^ p))) with (IZR n * IZR (2 ^ p))
    by (field; lra).
  replace (IZR (exp_lb num den k p) / IZR (2 ^ p) * (IZR d * IZR (2 ^ p)))
    with (IZR (exp_lb num den k p) * IZR d) by (field; lra).
  rewrite <- !mult_IZR. apply IZR_lt. assumption.
Qed.

(** [exp x < d / n] from a lower bound on [exp (- x)]. *)
Lemma exp_lt_check_sound (num den n d : Z) (k : nat) (p : Z) :
  (0 < n)%Z ->
  exp_gt_check (- num) den n d k p = true ->
  exp (IZR num / IZR den) < IZR d / IZR n.
Proof.
  intros Hn Hc.
  pose proof (exp_gt_check_sound _ _ _ _ _ _ Hc) as Hgt.
  unfold exp_gt_check in Hc.
  repeat (apply andb_prop in Hc; destruct Hc as [Hc ?]).
  repeat match goal with
         | Hb : (_ <? _)%Z = true |- _ => apply Z.ltb_lt in Hb
         end.
  assert (Hd : 0 < IZR d) by (apply IZR_lt; assumption).
  assert (Hnr : 0 < IZR n) by (apply IZR_lt; assumption).
  rewrite opp_IZR in Hgt.
  replace (- IZR num / IZR den) with (- (IZR num / IZR den)) in Hgt
    by (unfold Rdiv; ring).
  rewrite exp_Ropp in Hgt.
  pose proof (exp_pos (IZR num / IZR den)) as He.
  set (E := exp (IZR num / IZR den)) in *.
  apply Rmult_lt_reg_r with (IZR n / IZR d).
  - apply Rdiv_lt_0_compat; assumption.
  - replace (IZR d / IZR n * (IZR n / IZR d)) with 1 by (field; lra).
    apply Rmult_lt_reg_r with (/ E); [apply Rinv_0_lt_compat; exact He |].
    replace (E * (IZR n / IZR d) * / E) with (IZR n / IZR d) by (field; lra).
    rewrite Rmult_1_l. exact Hgt.
Qed.

End ExpBoundFacts.

(** ** Narrowing to float *)

Module FloatFacts.
Import Conv Encoder.

Lemma binary32_0 : binary32 0.
Proof. exists 0%Z, 0%Z. repeat split; try lia. simpl. lra. Qed.

Lemma binary32_G_FORCE : binary32 G_FORCE.
Proof.
  exists 10286531%Z, (-20)%Z. repeat split; try lia.
  unfold G_FORCE. simpl. lra.
Qed.

Lemma binary32_FLT_0001 : binary32 FLT_0001.
Proof.
  exists 13743895%Z, (-37)%Z. repeat split; try lia.
  unfold FLT_0001. simpl. lra.
Qed.

(** [2^-14], a float below [.0001f], and its opposite. *)
Lemma binary32_small : binary32 (/ 16384).
Proof. exists 1%Z, (-14)%Z. repeat split; try lia. simpl. lra. Qed.

Lemma binary32_small_opp : binary32 (- / 16384).
Proof. exists (-1)%Z, (-14)%Z. repeat split; try lia. simpl. lra. Qed.

(** The sea-level pressure in hPa, 1013.25. *)
Lemma binary32_sea_level : binary32 (4053 / 4).
Proof. exists 4053%Z, (-2)%Z. repeat split; try lia. simpl. lra. Qed.

Section AnyMachine.
Context `{External}.

Lemma to_float_0 : to_float 0 = 0.
Proof. apply to_float_exact, binary32_0. Qed.

Lemma to_float_G_FORCE : to_float G_FORCE = G_FORCE.
Proof. apply to_float_exact, binary32_G_FORCE. Qed.

Lemma to_float_nonneg (x : R) : 0 <= x -> 0 <= to_float x.
Proof. intros Hx. rewrite <- to_float_0. apply to_float_monotone, Hx. Qed.

(** A [double] of magnitude at most [2^-14] narrows to a float strictly
    between [-.0001f] and [.0001f]. *)
Lemma to_float_band (x : R) :
  - / 16384 <= x <= / 16384 -> - FLT_0001 < to_float x < FLT_0001.
Proof.
  intros [Hlo Hhi].
  pose proof (to_float_monotone _ _ Hlo) as H1.
  pose proof (to_float_monotone _ _ Hhi) as H2.
  rewrite (to_float_exact _ binary32_small_opp) in H1.
  rewrite (to_float_exact _ binary32_small) in H2.
  unfold FLT_0001. lra.
Qed.

(** A [double] at or beyond [.0001f] narrows to a float at or beyond it. *)
Lemma to_float_beyond (x : R) : FLT_0001 <= x -> FLT_0001 <= to_float x.
Proof.
  intros Hx. rewrite <- (to_float_exact _ binary32_FLT_0001) at 1.
  apply to_float_monotone, Hx.
Qed.

Section AnyEncoder.
Context {D : Type} `{DroneStateEncoder D}.

(** The two outcomes of [get_body_frame_acceleration]. *)
Lemma body_frame_acceleration_cases (d : D) :
  let dx := get_vector_dx_state d in
  (- FLT_0001 < to_float (dx 5%nat) < FLT_0001
   /\ get_body_frame_acceleration d
      = (to_float (dx 3%nat), to_float (dx 4%nat), - G_FORCE))
  \/ (~ (- FLT_0001 < to_float (dx 5%nat) < FLT_0001)
      /\ get_body_frame_acceleration d
         = (to_float (dx 3%nat), to_float (dx 4%nat), to_float (dx 5%nat))).
Proof.
  cbv zeta. unfold get_body_frame_acceleration. cbv zeta.
  destruct (Rlt_dec _ _) as [Hlt | Hge];
    [destruct (Rgt_dec _ _) as [Hgt | Hle] |].
  - left. split; [split; [exact Hgt | exact Hlt] | reflexivity].
  - right. split; [| reflexivity]. unfold Rgt in *. lra.
  - right. split; [| reflexivity]. lra.
Qed.

End AnyEncoder.

End AnyMachine.

End FloatFacts.

(** ** The encoder's formulas *)

Module EncoderFacts.
Import Conv Mavlink Encoder SpecFormulas ExpBound ExpBoundFacts.

(** *** Attitude quaternion *)


(** C7: for every Euler triple the encoder's quaternion is, component by
    component, the ZYX formula of the specification, and the triple
    (0, 0, 0) gives (0, 0, 0, 1). *)
Theorem euler_to_quaterions_zyx :
  (forall roll pitch yaw : R,
      euler_to_quaterions (roll, pitch, yaw) = zyx_quaternion roll pitch yaw)
  /\ euler_to_quaterions (0, 0, 0) = (0, 0, 0, 1).
Proof.
  split.
  - intros roll pitch yaw. unfold euler_to_quaterions, zyx_quaternion.
    reflexivity.
  - unfold euler_to_quaterions.
    replace (0 / 2) with 0 by field.
    rewrite sin_0, cos_0.
    repeat f_equal; ring.
Qed.

(** The attitude the encoder emits is that quaternion of the state's Euler
    angles. *)
Lemma get_attitude_zyx {D : Type} `{DroneStateEncoder D} (d : D) :
  get_attitude d =
  zyx_quaternion (get_vector_state d 6%nat) (get_vector_state d 7%nat)
    (get_vector_state d 8%nat).
Proof. reflexivity. Qed.

(** *** Barometer *)

Lemma constants_agree :
  K_Pb = P_b /\ K_Tb = T_b /\ K_Lb = L_b /\ K_G = g /\ K_M = M /\ K_R = R_gas.
Proof.
  unfold K_Pb, P_b, K_Tb, T_b, K_Lb, L_b, K_G, g, K_M, M, K_R, R_gas.
  repeat split; lra.
Qed.

Lemma Rpower_M_E (y : R) : Rpower M_E y = exp y.
Proof.
  unfold Rpower, M_E. rewrite ln_exp, Rmult_1_r. reflexivity.
Qed.

(** In the first branch the base of [std::pow] is positive, where [pow]
    and [Rpower] agree. *)
Lemma troposphere_base_positive (alt : R) :
  alt <= 11000 -> 0 < K_Tb / (K_Tb + (K_Lb * alt)).
Proof.
  intros Hle. unfold K_Tb, K_Lb.
  apply Rdiv_lt_0_compat; lra.
Qed.

Lemma alt_to_baro_low (alt : R) :
  alt <= 11000 ->
  alt_to_baro alt =
  K_Pb * Rpower (K_Tb / (K_Tb + (K_Lb * alt))) ((K_G * K_M) / (K_R * K_Lb)).
Proof.
  intros Hle. rewrite (alt_to_baro_equation_1 alt).
  destruct (Rle_dec alt 11000) as [Hy | Hn]; [| contradiction].
  reflexivity.
Qed.

Lemma alt_to_baro_mid (alt : R) :
  11000 < alt <= 20000 ->
  alt_to_baro alt =
  alt_to_baro 11000
  * Rpower M_E
      (((- K_G) * K_M * (alt - 11000)) / (K_R * (K_Tb + (11000 * K_Lb)))).
Proof.
  intros [Hlo Hhi]. rewrite (alt_to_baro_equation_1 alt).
  destruct (Rle_dec alt 11000) as [Hy | Hn]; [lra |].
  simpl.
  destruct (Rle_dec alt 20000) as [Hz | Hm]; [| lra].
  reflexivity.
Qed.

Lemma alt_to_baro_high (alt : R) : 20000 < alt -> alt_to_baro alt = 0.
Proof.
  intros Hhi. rewrite (alt_to_baro_equation_1 alt).
  destruct (Rle_dec alt 11000) as [Hy | Hn]; [lra |].
  simpl.
  destruct (Rle_dec alt 20000) as [Hz | Hm]; [lra |].
  reflexivity.
Qed.

Lemma alt_to_baro_isa_pressure (alt : R) : alt_to_baro alt = isa_pressure alt.
Proof.
  destruct constants_agree as (HP & HT & HL & HG & HM & HR).
  unfold isa_pressure, isa_troposphere.
  destruct (Rle_dec alt 11000) as [Hlow | Hnlow].
  - rewrite alt_to_baro_low by exact Hlow.
    rewrite HP, HT, HL, HG, HM, HR. reflexivity.
  - destruct (Rle_dec alt 20000) as [Hmid | Hnmid].
    + rewrite alt_to_baro_mid by lra.
      rewrite alt_to_baro_low by lra.
      rewrite Rpower_M_E.
      rewrite HP, HT, HL, HG, HM, HR.
      reflexivity.
    + apply alt_to_baro_high. lra.
Qed.

Lemma alt_to_baro_0 : alt_to_baro 0 = 101325.
Proof.
  rewrite alt_to_baro_low by lra.
  replace (K_Tb / (K_Tb + K_Lb * 0)) with 1 by (unfold K_Tb, K_Lb; field).
  unfold Rpower. rewrite ln_1, Rmult_0_r, exp_0. unfold K_Pb. ring.
Qed.

(** Logarithm of the temperature ratio between sea level and 11 km. *)
Lemma ln_ratio_bounds :
  285197 / 1000000 < ln (5763 / 4333) < 285199 / 1000000.
Proof.
  assert (Hpos : 0 < 5763 / 4333) by lra.
  split; apply exp_lt_inv; rewrite (exp_ln _ Hpos).
  - apply (exp_lt_check_sound 285197 1000000 4333 5763 30 96); [lia |].
    vm_compute. reflexivity.
  - apply (exp_gt_check_sound 285199 1000000 5763 4333 30 96).
    vm_compute. reflexivity.
Qed.

Lemma alt_to_baro_11000 : 22631 < alt_to_baro 11000 < 22633.
Proof.
  rewrite alt_to_baro_low by lra.
  replace (K_Tb / (K_Tb + K_Lb * 11000)) with (5763 / 4333)
    by (unfold K_Tb, K_Lb; field).
  replace (K_G * K_M / (K_R * K_Lb)) with (- (676294603 / 128674000))
    by (unfold K_G, K_M, K_R, K_Lb; field).
  unfold Rpower, K_Pb.
  destruct ln_ratio_bounds as [Hlo Hhi].
  set (t := ln (5763 / 4333)) in *.
  assert (H1 : exp (IZR (-192878544480997) / IZR 128674000000000)
               < exp (- (676294603 / 128674000) * t)).
  { apply exp_increasing. lra. }
  assert (H2 : exp (- (676294603 / 128674000) * t)
               < exp (- (IZR 192877191891791 / IZR 128674000000000))).
  { apply exp_increasing. lra. }
  pose proof (exp_gt_check_sound (-192878544480997) 128674000000000
                22631 101325 30 96 ltac:(vm_compute; reflexivity)) as H3.
  assert (H4 : exp (IZR (-192877191891791) / IZR 128674000000000)
               < IZR 22633 / IZR 101325).
  { apply (exp_lt_check_sound (-192877191891791) 128674000000000
             101325 22633 30 96); [lia |].
    vm_compute. reflexivity. }
  replace (IZR (-192877191891791) / IZR 128674000000000)
    with (- (IZR 192877191891791 / IZR 128674000000000)) in H4 by lra.
  split; lra.
Qed.

(** C8: [alt_to_baro] is the piecewise ISA formula; it gives exactly
    101325 Pa at altitude 0 and 22632 Pa within 1 Pa at 11000 m; between
    11000 m and 20000 m it continues exponentially from its value at
    11000 m; above 20000 m it gives 0. *)
Theorem alt_to_baro_isa :
  (forall alt : R, alt_to_baro alt = isa_pressure alt)
  /\ alt_to_baro 0 = 101325
  /\ Rabs (alt_to_baro 11000 - 22632) <= 1
  /\ (forall alt : R,
         11000 < alt <= 20000 ->
         alt_to_baro alt =
         alt_to_baro 11000
         * exp (- K_G * K_M * (alt - 11000) / (K_R * (K_Tb + 11000 * K_Lb))))
  /\ (forall alt : R, 20000 < alt -> alt_to_baro alt = 0).
Proof.
  split; [exact alt_to_baro_isa_pressure |].
  split; [exact alt_to_baro_0 |].
  split.
  - pose proof alt_to_baro_11000 as [Hlo Hhi].
    apply Rabs_le. lra.
  - split.
    + intros alt Hr. rewrite alt_to_baro_mid by exact Hr.
      rewrite Rpower_M_E. reflexivity.
    + exact alt_to_baro_high.
Qed.

Lemma alt_to_baro_isa_witness :
  alt_to_baro 15000
  = alt_to_baro 11000
    * exp (- K_G * K_M * (15000 - 11000) / (K_R * (K_Tb + 11000 * K_Lb)))
  /\ alt_to_baro 25000 = 0.
Proof.
  destruct alt_to_baro_isa as (_ & _ & _ & Hmid & Hhigh).
  split.
  - apply Hmid. lra.
  - apply Hhigh. lra.
Defined.

(** *** Integer part of a square root *)

Lemma sqrt_IZR_bounds (n : Z) :
  (0 <= n)%Z -> IZR (Z.sqrt n) <= sqrt (IZR n) < IZR (Z.sqrt n) + 1.
Proof.
  intros Hn.
  pose proof (Z.sqrt_spec n Hn) as [Hlo Hhi].
  pose proof (Z.sqrt_nonneg n) as Hs.
  set (s := Z.sqrt n) in *.
  assert (Hsr : 0 <= IZR s) by (apply IZR_le; exact Hs).
  split.
  - rewrite <- (sqrt_square (IZR s)) at 1 by exact Hsr.
    apply sqrt_le_1_alt. rewrite <- mult_IZR. apply IZR_le. exact Hlo.
  - replace (IZR s + 1) with (IZR (Z.succ s)) by (rewrite succ_IZR; ring).
    rewrite <- (sqrt_square (IZR (Z.succ s))) by (apply IZR_le; lia).
    apply sqrt_lt_1_alt. split; [apply IZR_le; exact Hn |].
    rewrite <- mult_IZR. apply IZR_lt. exact Hhi.
Qed.

Lemma trunc_sqrt (n : Z) : (0 <= n)%Z -> trunc (sqrt (IZR n)) = Z.sqrt n.
Proof.
  intros Hn. apply ConvFacts.trunc_between; [apply Z.sqrt_nonneg |].
  apply sqrt_IZR_bounds. exact Hn.
Qed.

(** *** Wind speed *)

Section AnyEncoder.
Context {D : Type} `{DroneStateEncoder D} `{External}.

Lemma get_ground_speed_range (d : D) :
  let '(g0, g1, g2) := get_ground_speed d in
  (- 32768 <= g0 < 32768 /\ - 32768 <= g1 < 32768 /\ - 32768 <= g2 < 32768)%Z.
Proof.
  unfold get_ground_speed. cbv zeta.
  repeat split; apply ConvFacts.wrap_s_range.
Qed.

(** With no environment wind the wind speed is the integer part of the
    length of the ground-speed vector. *)
Lemma get_true_wind_speed_no_wind (d : D) :
  get_environment_wind d = Vector3d_zero ->
  let '(g0, g1, g2) := get_ground_speed d in
  get_true_wind_speed d = Z.sqrt (g0 * g0 + g1 * g1 + g2 * g2).
Proof.
  intros Hw. pose proof (get_ground_speed_range d) as Hr.
  unfold get_true_wind_speed. rewrite Hw.
  destruct (get_ground_speed d) as [[g0 g1] g2].
  destruct Hr as (Hg0 & Hg1 & Hg2).
  unfold norm3, scale3, add3, Vector3d_zero, to_uint16. simpl.
  replace ((IZR g0 + 0 * 100) * -1 * ((IZR g0 + 0 * 100) * -1)
           + (IZR g1 + 0 * 100) * -1 * ((IZR g1 + 0 * 100) * -1)
           + (IZR g2 + 0 * 100) * -1 * ((IZR g2 + 0 * 100) * -1))
    with (IZR (g0 * g0 + g1 * g1 + g2 * g2))
    by (rewrite !plus_IZR, !mult_IZR; ring).
  assert (Hn : (0 <= g0 * g0 + g1 * g1 + g2 * g2)%Z) by nia.
  rewrite trunc_sqrt by exact Hn.
  apply ConvFacts.wrap_u_small. split; [apply Z.sqrt_nonneg |].
  apply Z.sqrt_lt_square; [exact Hn | lia |].
  change (2 ^ 16)%Z with 65536%Z. nia.
Qed.

(** [hil_gps_msg] packs the course over ground as 0, whatever the state. *)
Lemma hil_gps_msg_cog (d : D) (system_id component_id : Z) :
  option_map gps_cog (hil_gps_of (hil_gps_msg d system_id component_id))
  = Some 0%Z.
Proof.
  unfold hil_gps_msg.
  destruct (get_lat_lon_alt d) as [[l0 l1] l2].
  destruct (get_earth_fixed_velocity d) as [[n e] dn].
  destruct (get_ground_speed d) as [[s0 s1] s2].
  reflexivity.
Qed.

Lemma hil_state_quaternion_msg_airspeed (d : D) (system_id component_id : Z) :
  exists q : mavlink_hil_state_quaternion_t,
    hil_state_quaternion_of (hil_state_quaternion_msg d system_id component_id)
    = Some q
    /\ hsq_true_airspeed q = get_true_wind_speed d
    /\ hsq_ind_airspeed q = get_true_wind_speed d
    /\ (hsq_vx q, hsq_vy q, hsq_vz q) = get_ground_speed d.
Proof.
  unfold hil_state_quaternion_msg.
  destruct (get_rpy_speed d) as [[r p] y].
  destruct (get_lat_lon_alt d) as [[l0 l1] l2].
  destruct (get_ground_speed d) as [[s0 s1] s2].
  destruct (get_body_frame_acceleration d) as [[a0 a1] a2].
  eexists. split; [reflexivity |]. simpl. auto.
Qed.

End AnyEncoder.

End EncoderFacts.

(** ** The ground-contact corrector *)

Module GroundFacts.
Import Conv Mavlink Encoder Drone.

Section Corrector.
Context `{Plant} `{External}.

Lemma fake_ground_transform_clamps (us : Z) (d : Drone) :
  ground_contact us d ->
  fake_ground_transform us d =
  with_dynamic_object
    (fun o =>
       set_state
         (zero_segment 6 3 (zero_segment 9 3 (zero_segment 3 3 (set_at 2 0 (state o)))))
         (set_dx_state (set_at 5 G_FORCE (zero_segment 3 3 (dx_state o))) o))
    d.
Proof.
  intros [Hz Hv]. unfold fake_ground_transform. cbv zeta.
  destruct (Rge_dec _ _) as [_ | Hn]; [| contradiction].
  destruct (Rge_dec _ _) as [_ | Hn]; [| contradiction].
  reflexivity.
Qed.

Lemma fake_ground_transform_idle (us : Z) (d : Drone) :
  ~ ground_contact us d -> fake_ground_transform us d = d.
Proof.
  intros Hno. unfold fake_ground_transform. cbv zeta.
  destruct (Rge_dec _ _) as [Hz | _]; [| reflexivity].
  destruct (Rge_dec _ _) as [Hv | _]; [| reflexivity].
  exfalso. apply Hno. split; assumption.
Qed.

(** What the clamp leaves behind: the down position is the literal 0, the
    body velocity, the attitude and the body rates are 0, the body
    acceleration is (0, 0, G_FORCE); the horizontal position and the other
    entries of the derivative keep their values. *)
Lemma fake_ground_transform_contact (us : Z) (d : Drone) :
  ground_contact us d ->
  let x' := state (dynamic_object (fake_ground_transform us d)) in
  let dx' := dx_state (dynamic_object (fake_ground_transform us d)) in
  x' 2%nat = 0
  /\ (forall i, (3 <= i < 12)%nat -> x' i = 0)
  /\ (forall i, (i < 2)%nat -> x' i = state (dynamic_object d) i)
  /\ dx' 3%nat = 0 /\ dx' 4%nat = 0 /\ dx' 5%nat = G_FORCE
  /\ (forall i, (i < 3 \/ 6 <= i)%nat -> dx' i = dx_state (dynamic_object d) i).
Proof.
  intros Hc. rewrite (fake_ground_transform_clamps us d Hc). simpl.
  split; [reflexivity |].
  split.
  { intros i Hi. unfold zero_segment, set_at.
    destruct (Nat.leb 6 i && Nat.ltb i (6 + 3)) eqn:E6; [reflexivity |].
    destruct (Nat.leb 9 i && Nat.ltb i (9 + 3)) eqn:E9; [reflexivity |].
    destruct (Nat.leb 3 i && Nat.ltb i (3 + 3)) eqn:E3; [reflexivity |].
    exfalso.
    apply andb_false_iff in E6, E9, E3.
    rewrite !Nat.leb_gt, !Nat.ltb_ge in *. lia. }
  split.
  { intros i Hi. unfold zero_segment, set_at.
    destruct i as [| [| i]]; simpl; try reflexivity. lia. }
  split; [reflexivity |]. split; [reflexivity |]. split; [reflexivity |].
  intros i Hi. unfold zero_segment, set_at.
  destruct (Nat.eqb i 5) eqn:E5; [apply Nat.eqb_eq in E5; lia |].
  destruct (Nat.leb 3 i && Nat.ltb i (3 + 3)) eqn:E3; [| reflexivity].
  exfalso. apply andb_true_iff in E3. rewrite Nat.leb_le, Nat.ltb_lt in E3. lia.
Qed.

(** The corrector touches the two vectors only. *)
Lemma fake_ground_transform_frame (us : Z) (d : Drone) :
  exists x dx,
    fake_ground_transform us d =
    with_dynamic_object (fun o => set_state x (set_dx_state dx o)) d.
Proof.
  unfold fake_ground_transform. cbv zeta.
  destruct (Rge_dec _ _) as [Hz | Hz];
    [destruct (Rge_dec _ _) as [Hv | Hv] |].
  - eexists. eexists. reflexivity.
  - exists (state (dynamic_object d)), (dx_state (dynamic_object d)).
    destruct d as [ms [x dx c] ct h cn q gh mm sc]. reflexivity.
  - exists (state (dynamic_object d)), (dx_state (dynamic_object d)).
    destruct d as [ms [x dx c] ct h cn q gh mm sc]. reflexivity.
Qed.

(** When the runway is at height 0 the clamp puts the vehicle on it. *)
Lemma fake_ground_transform_on_runway (us : Z) (d : Drone) :
  ground_height d = 0 ->
  ground_contact us d ->
  state (dynamic_object (fake_ground_transform us d)) 2%nat = ground_height d.
Proof.
  intros Hg Hc. rewrite Hg.
  pose proof (fake_ground_transform_contact us d Hc) as Hk.
  cbv zeta in Hk. destruct Hk as [Hx _]. exact Hx.
Qed.

End Corrector.

End GroundFacts.

(** ** The HIL loop *)

Module LoopFacts.
Import Conv Mavlink Encoder Drone.

Lemma skipn_length_app {A : Type} (l k : list A) : skipn (length l) (l ++ k) = k.
Proof. induction l as [| a l IH]; simpl; [reflexivity | exact IH]. Qed.

Lemma fold_left_preserves {A B S : Type} (step : B -> S -> S) (f : S -> A) :
  (forall b s, f (step b s) = f s) ->
  forall (l : list B) (s : S), f (fold_left (fun s b => step b s) l s) = f s.
Proof.
  intros Hstep l. induction l as [| b l IH]; intros s; simpl.
  - reflexivity.
  - rewrite IH. apply Hstep.
Qed.

Section Loop.
Context `{Plant} `{External}.

(** *** Publishing *)

Lemma publish_closed (us : Z) (d : Drone) :
  connection_open (connection d) = false -> _publish_state us d = d.
Proof. intros Hc. unfold _publish_state. rewrite Hc. reflexivity. Qed.

Lemma publish_gated (us : Z) (d : Drone) :
  lockstep_gate d = false -> _publish_state us d = d.
Proof.
  intros Hg. unfold _publish_state. rewrite Hg.
  destruct (connection_open (connection d)); reflexivity.
Qed.

(** The frames of one call, by message id: [SYSTEM_TIME] unless the counter
    is a multiple of 1000, then [HIL_GPS] and [HIL_SENSOR], then
    [HIL_STATE_QUATERNION] when the telemetry period has elapsed. *)
Lemma publish_open (us : Z) (d : Drone) :
  connection_open (connection d) = true ->
  lockstep_gate d = true ->
  exists frames,
    enqueued (connection (_publish_state us d))
    = enqueued (connection d) ++ frames
    /\ map msgid frames
       = (if (sys_time_throttle_counter (hil d) mod 1000 =? 0)%Z
          then [] else [MAVLINK_MSG_ID_SYSTEM_TIME])
         ++ [MAVLINK_MSG_ID_HIL_GPS; MAVLINK_MSG_ID_HIL_SENSOR]
         ++ (if Rgt_dec
                  (IZR (current_time_us (clock (dynamic_object d))
                        - last_autopilot_telemetry (hil d)))
                  (hil_state_quaternion_message_frequency (hil d))
             then [MAVLINK_MSG_ID_HIL_STATE_QUATERNION] else []).
Proof.
  intros Ho Hg. unfold _publish_state. rewrite Ho, Hg. cbv zeta.
  simpl negb. cbv iota.
  destruct (sys_time_throttle_counter (hil d) mod 1000 =? 0)%Z; simpl;
    destruct (Rgt_dec _ _); simpl;
    rewrite <- ?app_assoc; simpl;
    eexists; (split; [reflexivity |]); simpl;
    unfold msgid, hil_gps_msg, hil_sensor_msg, hil_state_quaternion_msg;
    repeat match goal with
           | |- context [let '(_, _) := ?e in _] => destruct e as [[? ?] ?]
           end; reflexivity.
Qed.

Lemma published_closed (us : Z) (d : Drone) :
  connection_open (connection d) = false -> published us d = [].
Proof.
  intros Hc. unfold published. rewrite (publish_closed us d Hc).
  rewrite <- (app_nil_r (enqueued (connection d))) at 2.
  apply skipn_length_app.
Qed.

Lemma published_gated (us : Z) (d : Drone) :
  lockstep_gate d = false -> published us d = [].
Proof.
  intros Hg. unfold published. rewrite (publish_gated us d Hg).
  rewrite <- (app_nil_r (enqueued (connection d))) at 2.
  apply skipn_length_app.
Qed.

Lemma published_open (us : Z) (d : Drone) :
  connection_open (connection d) = true ->
  lockstep_gate d = true ->
  map msgid (published us d)
  = (if (sys_time_throttle_counter (hil d) mod 1000 =? 0)%Z
     then [] else [MAVLINK_MSG_ID_SYSTEM_TIME])
    ++ [MAVLINK_MSG_ID_HIL_GPS; MAVLINK_MSG_ID_HIL_SENSOR]
    ++ (if Rgt_dec
             (IZR (current_time_us (clock (dynamic_object d))
                   - last_autopilot_telemetry (hil d)))
             (hil_state_quaternion_message_frequency (hil d))
        then [MAVLINK_MSG_ID_HIL_STATE_QUATERNION] else []).
Proof.
  intros Ho Hg. destruct (publish_open us d Ho Hg) as (frames & He & Hm).
  unfold published. rewrite He, skipn_length_app. exact Hm.
Qed.

Lemma publish_enqueued (us : Z) (d : Drone) :
  enqueued (connection (_publish_state us d))
  = enqueued (connection d) ++ published us d.
Proof.
  destruct (connection_open (connection d)) eqn:Ho.
  - destruct (lockstep_gate d) eqn:Hg.
    + destruct (publish_open us d Ho Hg) as (frames & He & _).
      unfold published. rewrite He, skipn_length_app. reflexivity.
    + rewrite (published_gated us d Hg), (publish_gated us d Hg), app_nil_r.
      reflexivity.
  - rewrite (published_closed us d Ho), (publish_closed us d Ho), app_nil_r.
    reflexivity.
Qed.

Lemma published_in_iff (us : Z) (d : Drone) :
  published us d <> []
  <-> connection_open (connection d) = true /\ lockstep_gate d = true.
Proof.
  split.
  - intros Hne.
    destruct (connection_open (connection d)) eqn:Ho;
      [| exfalso; apply Hne; apply published_closed; exact Ho].
    destruct (lockstep_gate d) eqn:Hg;
      [| exfalso; apply Hne; apply published_gated; exact Hg].
    split; reflexivity.
  - intros [Ho Hg] Hnil.
    pose proof (published_open us d Ho Hg) as Hm. rewrite Hnil in Hm.
    destruct (sys_time_throttle_counter (hil d) mod 1000 =? 0)%Z;
      simpl in Hm; discriminate Hm.
Qed.

(** Publishing leaves the two vectors, the controllers, the queue and the
    state of the connection alone. *)
Lemma publish_frame (us : Z) (d : Drone) :
  state (dynamic_object (_publish_state us d)) = state (dynamic_object d)
  /\ dx_state (dynamic_object (_publish_state us d))
     = dx_state (dynamic_object d)
  /\ controllers (_publish_state us d) = controllers d
  /\ message_queue (_publish_state us d) = message_queue d
  /\ connection_open (connection (_publish_state us d))
     = connection_open (connection d)
  /\ hil_actuator_controls_msg_n (hil (_publish_state us d))
     = hil_actuator_controls_msg_n (hil d)
  /\ mavlink_system (_publish_state us d) = mavlink_system d.
Proof.
  unfold _publish_state.
  destruct (connection_open (connection d)) eqn:Ho; simpl;
    [| rewrite Ho; repeat split; reflexivity].
  destruct (lockstep_gate d); simpl; [| rewrite Ho; repeat split; reflexivity].
  destruct (sys_time_throttle_counter (hil d) mod 1000 =? 0)%Z; simpl;
    destruct (Rgt_dec _ _); simpl; rewrite Ho; repeat split; reflexivity.
Qed.

(** *** Draining the inbound queue *)

Lemma process_message_frame (m : mavlink_message_t) (d : Drone) :
  dynamic_object (_process_mavlink_message m d) = dynamic_object d
  /\ mavlink_system (_process_mavlink_message m d) = mavlink_system d
  /\ message_queue (_process_mavlink_message m d) = message_queue d
  /\ ground_height (_process_mavlink_message m d) = ground_height d
  /\ connection_open (connection (_process_mavlink_message m d))
     = connection_open (connection d).
Proof.
  unfold _process_mavlink_message.
  destruct (body m) as [| c | c | a | t | g | s | q | i];
    try (repeat split; reflexivity).
  unfold _process_command_long_message. cbv zeta.
  destruct (cl_command c =? MAV_CMD_SET_MESSAGE_INTERVAL)%Z;
    repeat split; reflexivity.
Qed.

Lemma process_message_enqueued (m : mavlink_message_t) (d : Drone) :
  enqueued (connection (_process_mavlink_message m d))
  = enqueued (connection d) ++ command_acks (mavlink_system d) [m].
Proof.
  unfold _process_mavlink_message, command_acks. simpl.
  destruct (body m) as [| c | c | a | t | g | s | q | i];
    simpl; rewrite ?app_nil_r; try reflexivity.
  unfold _process_command_long_message. cbv zeta.
  destruct (cl_command c =? MAV_CMD_SET_MESSAGE_INTERVAL)%Z; reflexivity.
Qed.

Lemma process_message_quiet (m : mavlink_message_t) (d : Drone) :
  is_hil_actuator_controls m = false ->
  hil_actuator_controls_msg_n (hil (_process_mavlink_message m d))
  = hil_actuator_controls_msg_n (hil d)
  /\ should_reply_lockstep (hil (_process_mavlink_message m d))
     = should_reply_lockstep (hil d)
  /\ controllers (_process_mavlink_message m d) = controllers d.
Proof.
  unfold is_hil_actuator_controls, _process_mavlink_message.
  destruct (body m) as [| c | c | a | t | g | s | q | i]; intros Hq;
    try discriminate Hq; try (repeat split; reflexivity).
  unfold _process_command_long_message. cbv zeta.
  destruct (cl_command c =? MAV_CMD_SET_MESSAGE_INTERVAL)%Z;
    repeat split; reflexivity.
Qed.

Lemma drain_fold_frame (q : list mavlink_message_t) (d : Drone) :
  let d' := fold_left (fun d m => _process_mavlink_message m d) q d in
  dynamic_object d' = dynamic_object d
  /\ mavlink_system d' = mavlink_system d
  /\ message_queue d' = message_queue d
  /\ ground_height d' = ground_height d
  /\ connection_open (connection d') = connection_open (connection d).
Proof.
  cbv zeta. repeat split.
  - apply (fold_left_preserves _process_mavlink_message dynamic_object).
    intros m s. apply (process_message_frame m s).
  - apply (fold_left_preserves _process_mavlink_message mavlink_system).
    intros m s. apply (process_message_frame m s).
  - apply (fold_left_preserves _process_mavlink_message message_queue).
    intros m s. apply (process_message_frame m s).
  - apply (fold_left_preserves _process_mavlink_message ground_height).
    intros m s. apply (process_message_frame m s).
  - apply (fold_left_preserves _process_mavlink_message
             (fun s => connection_open (connection s))).
    intros m s. apply (process_message_frame m s).
Qed.

Lemma drain_fold_enqueued (q : list mavlink_message_t) :
  forall d : Drone,
    enqueued (connection (fold_left (fun d m => _process_mavlink_message m d) q d))
    = enqueued (connection d) ++ command_acks (mavlink_system d) q.
Proof.
  induction q as [| m q IH]; intros d; simpl.
  - rewrite app_nil_r. reflexivity.
  - rewrite IH, process_message_enqueued.
    destruct (process_message_frame m d) as (_ & Hs & _). rewrite Hs.
    rewrite <- app_assoc. f_equal.
    unfold command_acks. simpl. rewrite app_nil_r. reflexivity.
Qed.

Lemma drain_fold_quiet (q : list mavlink_message_t) :
  Forall (fun m => is_hil_actuator_controls m = false) q ->
  forall d : Drone,
    let d' := fold_left (fun d m => _process_mavlink_message m d) q d in
    hil_actuator_controls_msg_n (hil d') = hil_actuator_controls_msg_n (hil d)
    /\ should_reply_lockstep (hil d') = should_reply_lockstep (hil d)
    /\ controllers d' = controllers d.
Proof.
  induction 1 as [| m q Hm Hq IH]; intros d; simpl.
  - repeat split; reflexivity.
  - destruct (IH (_process_mavlink_message m d)) as (Hn & Hr & Hc).
    destruct (process_message_quiet m d Hm) as (Hn' & Hr' & Hc').
    rewrite Hn, Hr, Hc. repeat split; assumption.
Qed.

Lemma drain_frame (d : Drone) :
  dynamic_object (_process_mavlink_messages d) = dynamic_object d
  /\ mavlink_system (_process_mavlink_messages d) = mavlink_system d
  /\ message_queue (_process_mavlink_messages d) = []
  /\ ground_height (_process_mavlink_messages d) = ground_height d
  /\ connection_open (connection (_process_mavlink_messages d))
     = connection_open (connection d).
Proof.
  unfold _process_mavlink_messages.
  destruct (drain_fold_frame (message_queue d) (set_message_queue [] d))
    as (H1 & H2 & H3 & H4 & H5).
  cbv zeta in *. rewrite H1, H2, H3, H4, H5. repeat split; reflexivity.
Qed.

Lemma drain_enqueued (d : Drone) :
  enqueued (connection (_process_mavlink_messages d))
  = enqueued (connection d) ++ command_acks (mavlink_system d) (message_queue d).
Proof.
  unfold _process_mavlink_messages. rewrite drain_fold_enqueued. reflexivity.
Qed.

Lemma drain_quiet (d : Drone) :
  Forall (fun m => is_hil_actuator_controls m = false) (message_queue d) ->
  hil_actuator_controls_msg_n (hil (_process_mavlink_messages d))
  = hil_actuator_controls_msg_n (hil d)
  /\ should_reply_lockstep (hil (_process_mavlink_messages d))
     = should_reply_lockstep (hil d)
  /\ controllers (_process_mavlink_messages d) = controllers d.
Proof.
  intros Hq. unfold _process_mavlink_messages.
  apply (drain_fold_quiet (message_queue d) Hq (set_message_queue [] d)).
Qed.

(** *** One tick *)

Lemma update_phases (us : Z) (d : Drone) :
  update us d = _publish_state us (before_publish us d).
Proof. reflexivity. Qed.

(** The dynamics phases leave the loop state, the controllers, the relay
    and the queue alone. *)
Lemma after_dynamics_frame (us : Z) (d : Drone) :
  hil (after_dynamics us d) = hil d
  /\ controllers (after_dynamics us d) = controllers d
  /\ connection (after_dynamics us d) = connection d
  /\ message_queue (after_dynamics us d) = message_queue d
  /\ ground_height (after_dynamics us d) = ground_height d
  /\ mavlink_system (after_dynamics us d)
     = MAVLinkSystem_update us (mavlink_system d).
Proof.
  unfold after_dynamics. cbv zeta.
  destruct (GroundFacts.fake_ground_transform_frame us
              (with_dynamic_object
                 (DynamicObject_update us
                    (controllers
                       (with_mavlink_system (MAVLinkSystem_update us) d)))
                 (with_mavlink_system (MAVLinkSystem_update us) d)))
    as (x & dx & He).
  rewrite He. repeat split; reflexivity.
Qed.

(** The vectors a tick ends with are those the corrector returns for the
    integrator's output; the integrator runs on the controllers as they
    are when the tick starts. *)
Lemma update_dynamics (us : Z) (d : Drone) :
  state (dynamic_object (update us d))
  = state (dynamic_object (after_dynamics us d))
  /\ dx_state (dynamic_object (update us d))
     = dx_state (dynamic_object (after_dynamics us d)).
Proof.
  rewrite update_phases.
  destruct (publish_frame us (before_publish us d)) as (Hx & Hdx & _).
  rewrite Hx, Hdx. unfold before_publish.
  destruct (drain_frame (after_dynamics us d)) as (Ho & _).
  rewrite Ho. split; reflexivity.
Qed.

Lemma after_dynamics_queue_irrelevant (us : Z) (q : list mavlink_message_t)
  (d : Drone) :
  dynamic_object (after_dynamics us (set_message_queue q d))
  = dynamic_object (after_dynamics us d).
Proof.
  unfold after_dynamics, fake_ground_transform. cbv zeta. simpl.
  destruct (Rge_dec _ _); [destruct (Rge_dec _ _) |]; reflexivity.
Qed.

Lemma before_publish_open (us : Z) (d : Drone) :
  connection_open (connection (before_publish us d))
  = connection_open (connection d).
Proof.
  unfold before_publish.
  destruct (drain_frame (after_dynamics us d)) as (_ & _ & _ & _ & Ho).
  destruct (after_dynamics_frame us d) as (_ & _ & Hc & _).
  rewrite Ho, Hc. reflexivity.
Qed.

Lemma before_publish_enqueued (us : Z) (d : Drone) :
  enqueued (connection (before_publish us d))
  = enqueued (connection d)
    ++ command_acks (MAVLinkSystem_update us (mavlink_system d))
         (message_queue d).
Proof.
  unfold before_publish. rewrite drain_enqueued.
  destruct (after_dynamics_frame us d) as (_ & _ & Hc & Hq & _ & Hs).
  rewrite Hc, Hq, Hs. reflexivity.
Qed.

Lemma before_publish_quiet (us : Z) (d : Drone) :
  Forall (fun m => is_hil_actuator_controls m = false) (message_queue d) ->
  hil_actuator_controls_msg_n (hil (before_publish us d))
  = hil_actuator_controls_msg_n (hil d)
  /\ should_reply_lockstep (hil (before_publish us d))
     = should_reply_lockstep (hil d).
Proof.
  intros Hq. unfold before_publish.
  destruct (after_dynamics_frame us d) as (Hh & _ & _ & Hmq & _).
  rewrite <- Hmq in Hq.
  destruct (drain_quiet (after_dynamics us d) Hq) as (Hn & Hr & _).
  rewrite Hn, Hr, Hh. split; reflexivity.
Qed.

(** All frames of a tick: the acknowledgements of the drained commands,
    then the telemetry. *)
Lemma frames_of_tick_split (us : Z) (d : Drone) :
  frames_of_tick us d
  = command_acks (MAVLinkSystem_update us (mavlink_system d)) (message_queue d)
    ++ telemetry_of_tick us d.
Proof.
  unfold frames_of_tick, telemetry_of_tick.
  rewrite update_phases, publish_enqueued, before_publish_enqueued.
  rewrite <- app_assoc. apply skipn_length_app.
Qed.

Lemma update_queue_empty (us : Z) (d : Drone) : message_queue (update us d) = [].
Proof.
  rewrite update_phases.
  destruct (publish_frame us (before_publish us d)) as (_ & _ & _ & Hq & _).
  rewrite Hq. unfold before_publish.
  apply (drain_frame (after_dynamics us d)).
Qed.

(** *** Several ticks *)

Lemma arrive_frame (i : TickInput) (d : Drone) :
  hil (arrive i d) = hil d
  /\ message_queue (arrive i d) = message_queue d ++ inbound i
  /\ connection_open (connection (arrive i d)) = relay_open i
  /\ enqueued (connection (arrive i d)) = enqueued (connection d).
Proof.
  unfold arrive. cbv zeta.
  set (d0 := set_system_clock_now _ _).
  assert (Hgen : forall (l : list mavlink_message_t) (s : Drone),
             hil (fold_left (fun d m => handle_mavlink_message m d) l s) = hil s
             /\ message_queue (fold_left (fun d m => handle_mavlink_message m d) l s)
                = message_queue s ++ l
             /\ connection (fold_left (fun d m => handle_mavlink_message m d) l s)
                = connection s).
  { induction l as [| m l IH]; intros s; simpl.
    - rewrite app_nil_r. repeat split; reflexivity.
    - destruct (IH (handle_mavlink_message m s)) as (Hh & Hq & Hc).
      rewrite Hh, Hq, Hc. simpl. rewrite <- app_assoc. repeat split; reflexivity. }
  destruct (Hgen (inbound i) d0) as (Hh & Hq & Hc).
  rewrite Hh, Hq, Hc. repeat split; reflexivity.
Qed.

(** The counter does not move in a tick that receives no
    [HIL_ACTUATOR_CONTROLS], whether its relay is open or closed. *)
Lemma tick_silent_counter (us : Z) (d : Drone) (i : TickInput) :
  Forall (fun m => is_hil_actuator_controls m = false) (message_queue d) ->
  silent i ->
  hil_actuator_controls_msg_n (hil (tick us d i))
  = hil_actuator_controls_msg_n (hil d).
Proof.
  intros Hq Hi. unfold silent in Hi. unfold tick. rewrite update_phases.
  destruct (publish_frame us (before_publish us (arrive i d)))
    as (_ & _ & _ & _ & _ & Hn & _).
  rewrite Hn.
  destruct (arrive_frame i d) as (Hh & Hmq & _).
  assert (Hall : Forall (fun m => is_hil_actuator_controls m = false)
                   (message_queue (arrive i d))).
  { rewrite Hmq. apply Forall_app. split; assumption. }
  destruct (before_publish_quiet us (arrive i d) Hall) as (Hk & _).
  rewrite Hk, Hh. reflexivity.
Qed.

Lemma run_silent_counter (us : Z) (inputs : list TickInput) :
  Forall silent inputs ->
  forall d : Drone,
    Forall (fun m => is_hil_actuator_controls m = false) (message_queue d) ->
    hil_actuator_controls_msg_n (hil (run us inputs d))
    = hil_actuator_controls_msg_n (hil d)
    /\ Forall (fun m => is_hil_actuator_controls m = false)
         (message_queue (run us inputs d)).
Proof.
  induction 1 as [| i inputs Hi Hrest IH]; intros d Hq; simpl.
  - split; [reflexivity | exact Hq].
  - assert (Hq' : Forall (fun m => is_hil_actuator_controls m = false)
                    (message_queue (tick us d i))).
    { unfold tick. rewrite update_queue_empty. constructor. }
    destruct (IH (tick us d i) Hq') as (Hn & Hall).
    unfold run in *. rewrite Hn. split; [| exact Hall].
    apply tick_silent_counter; assumption.
Qed.

Lemma run_unanswered_counter (us : Z) (inputs : list TickInput) :
  Forall unanswered inputs ->
  forall d : Drone,
    Forall (fun m => is_hil_actuator_controls m = false) (message_queue d) ->
    hil_actuator_controls_msg_n (hil (run us inputs d))
    = hil_actuator_controls_msg_n (hil d)
    /\ Forall (fun m => is_hil_actuator_controls m = false)
         (message_queue (run us inputs d)).
Proof.
  intros Hall. apply run_silent_counter.
  apply Forall_impl with (P := unanswered); [| exact Hall].
  intros i [_ Hi]. exact Hi.
Qed.

(** While the counter of received [HIL_ACTUATOR_CONTROLS] is below 300 a
    tick with an open relay publishes [HIL_GPS] and [HIL_SENSOR]. *)
Lemma tick_bootstrap_publishes (us : Z) (d : Drone) (i : TickInput) :
  Forall (fun m => is_hil_actuator_controls m = false) (message_queue d) ->
  unanswered i ->
  (hil_actuator_controls_msg_n (hil d) < 300)%Z ->
  exists pre post,
    map msgid (telemetry_of_tick us (arrive i d))
    = pre ++ [MAVLINK_MSG_ID_HIL_GPS; MAVLINK_MSG_ID_HIL_SENSOR] ++ post.
Proof.
  intros Hq [Ho Hi] Hn. unfold telemetry_of_tick.
  destruct (arrive_frame i d) as (Hh & Hmq & Hopen & _).
  assert (Hall : Forall (fun m => is_hil_actuator_controls m = false)
                   (message_queue (arrive i d))).
  { rewrite Hmq. apply Forall_app. split; assumption. }
  destruct (before_publish_quiet us (arrive i d) Hall) as (Hk & _).
  rewrite published_open.
  - eexists. eexists. reflexivity.
  - rewrite before_publish_open, Hopen. exact Ho.
  - unfold lockstep_gate. rewrite Hk, Hh.
    apply orb_true_iff. right. apply Z.ltb_lt. exact Hn.
Qed.

(** Once 300 [HIL_ACTUATOR_CONTROLS] have been received, a tick that
    starts with the reply flag clear and drains none publishes nothing. *)
Lemma tick_gate_closed (us : Z) (d : Drone) :
  Forall (fun m => is_hil_actuator_controls m = false) (message_queue d) ->
  (300 <= hil_actuator_controls_msg_n (hil d))%Z ->
  should_reply_lockstep (hil d) = false ->
  telemetry_of_tick us d = [].
Proof.
  intros Hq Hn Hr. unfold telemetry_of_tick. apply published_gated.
  destruct (before_publish_quiet us d Hq) as (Hk & Hs).
  unfold lockstep_gate. rewrite Hk, Hs, Hr. simpl.
  apply Z.ltb_ge. exact Hn.
Qed.

Lemma before_publish_idle (us : Z) (d : Drone) :
  message_queue d = [] -> hil (before_publish us d) = hil d.
Proof.
  intros Hq. unfold before_publish, _process_mavlink_messages.
  destruct (after_dynamics_frame us d) as (Hh & _ & _ & Hmq & _).
  rewrite Hmq, Hq. simpl. exact Hh.
Qed.

Lemma before_publish_clock (us : Z) (d : Drone) :
  clock (dynamic_object (before_publish us d))
  = clock (DynamicObject_update us (controllers d) (dynamic_object d)).
Proof.
  unfold before_publish.
  destruct (drain_frame (after_dynamics us d)) as (Ho & _). rewrite Ho.
  unfold after_dynamics. cbv zeta.
  destruct (GroundFacts.fake_ground_transform_frame us
              (with_dynamic_object
                 (DynamicObject_update us
                    (controllers
                       (with_mavlink_system (MAVLinkSystem_update us) d)))
                 (with_mavlink_system (MAVLinkSystem_update us) d)))
    as (x & dx & He).
  rewrite He. reflexivity.
Qed.

Lemma arrive_dynamic_object (i : TickInput) (d : Drone) :
  dynamic_object (arrive i d) = dynamic_object d
  /\ controllers (arrive i d) = controllers d.
Proof.
  unfold arrive. cbv zeta.
  split.
  - rewrite (fold_left_preserves handle_mavlink_message dynamic_object);
      [reflexivity | intros m s; reflexivity].
  - rewrite (fold_left_preserves handle_mavlink_message controllers);
      [reflexivity | intros m s; reflexivity].
Qed.

(** *** The throttle of [SYSTEM_TIME] *)

Lemma published_system_time_iff (us : Z) (d : Drone) :
  connection_open (connection d) = true ->
  lockstep_gate d = true ->
  In MAVLINK_MSG_ID_SYSTEM_TIME (map msgid (published us d))
  <-> (sys_time_throttle_counter (hil d) mod 1000 <> 0)%Z.
Proof.
  intros Ho Hg. rewrite (published_open us d Ho Hg).
  destruct (sys_time_throttle_counter (hil d) mod 1000 =? 0)%Z eqn:E.
  - apply Z.eqb_eq in E. split; [| intros Hne; contradiction].
    simpl. unfold MAVLINK_MSG_ID_SYSTEM_TIME, MAVLINK_MSG_ID_HIL_GPS,
      MAVLINK_MSG_ID_HIL_SENSOR, MAVLINK_MSG_ID_HIL_STATE_QUATERNION.
    destruct (Rgt_dec _ _); simpl; intros Hin;
      repeat (destruct Hin as [Hin | Hin]; [discriminate Hin |]);
      contradiction.
  - apply Z.eqb_neq in E. split; [intros _; exact E |].
    intros _. simpl. left. reflexivity.
Qed.

(** The loop state a publishing call leaves behind. *)
Lemma publish_hil (us : Z) (d : Drone) :
  connection_open (connection d) = true ->
  lockstep_gate d = true ->
  sys_time_throttle_counter (hil (_publish_state us d))
  = (sys_time_throttle_counter (hil d) + 1)%Z
  /\ should_reply_lockstep (hil (_publish_state us d)) = false
  /\ hil_state_quaternion_message_frequency (hil (_publish_state us d))
     = hil_state_quaternion_message_frequency (hil d)
  /\ current_time_us (clock (dynamic_object (_publish_state us d)))
     = current_time_us (clock (dynamic_object d))
  /\ time_locked (clock (dynamic_object (_publish_state us d))) = false
  /\ (last_autopilot_telemetry (hil (_publish_state us d))
      = last_autopilot_telemetry (hil d)
      \/ last_autopilot_telemetry (hil (_publish_state us d))
         = current_time_us (clock (dynamic_object d))).
Proof.
  intros Ho Hg. unfold _publish_state. rewrite Ho, Hg. cbv zeta.
  simpl negb. cbv iota.
  destruct (sys_time_throttle_counter (hil d) mod 1000 =? 0)%Z; simpl;
    destruct (Rgt_dec _ _); simpl; repeat split; auto.
Qed.

End Loop.

End LoopFacts.

(** ** The variant without the corrector *)

Module LegacyFacts.
Import Conv Mavlink Encoder Drone.

(** The other copy of [_process_command_long_message] stores [param1]. *)
Lemma legacy_message_interval_from_param1 (c : mavlink_command_long_t)
  (d : Drone) :
  cl_command c = MAV_CMD_SET_MESSAGE_INTERVAL ->
  hil_state_quaternion_message_frequency
    (hil (LegacyDrone._process_command_long_message c d))
  = cl_param1 c.
Proof.
  intros Hc. unfold LegacyDrone._process_command_long_message. cbv zeta.
  rewrite Hc, Z.eqb_refl. reflexivity.
Qed.

End LegacyFacts.

(** ** Sensor frames of the drone *)

Module SensorClaims.
Import Conv Mavlink Encoder Drone Bench EncoderFacts.

#[local] Existing Instance bench_external.

Lemma atan2_on_y_axis (y : R) : 0 < y -> atan2 y 0 = PI / 2.
Proof.
  intros Hy. unfold atan2.
  destruct (Rlt_dec 0 0) as [Hlt | _]; [lra |].
  destruct (Rlt_dec 0 0) as [Hlt | _]; [lra |].
  destruct (Rlt_dec 0 y) as [_ | Hn]; [reflexivity | contradiction].
Qed.

(** [get_course_over_ground] itself computes the course: for a velocity
    along the first axis it is 90 degrees, 9000 cdeg. *)
Lemma get_course_over_ground_forward :
  get_course_over_ground heading_forward = 9000%Z.
Proof.
  unfold get_course_over_ground. cbv zeta.
  change (Encoder.get_vector_state heading_forward 3%nat) with 1.
  change (Encoder.get_vector_state heading_forward 4%nat) with 0.
  rewrite (atan2_on_y_axis 1) by lra.
  replace (PI / 2 * 180 / M_PI * 100) with (IZR 9000)
    by (unfold M_PI; field; apply PI_neq0).
  unfold to_uint16. rewrite ConvFacts.trunc_IZR. reflexivity.
Qed.

(** C3, at the state with forward body speed 1 m/s: the course over ground
    packed into [HIL_GPS] is 0, while the formula of the claim, which
    [get_course_over_ground] computes, gives 9000 cdeg. *)
Theorem hil_gps_course_over_ground_unset :
  option_map gps_cog (hil_gps_of (hil_gps_msg heading_forward 1 1)) = Some 0%Z
  /\ get_course_over_ground heading_forward = 9000%Z.
Proof.
  split.
  - apply hil_gps_msg_cog.
  - exact get_course_over_ground_forward.
Qed.

(** The ground speed is truncated to whole m/s before it is scaled to
    cm/s: 1.5 m/s north is reported as 100 cm/s. *)
Example ground_speed_truncates_first :
  get_ground_speed (drone_at zero_vector (set_at 0 (3 / 2) zero_vector))
  = (100, 0, 0)%Z.
Proof.
  unfold get_ground_speed. cbv zeta.
  change (Encoder.get_vector_dx_state
            (drone_at zero_vector (set_at 0 (3 / 2) zero_vector)) 0%nat)
    with (3 / 2).
  change (Encoder.get_vector_dx_state
            (drone_at zero_vector (set_at 0 (3 / 2) zero_vector)) 1%nat)
    with (IZR 0).
  change (Encoder.get_vector_dx_state
            (drone_at zero_vector (set_at 0 (3 / 2) zero_vector)) 2%nat)
    with (IZR 0).
  unfold to_int16. rewrite ConvFacts.trunc_positive, ConvFacts.trunc_IZR.
  reflexivity.
Qed.

(** C10 as amended: the drone's [get_environment_wind] is the zero
    vector, so for every state the wind plays no part in the true wind
    speed packed into [HIL_STATE_QUATERNION]: the frame carries the ground
    speed, each component the [int16_t] conversion of [dx[i]] multiplied by
    100 in [int16_t], and its true and indicated airspeed are the
    [uint16_t] conversion of the Euclidean norm of that vector, which is
    the integer part of the norm and not the norm. *)
Theorem true_wind_speed_is_ground_speed_norm `{External} (d : Drone)
  (system_id component_id : Z) :
  let dx := dx_state (dynamic_object d) in
  (forall d' : Drone, get_environment_wind d' = Vector3d_zero)
  /\ exists q : mavlink_hil_state_quaternion_t,
      hil_state_quaternion_of (hil_state_quaternion_msg d system_id component_id)
      = Some q
      /\ hsq_vx q = wrap_s 16 (to_int16 (dx 0%nat) * 100)
      /\ hsq_vy q = wrap_s 16 (to_int16 (dx 1%nat) * 100)
      /\ hsq_vz q = wrap_s 16 (to_int16 (dx 2%nat) * 100)
      /\ hsq_ind_airspeed q = hsq_true_airspeed q
      /\ hsq_true_airspeed q
         = to_uint16
             (norm3 {| vx := IZR (hsq_vx q);
                       vy := IZR (hsq_vy q);
                       vz := IZR (hsq_vz q) |})
      /\ hsq_true_airspeed q
         = Z.sqrt (hsq_vx q * hsq_vx q + hsq_vy q * hsq_vy q
                   + hsq_vz q * hsq_vz q)
      /\ IZR (hsq_true_airspeed q)
         <= norm3 {| vx := IZR (hsq_vx q);
                     vy := IZR (hsq_vy q);
                     vz := IZR (hsq_vz q) |}
         < IZR (hsq_true_airspeed q) + 1.
Proof.
  cbv zeta. split; [intros d'; reflexivity |].
  destruct (hil_state_quaternion_msg_airspeed d system_id component_id)
    as (q & Hq & Ht & Hi & Hv).
  exists q. split; [exact Hq |].
  assert (Hdx : get_ground_speed d
                = (wrap_s 16 (to_int16 (dx_state (dynamic_object d) 0%nat) * 100),
                   wrap_s 16 (to_int16 (dx_state (dynamic_object d) 1%nat) * 100),
                   wrap_s 16 (to_int16 (dx_state (dynamic_object d) 2%nat) * 100)))
    by reflexivity.
  assert (Hc : (hsq_vx q, hsq_vy q, hsq_vz q)
               = (wrap_s 16 (to_int16 (dx_state (dynamic_object d) 0%nat) * 100),
                  wrap_s 16 (to_int16 (dx_state (dynamic_object d) 1%nat) * 100),
                  wrap_s 16 (to_int16 (dx_state (dynamic_object d) 2%nat) * 100)))
    by (rewrite Hv; exact Hdx).
  injection Hc as Hc0 Hc1 Hc2.
  split; [exact Hc0 |]. split; [exact Hc1 |]. split; [exact Hc2 |].
  split; [rewrite Hi, Ht; reflexivity |].
  clear Hdx Hc0 Hc1 Hc2.
  pose proof (get_true_wind_speed_no_wind d eq_refl) as Hw.
  pose proof (get_ground_speed_range d) as Hr.
  rewrite <- Hv in Hw, Hr. destruct Hr as (Hg0 & Hg1 & Hg2).
  set (n := (hsq_vx q * hsq_vx q + hsq_vy q * hsq_vy q
             + hsq_vz q * hsq_vz q)%Z) in *.
  assert (Hn : (0 <= n)%Z) by (unfold n; nia).
  assert (Hnorm : norm3 {| vx := IZR (hsq_vx q);
                           vy := IZR (hsq_vy q);
                           vz := IZR (hsq_vz q) |} = sqrt (IZR n)).
  { unfold norm3, n. simpl. rewrite !plus_IZR, !mult_IZR. reflexivity. }
  rewrite Hnorm, Ht, Hw.
  split.
  { unfold to_uint16. rewrite trunc_sqrt by exact Hn.
    symmetry. apply ConvFacts.wrap_u_small. split; [apply Z.sqrt_nonneg |].
    apply Z.sqrt_lt_square; [exact Hn | lia |].
    change (2 ^ 16)%Z with 65536%Z. unfold n. nia. }
  split; [reflexivity |].
  apply sqrt_IZR_bounds. exact Hn.
Qed.

End SensorClaims.

(** ** The corrector on the bench *)

Module GroundClaims.
Import Conv Mavlink Encoder Drone Bench GroundFacts.

#[local] Existing Instance bench_plant.
#[local] Existing Instance bench_external.

Lemma raised_runway_contact : ground_contact 10000 raised_runway.
Proof.
  unfold ground_contact. simpl. unfold set_at, zero_vector. simpl.
  split; lra.
Qed.

(** C1, at a vehicle resting on a runway whose height is -10 m: the
    contact condition holds and the corrector sets the down position to 0,
    not to the ground height; the velocity, attitude and rate entries are
    zeroed and the body acceleration becomes (0, 0, G_FORCE) as claimed. *)
Theorem fake_ground_transform_snaps_to_zero :
  ground_contact 10000 raised_runway
  /\ ground_height raised_runway = - 10
  /\ state (dynamic_object (fake_ground_transform 10000 raised_runway)) 2%nat = 0
  /\ (forall i, (3 <= i < 12)%nat ->
        state (dynamic_object (fake_ground_transform 10000 raised_runway)) i = 0)
  /\ dx_state (dynamic_object (fake_ground_transform 10000 raised_runway)) 5%nat
     = G_FORCE.
Proof.
  pose proof raised_runway_contact as Hc.
  pose proof (fake_ground_transform_contact 10000 raised_runway Hc) as Hk.
  cbv zeta in Hk. destruct Hk as (Hx2 & Hx & _ & _ & _ & Hdx5 & _).
  repeat split; try assumption; try reflexivity; apply Hc.
Qed.

End GroundClaims.

(** ** The loop on the bench and its properties *)

Module LoopClaims.
Import Conv Mavlink Encoder Drone Bench LoopFacts.

(** *** Lockstep gate *)

(** C2 as amended: telemetry is published in a tick only if, after the
    inbound queue is drained, [should_reply_lockstep] is set or fewer than
    300 [HIL_ACTUATOR_CONTROLS] have been received; the counter counts
    those messages, not ticks, so as long as none is received every tick
    with an open relay publishes [HIL_GPS] and [HIL_SENSOR], whatever its
    number and whether the relay was open or closed in the ticks before
    it. *)
Theorem lockstep_gate_counts_messages `{Plant} `{External} (us : Z) :
  (forall d : Drone,
      telemetry_of_tick us d <> [] ->
      should_reply_lockstep (hil (before_publish us d)) = true
      \/ (hil_actuator_controls_msg_n (hil (before_publish us d)) < 300)%Z)
  /\ (forall (d : Drone) (earlier : list TickInput) (i : TickInput),
         hil_actuator_controls_msg_n (hil d) = 0%Z ->
         Forall (fun m => is_hil_actuator_controls m = false) (message_queue d) ->
         Forall silent earlier ->
         unanswered i ->
         In MAVLINK_MSG_ID_HIL_GPS
           (map msgid (telemetry_of_tick us (arrive i (run us earlier d))))
         /\ In MAVLINK_MSG_ID_HIL_SENSOR
              (map msgid (telemetry_of_tick us (arrive i (run us earlier d))))).
Proof.
  split.
  - intros d Hne. unfold telemetry_of_tick in Hne.
    apply published_in_iff in Hne. destruct Hne as [_ Hg].
    unfold lockstep_gate in Hg. apply orb_true_iff in Hg.
    destruct Hg as [Hr | Hn]; [left; exact Hr | right].
    apply Z.ltb_lt. exact Hn.
  - intros d earlier i Hn Hq Hearlier Hu.
    destruct (run_silent_counter us earlier Hearlier d Hq) as (Hk & Hq').
    destruct (tick_bootstrap_publishes us (run us earlier d) i Hq' Hu)
      as (pre & post & He); [rewrite Hk, Hn; lia |].
    rewrite He. split; apply in_or_app; right; simpl; auto.
Qed.

(** *** Closed relay *)

(** C5 as amended: in every tick with a closed relay [_publish_state]
    hands no telemetry frame to the relay, and when the tick drains no
    [COMMAND_LONG] from the inbound queue [enqueue_message] is not called at
    all; the vectors advance as with an open relay. *)
Theorem closed_relay_tick `{Plant} `{External} (us : Z) (d : Drone) :
  connection_open (connection d) = false ->
  telemetry_of_tick us d = []
  /\ (Forall (fun m => is_command_long m = false) (message_queue d) ->
      enqueued (connection (update us d)) = enqueued (connection d))
  /\ state (dynamic_object (update us d))
     = state (dynamic_object (after_dynamics us d))
  /\ dx_state (dynamic_object (update us d))
     = dx_state (dynamic_object (after_dynamics us d)).
Proof.
  intros Hc.
  assert (Ht : telemetry_of_tick us d = []).
  { unfold telemetry_of_tick. apply published_closed.
    rewrite before_publish_open. exact Hc. }
  split; [exact Ht |].
  split; [| apply update_dynamics].
  intros Hq. rewrite update_phases, publish_enqueued, before_publish_enqueued.
  fold (telemetry_of_tick us d). rewrite Ht, app_nil_r.
  rewrite <- (app_nil_r (enqueued (connection d))) at 2. f_equal.
  unfold command_acks.
  induction Hq as [| m q Hm _ IH]; simpl; [reflexivity |].
  unfold is_command_long in Hm.
  destruct (body m); try discriminate Hm; simpl; exact IH.
Qed.

(** *** Commands *)

(** In the copy of [Drone.cpp] with the ground corrector, a
    [COMMAND_LONG] with command [SET_MESSAGE_INTERVAL] stores its [param2]
    as the telemetry period; any other command changes nothing; in both
    cases exactly one frame is enqueued, a [COMMAND_ACK] for that command
    with result 0. *)
Theorem process_command_long_message_ack (c : mavlink_command_long_t)
  (d : Drone) :
  let d' := _process_command_long_message c d in
  let ack :=
    {| ack_command := cl_command c; ack_result := 0; ack_progress := 0;
       ack_result_param2 := 0;
       ack_target_system := cl_target_system c;
       ack_target_component := cl_target_component c |} in
  let frame :=
    {| sysid := system_id (mavlink_system d);
       compid := component_id (mavlink_system d);
       body := COMMAND_ACK ack |} in
  enqueued (connection d') = enqueued (connection d) ++ [frame]
  /\ (cl_command c = MAV_CMD_SET_MESSAGE_INTERVAL ->
      hil_state_quaternion_message_frequency (hil d') = cl_param2 c
      /\ d' = with_connection (enqueue_message frame)
                (with_hil
                   (set_hil_state_quaternion_message_frequency (cl_param2 c)) d))
  /\ (cl_command c <> MAV_CMD_SET_MESSAGE_INTERVAL ->
      d' = with_connection (enqueue_message frame) d).
Proof.
  cbv zeta. unfold _process_command_long_message. cbv zeta.
  destruct (cl_command c =? MAV_CMD_SET_MESSAGE_INTERVAL)%Z eqn:E.
  - apply Z.eqb_eq in E. split; [reflexivity |]. split.
    + intros _. split; reflexivity.
    + intros Hne. contradiction.
  - apply Z.eqb_neq in E. split; [reflexivity |]. split.
    + intros He. contradiction.
    + intros _. reflexivity.
Qed.

(** *** Order of the phases *)

(** C9 as amended: a tick advances the dynamics by integration, then
    applies the ground-contact corrector, then drains the inbound queue,
    then publishes.  So the vectors the tick ends with do not depend on
    the frames waiting in the queue, the queue is empty afterwards, and
    the acknowledgements of the drained commands reach the relay before
    the telemetry. *)
Theorem update_phase_order `{Plant} `{External} (us : Z) (d : Drone) :
  update us d
  = _publish_state us
      (_process_mavlink_messages
         (fake_ground_transform us
            (with_dynamic_object (DynamicObject_update us (controllers d))
               (with_mavlink_system (MAVLinkSystem_update us) d))))
  /\ (forall q : list mavlink_message_t,
         state (dynamic_object (update us (set_message_queue q d)))
         = state (dynamic_object (update us d))
         /\ dx_state (dynamic_object (update us (set_message_queue q d)))
            = dx_state (dynamic_object (update us d)))
  /\ message_queue (update us d) = []
  /\ frames_of_tick us d
     = command_acks (MAVLinkSystem_update us (mavlink_system d))
         (message_queue d)
       ++ published us (_process_mavlink_messages (after_dynamics us d)).
Proof.
  split; [reflexivity |].
  split.
  - intros q.
    destruct (update_dynamics us (set_message_queue q d)) as (Hx & Hdx).
    destruct (update_dynamics us d) as (Hx' & Hdx').
    rewrite Hx, Hdx, Hx', Hdx', after_dynamics_queue_irrelevant.
    split; reflexivity.
  - split; [apply update_queue_empty |].
    apply frames_of_tick_split.
Qed.

End LoopClaims.

(** ** Runs on the bench *)

Module BenchRuns.
Import Conv Mavlink Encoder Drone Bench LoopFacts GroundFacts.

#[local] Existing Instance bench_plant.
#[local] Existing Instance bench_external.

Lemma quiet_input_unanswered : unanswered quiet_input.
Proof. split; [reflexivity | constructor]. Qed.

Lemma repeat_quiet_unanswered (n : nat) : Forall unanswered (repeat quiet_input n).
Proof.
  apply Forall_forall. intros i Hi. apply repeat_spec in Hi. subst i.
  exact quiet_input_unanswered.
Qed.

Lemma fresh_queue_quiet :
  Forall (fun m => is_hil_actuator_controls m = false) (message_queue fresh_drone).
Proof. constructor. Qed.

(** C2, the claim refuted: with no [HIL_ACTUATOR_CONTROLS] ever received
    and the relay open, tick 301 publishes [HIL_GPS] and [HIL_SENSOR]. *)
Lemma tick_301_publishes :
  hil_actuator_controls_msg_n
    (hil (run 10000 (repeat quiet_input 300) fresh_drone)) = 0%Z
  /\ In MAVLINK_MSG_ID_HIL_GPS
       (map msgid
          (telemetry_of_tick 10000
             (arrive quiet_input (run 10000 (repeat quiet_input 300) fresh_drone))))
  /\ In MAVLINK_MSG_ID_HIL_SENSOR
       (map msgid
          (telemetry_of_tick 10000
             (arrive quiet_input (run 10000 (repeat quiet_input 300) fresh_drone)))).
Proof.
  destruct (run_unanswered_counter 10000 (repeat quiet_input 300)
              (repeat_quiet_unanswered 300) fresh_drone fresh_queue_quiet)
    as (Hn & Hq).
  change (hil_actuator_controls_msg_n (hil fresh_drone)) with 0%Z in Hn.
  split; [exact Hn |].
  destruct (tick_bootstrap_publishes 10000
              (run 10000 (repeat quiet_input 300) fresh_drone) quiet_input
              Hq quiet_input_unanswered)
    as (pre & post & He); [rewrite Hn; lia |].
  rewrite He. split; apply in_or_app; right; simpl; auto.
Qed.

(** A run whose first tick has the relay closed and drains a [HEARTBEAT],
    and whose second has it open: the third tick publishes. *)
Lemma lockstep_gate_counts_messages_witness :
  In MAVLINK_MSG_ID_HIL_GPS
    (map msgid
       (telemetry_of_tick 10000
          (arrive quiet_input
             (run 10000 [heartbeat_while_closed; quiet_input] fresh_drone))))
  /\ In MAVLINK_MSG_ID_HIL_SENSOR
       (map msgid
          (telemetry_of_tick 10000
             (arrive quiet_input
                (run 10000 [heartbeat_while_closed; quiet_input] fresh_drone)))).
Proof.
  destruct (LoopClaims.lockstep_gate_counts_messages 10000) as [_ Hrun].
  apply (Hrun fresh_drone [heartbeat_while_closed; quiet_input] quiet_input).
  - reflexivity.
  - constructor.
  - repeat constructor.
  - split; [reflexivity | constructor].
Defined.

(** C5, the claim refuted: a [COMMAND_LONG] drained while the relay is
    closed is acknowledged, so [enqueue_message] is called in that tick. *)
Lemma closed_relay_still_acknowledges :
  connection_open (connection (arrive command_while_closed fresh_drone)) = false
  /\ map msgid (frames_of_tick 10000 (arrive command_while_closed fresh_drone))
     = [MAVLINK_MSG_ID_COMMAND_ACK].
Proof.
  split; [reflexivity |].
  rewrite frames_of_tick_split.
  assert (Ht : telemetry_of_tick 10000 (arrive command_while_closed fresh_drone)
               = []).
  { unfold telemetry_of_tick. apply published_closed.
    rewrite before_publish_open. reflexivity. }
  rewrite Ht, app_nil_r. reflexivity.
Qed.

Lemma closed_relay_tick_witness :
  telemetry_of_tick 10000 (arrive heartbeat_while_closed fresh_drone) = []
  /\ enqueued
       (connection (update 10000 (arrive heartbeat_while_closed fresh_drone)))
     = [].
Proof.
  destruct (LoopClaims.closed_relay_tick 10000
              (arrive heartbeat_while_closed fresh_drone) eq_refl)
    as (Ht & Hq & _).
  split; [exact Ht |].
  apply Hq. repeat constructor.
Defined.

(** The copy with the ground corrector on a request for a period of
    50000 us for message 115, [HIL_STATE_QUATERNION]. *)
Lemma process_command_long_message_ack_witness :
  hil_state_quaternion_message_frequency
    (hil (_process_command_long_message
            (command_long MAV_CMD_SET_MESSAGE_INTERVAL 115 50000) fresh_drone))
  = 50000
  /\ map msgid
       (enqueued
          (connection
             (_process_command_long_message
                (command_long MAV_CMD_SET_MESSAGE_INTERVAL 115 50000) fresh_drone)))
     = [MAVLINK_MSG_ID_COMMAND_ACK].
Proof.
  pose proof (LoopClaims.process_command_long_message_ack
                (command_long MAV_CMD_SET_MESSAGE_INTERVAL 115 50000) fresh_drone)
    as Hk.
  cbv zeta in Hk. destruct Hk as (He & Hset & _).
  destruct (Hset eq_refl) as (Hf & _).
  split; [exact Hf |]. rewrite He. reflexivity.
Defined.

(** C6, the code against the claim: the copy of [Drone.cpp] without the
    ground corrector acknowledges a [COMMAND_LONG] as the other copy does,
    but on [SET_MESSAGE_INTERVAL] it stores [param1], the id of the message
    the request is about, as the telemetry period, where the claim and the
    other copy have [param2]: a request for a period of 50000 us for
    message 115 leaves a period of 115 us. *)
Theorem legacy_set_message_interval_stores_param1 :
  let c := command_long MAV_CMD_SET_MESSAGE_INTERVAL 115 50000 in
  let legacy := LegacyDrone._process_command_long_message c fresh_drone in
  let other := Drone._process_command_long_message c fresh_drone in
  cl_param2 c = 50000
  /\ hil_state_quaternion_message_frequency (hil legacy) = 115
  /\ hil_state_quaternion_message_frequency (hil legacy) <> cl_param2 c
  /\ hil_state_quaternion_message_frequency (hil other) = cl_param2 c
  /\ enqueued (connection legacy) = enqueued (connection other)
  /\ map msgid (enqueued (connection legacy)) = [MAVLINK_MSG_ID_COMMAND_ACK]
  /\ (forall (c' : mavlink_command_long_t) (d : Drone),
         hil_state_quaternion_message_frequency
           (hil (LegacyDrone._process_command_long_message c' d))
         = if (cl_command c' =? MAV_CMD_SET_MESSAGE_INTERVAL)%Z
           then cl_param1 c'
           else hil_state_quaternion_message_frequency (hil d)).
Proof.
  cbv zeta.
  split; [reflexivity |].
  assert (Hl : hil_state_quaternion_message_frequency
                 (hil (LegacyDrone._process_command_long_message
                         (command_long MAV_CMD_SET_MESSAGE_INTERVAL 115 50000)
                         fresh_drone)) = 115).
  { rewrite LegacyFacts.legacy_message_interval_from_param1 by reflexivity.
    reflexivity. }
  split; [exact Hl |].
  split; [rewrite Hl; simpl; lra |].
  split; [reflexivity |].
  split; [reflexivity |].
  split; [reflexivity |].
  intros c' d. unfold LegacyDrone._process_command_long_message. cbv zeta.
  destruct (cl_command c' =? MAV_CMD_SET_MESSAGE_INTERVAL)%Z; reflexivity.
Qed.

(** The first tick of the bench drone, up to the call of [_publish_state]. *)
Lemma first_tick_before_publish :
  let b := before_publish 10000 (arrive quiet_input fresh_drone) in
  hil b = hil fresh_drone
  /\ current_time_us (clock (dynamic_object b)) = 0%Z
  /\ connection_open (connection b) = true
  /\ lockstep_gate b = true.
Proof.
  cbv zeta.
  assert (Hh : hil (before_publish 10000 (arrive quiet_input fresh_drone))
               = hil fresh_drone)
    by (rewrite before_publish_idle; reflexivity).
  split; [exact Hh |].
  split; [rewrite before_publish_clock; reflexivity |].
  split; [rewrite before_publish_open; reflexivity |].
  unfold lockstep_gate. rewrite Hh. reflexivity.
Qed.

(** The bench drone after its first tick. *)
Lemma first_tick_result :
  let d1 := tick 10000 fresh_drone quiet_input in
  sys_time_throttle_counter (hil d1) = 1%Z
  /\ hil_actuator_controls_msg_n (hil d1) = 0%Z
  /\ hil_state_quaternion_message_frequency (hil d1) = 1000000
  /\ last_autopilot_telemetry (hil d1) = 0%Z
  /\ current_time_us (clock (dynamic_object d1)) = 0%Z
  /\ message_queue d1 = []
  /\ connection_open (connection d1) = true.
Proof.
  cbv zeta. unfold tick.
  destruct first_tick_before_publish as (Hh & Hc & Ho & Hg). cbv zeta in *.
  rewrite update_phases.
  destruct (publish_hil 10000 _ Ho Hg) as (Hk & _ & Hf & Ht & _ & Hl).
  destruct (publish_frame 10000
              (before_publish 10000 (arrive quiet_input fresh_drone)))
    as (_ & _ & _ & _ & Ho' & Hn & _).
  rewrite Hk, Hn, Hf, Ht, Ho', Hh, Hc, Ho.
  repeat split; try reflexivity.
  - destruct Hl as [Hl | Hl]; rewrite Hl, ?Hh, ?Hc; reflexivity.
  - rewrite <- update_phases. apply update_queue_empty.
Qed.

(** C4, on the first two publishing ticks of the bench drone: with the
    counter at 0, a multiple of 1000, no [SYSTEM_TIME] is published; with
    the counter at 1 one is. *)
Theorem system_time_throttle_inverted :
  sys_time_throttle_counter (hil fresh_drone) = 0%Z
  /\ map msgid (telemetry_of_tick 10000 (arrive quiet_input fresh_drone))
     = [MAVLINK_MSG_ID_HIL_GPS; MAVLINK_MSG_ID_HIL_SENSOR]
  /\ sys_time_throttle_counter (hil (tick 10000 fresh_drone quiet_input)) = 1%Z
  /\ map msgid
       (telemetry_of_tick 10000
          (arrive quiet_input (tick 10000 fresh_drone quiet_input)))
     = [MAVLINK_MSG_ID_SYSTEM_TIME; MAVLINK_MSG_ID_HIL_GPS;
        MAVLINK_MSG_ID_HIL_SENSOR].
Proof.
  split; [reflexivity |].
  split.
  { destruct first_tick_before_publish as (Hh & Hc & Ho & Hg). cbv zeta in *.
    unfold telemetry_of_tick. rewrite (published_open 10000 _ Ho Hg).
    rewrite Hh, Hc. simpl.
    destruct (Rgt_dec _ _) as [Hgt | _]; [lra | reflexivity]. }
  destruct first_tick_result as (Hk & Hn & Hf & Hl & Ht & Hq & Ho).
  cbv zeta in *.
  split; [exact Hk |].
  set (d1 := tick 10000 fresh_drone quiet_input) in *.
  destruct (arrive_frame quiet_input d1) as (Hah & Haq & Hao & _).
  destruct (arrive_dynamic_object quiet_input d1) as (Had & _).
  assert (Hbh : hil (before_publish 10000 (arrive quiet_input d1)) = hil d1).
  { rewrite before_publish_idle; [exact Hah |]. rewrite Haq, Hq. reflexivity. }
  assert (Hbc : current_time_us
                  (clock (dynamic_object
                            (before_publish 10000 (arrive quiet_input d1))))
                = 0%Z).
  { rewrite before_publish_clock, Had. simpl. exact Ht. }
  unfold telemetry_of_tick. rewrite published_open.
  - rewrite Hbh, Hbc, Hk, Hl, Hf. simpl.
    destruct (Rgt_dec _ _) as [Hgt | _]; [lra | reflexivity].
  - rewrite before_publish_open. exact Hao.
  - unfold lockstep_gate. rewrite Hbh, Hn. apply orb_true_r.
Qed.

(** C9, the claim refuted: an actuator command waiting in the queue does
    not reach the integration of the tick that drains it.  With the order
    of the specification the airborne bench drone would end the tick with
    forward speed 1/100 m/s; [update] leaves it at 0. *)
Lemma update_integrates_before_draining :
  state (dynamic_object (update 10000 (arrive thrust_arrives airborne))) 3%nat
  = 0
  /\ state
       (dynamic_object
          (update_in_spec_order 10000 (arrive thrust_arrives airborne))) 3%nat
     = 1 / 100.
Proof.
  split.
  - destruct (update_dynamics 10000 (arrive thrust_arrives airborne))
      as (Hx & _).
    rewrite Hx. unfold after_dynamics. cbv zeta.
    rewrite fake_ground_transform_idle.
    + simpl. unfold thrust_command, set_at, zero_vector. simpl. lra.
    + unfold ground_contact. simpl. unfold set_at, zero_vector. simpl.
      intros [Hz _]. lra.
  - unfold update_in_spec_order. cbv zeta.
    match goal with
    | |- state (dynamic_object (_publish_state ?u ?e)) _ = _ =>
        destruct (publish_frame u e) as (Hx & _); rewrite Hx
    end.
    rewrite fake_ground_transform_idle.
    + simpl. unfold thrust_command, set_at, zero_vector. simpl. lra.
    + unfold ground_contact. simpl. unfold set_at, zero_vector. simpl.
      intros [Hz _]. lra.
Qed.

End BenchRuns.

(** * Further properties of the encoder and the loop *)

(** ** More on the integer conversions *)

Module ConvLaws.
Import Conv ConvFacts.

Lemma round_IZR (z : Z) : round (IZR z) = z.
Proof.
  unfold round. destruct (Rle_dec 0 (IZR z)) as [_ | _].
  - symmetry. apply Int_part_spec. lra.
  - replace (Int_part (- IZR z + / 2)) with (- z)%Z; [lia |].
    apply Int_part_spec. rewrite opp_IZR. lra.
Qed.

(** Truncation stays on the side of zero of its argument and within one
    unit of it. *)
Lemma trunc_bounds (r : R) :
  (0 <= r -> IZR (trunc r) <= r < IZR (trunc r) + 1)
  /\ (r <= 0 -> IZR (trunc r) - 1 < r <= IZR (trunc r)).
Proof.
  unfold trunc. split; intros Hr.
  - destruct (Rle_dec 0 r) as [_ | Hn]; [| contradiction].
    destruct (base_Int_part r) as [Hlo Hhi]. lra.
  - destruct (Rle_dec 0 r) as [Hp | _].
    + assert (r = 0) by lra. subst r.
      change 0 with (IZR 0). rewrite Int_part_IZR. simpl. lra.
    + destruct (base_Int_part (- r)) as [Hlo Hhi].
      rewrite opp_IZR. lra.
Qed.

Lemma trunc_abs_lt (r : R) (n : Z) :
  - IZR n < r < IZR n -> (- n < trunc r < n)%Z.
Proof.
  intros [Hlo Hhi].
  destruct (trunc_bounds r) as [Hpos Hneg].
  assert (Hn0 : (0 < n)%Z) by (apply lt_IZR; lra).
  destruct (Rle_dec 0 r) as [Hp | Hn].
  - destruct (Hpos Hp) as [Ha Hb].
    assert (trunc r < n)%Z by (apply lt_IZR; lra).
    assert (- 1 < trunc r)%Z by (apply lt_IZR; lra).
    lia.
  - assert (Hr : r <= 0) by lra. destruct (Hneg Hr) as [Ha Hb].
    assert (- n < trunc r)%Z by (apply lt_IZR; rewrite opp_IZR; lra).
    assert (trunc r < 1)%Z by (apply lt_IZR; lra).
    lia.
Qed.

Lemma wrap_s_small (z : Z) : (- 32768 <= z < 32768)%Z -> wrap_s 16 z = z.
Proof.
  intros Hz. unfold wrap_s. change (2 ^ (16 - 1))%Z with 32768%Z.
  change (2 ^ 16)%Z with 65536%Z.
  rewrite Z.mod_small by lia. lia.
Qed.

Lemma wrap_u_range (w z : Z) : (0 <= w)%Z -> (0 <= wrap_u w z < 2 ^ w)%Z.
Proof.
  intros Hw. unfold wrap_u. apply Z.mod_pos_bound.
  apply Z.pow_pos_nonneg; lia.
Qed.

Lemma wrap_u_negative (z : Z) :
  (- 65536 <= z < 0)%Z -> wrap_u 16 z = (z + 65536)%Z.
Proof.
  intros Hz. unfold wrap_u. change (2 ^ 16)%Z with 65536%Z.
  symmetry. apply Z.mod_unique with (-1)%Z; lia.
Qed.

End ConvLaws.

(** ** What the sensor frames always satisfy *)

Module EncoderLaws.
Import Conv Mavlink Encoder ConvFacts ConvLaws FloatFacts EncoderFacts.

Section AnyEncoder.
Context {D : Type} `{DroneStateEncoder D} `{External}.


Lemma get_vehicle_yaw_range (d : D) :
  (0 < get_vehicle_yaw_wrt_earth_north d < 65536)%Z.
Proof.
  unfold get_vehicle_yaw_wrt_earth_north. cbv zeta.
  set (y := wrap_u 16 _).
  assert (Hy : (0 <= y < 65536)%Z) by (apply (wrap_u_range 16); lia).
  destruct (y =? 0)%Z eqn:E.
  - apply Z.eqb_eq in E. rewrite E. vm_compute. split; reflexivity.
  - apply Z.eqb_neq in E. lia.
Qed.

(** X2: the yaw packed into [HIL_GPS] is never 0 (the value MAVLink keeps
    for "not available"): it lies between 1 and 65535, and a vehicle with
    yaw angle 0 is reported with yaw 1 cdeg. *)
Theorem hil_gps_yaw_never_zero (d : D) (system_id component_id : Z) :
  exists g : mavlink_hil_gps_t,
    hil_gps_of (hil_gps_msg d system_id component_id) = Some g
    /\ gps_yaw g = get_vehicle_yaw_wrt_earth_north d
    /\ (1 <= gps_yaw g <= 65535)%Z
    /\ (get_vector_state d 8%nat = 0 -> gps_yaw g = 1%Z).
Proof.
  unfold hil_gps_msg.
  destruct (get_lat_lon_alt d) as [[l0 l1] l2].
  destruct (get_earth_fixed_velocity d) as [[n e] dn].
  destruct (get_ground_speed d) as [[s0 s1] s2].
  eexists. split; [reflexivity |]. split; [reflexivity |].
  cbn [gps_yaw].
  split; [pose proof (get_vehicle_yaw_range d); lia |].
  intros Hyaw. unfold get_vehicle_yaw_wrt_earth_north. cbv zeta.
  rewrite Hyaw.
  replace (0 * 180 / M_PI * 100) with (IZR 0)
    by (unfold M_PI; field; apply PI_neq0).
  rewrite round_IZR. reflexivity.
Qed.

(** X3: the body acceleration the encoder reads is made of floats: its
    first two components are [dx[3]] and [dx[4]] narrowed to float; its
    third is [dx[5]] narrowed to float unless that float lies strictly
    between [-.0001f] and [.0001f], in which case it is [- G_FORCE]; so the
    reported vertical acceleration is never strictly between [-.0001f] and
    [.0001f], and a [dx[5]] at or beyond [.0001f] is never replaced. *)
Theorem get_body_frame_acceleration_never_zero (d : D) :
  let dx := get_vector_dx_state d in
  let '(x, y, z) := get_body_frame_acceleration d in
  x = to_float (dx 3%nat) /\ y = to_float (dx 4%nat)
  /\ ((- FLT_0001 < to_float (dx 5%nat) < FLT_0001 /\ z = - G_FORCE)
      \/ (~ (- FLT_0001 < to_float (dx 5%nat) < FLT_0001)
          /\ z = to_float (dx 5%nat)))
  /\ ~ (- FLT_0001 < z < FLT_0001)
  /\ (FLT_0001 <= dx 5%nat -> z = to_float (dx 5%nat)).
Proof.
  cbv zeta.
  destruct (body_frame_acceleration_cases d) as [[Hin Ha] | [Hout Ha]];
    cbv zeta in Ha; rewrite Ha;
    (split; [reflexivity |]); (split; [reflexivity |]).
  - split; [left; split; [exact Hin | reflexivity] |].
    split; [unfold G_FORCE, FLT_0001; lra |].
    intros Hbig. apply to_float_beyond in Hbig. lra.
  - split; [right; split; [exact Hout | reflexivity] |].
    split; [exact Hout | reflexivity].
Qed.

(** X4: whatever the state, [HIL_GPS] reports a 3D fix, [eph] 30, [epv] 40,
    255 satellites and id 0, and it takes its latitude from the second
    entry and its longitude from the first entry of what [get_lat_lon_alt]
    returns. *)
Theorem hil_gps_fixed_fields (d : D) (system_id component_id : Z) :
  exists g : mavlink_hil_gps_t,
    hil_gps_of (hil_gps_msg d system_id component_id) = Some g
    /\ gps_fix_type g = 3%Z /\ gps_eph g = 30%Z /\ gps_epv g = 40%Z
    /\ gps_satellites_visible g = 255%Z /\ gps_id g = 0%Z
    /\ gps_time_usec g = get_sim_time d
    /\ (gps_lon g, gps_lat g, gps_alt g) = get_lat_lon_alt d.
Proof.
  unfold hil_gps_msg.
  destruct (get_lat_lon_alt d) as [[l0 l1] l2].
  destruct (get_earth_fixed_velocity d) as [[n e] dn].
  destruct (get_ground_speed d) as [[s0 s1] s2].
  eexists. split; [reflexivity |]. cbn.
  assert (H30 : to_uint16 (3 / 10 * 100) = 30%Z).
  { replace (3 / 10 * 100) with (IZR 30) by lra.
    unfold to_uint16. rewrite trunc_IZR. reflexivity. }
  assert (H40 : to_uint16 (4 / 10 * 100) = 40%Z).
  { replace (4 / 10 * 100) with (IZR 40) by lra.
    unfold to_uint16. rewrite trunc_IZR. reflexivity. }
  rewrite H30, H40. repeat split; reflexivity.
Qed.

(** X5: while every component of the earth-frame velocity [dx[0..2]] is
    below 328 m/s in magnitude, the ground speed is 100 times the velocity
    truncated to whole m/s: always a multiple of 100 cm/s, the fraction
    of a m/s being dropped before the scaling. *)
Theorem get_ground_speed_whole_metres (d : D) :
  (forall i, (i < 3)%nat -> - 328 < get_vector_dx_state d i < 328) ->
  get_ground_speed d
  = (100 * trunc (get_vector_dx_state d 0%nat),
     100 * trunc (get_vector_dx_state d 1%nat),
     100 * trunc (get_vector_dx_state d 2%nat))%Z.
Proof.
  intros Hb. unfold get_ground_speed, to_int16. cbv zeta.
  assert (Hc : forall i, (i < 3)%nat ->
               wrap_s 16 (wrap_s 16 (trunc (get_vector_dx_state d i)) * 100)
               = (100 * trunc (get_vector_dx_state d i))%Z).
  { intros i Hi. pose proof (trunc_abs_lt _ 328 (Hb i Hi)) as Ht.
    rewrite (wrap_s_small (trunc _)) by lia.
    rewrite wrap_s_small by lia. lia. }
  rewrite (Hc 0%nat), (Hc 1%nat), (Hc 2%nat) by lia. reflexivity.
Qed.

Lemma hil_gps_vel (d : D) (system_id component_id : Z) :
  exists g : mavlink_hil_gps_t,
    hil_gps_of (hil_gps_msg d system_id component_id) = Some g
    /\ gps_vel g
       = let '(s0, s1, _) := get_ground_speed d in
         to_uint16 (sqrt (IZR (wrap_u 16 s0) ^ 2 + IZR (wrap_u 16 s1) ^ 2)).
Proof.
  unfold hil_gps_msg.
  destruct (get_lat_lon_alt d) as [[l0 l1] l2].
  destruct (get_earth_fixed_velocity d) as [[n e] dn].
  destruct (get_ground_speed d) as [[s0 s1] s2].
  eexists. split; reflexivity.
Qed.

(** X6: the scalar speed of [HIL_GPS] is computed from the ground speed
    read back as unsigned 16-bit numbers.  When both horizontal components
    are non-negative it is the integer part of their Euclidean norm; a
    negative north component [s] with no east component is reported as
    [65536 + s]. *)
Theorem hil_gps_vel_unsigned (d : D) (system_id component_id : Z) :
  exists g : mavlink_hil_gps_t,
    hil_gps_of (hil_gps_msg d system_id component_id) = Some g
    /\ let '(s0, s1, _) := get_ground_speed d in
       ((0 <= s0)%Z -> (0 <= s1)%Z ->
        gps_vel g = Z.sqrt (s0 * s0 + s1 * s1))
       /\ ((s0 < 0)%Z -> s1 = 0%Z -> gps_vel g = (65536 + s0)%Z).
Proof.
  destruct (hil_gps_vel d system_id component_id) as (g & Hg & Hv).
  exists g. split; [exact Hg |].
  pose proof (get_ground_speed_range d) as Hr.
  destruct (get_ground_speed d) as [[s0 s1] s2].
  destruct Hr as (Hs0 & Hs1 & _). rewrite Hv. split.
  - intros Hp0 Hp1.
    rewrite !wrap_u_small by (change (2 ^ 16)%Z with 65536%Z; lia).
    replace (IZR s0 ^ 2 + IZR s1 ^ 2) with (IZR (s0 * s0 + s1 * s1))
      by (rewrite plus_IZR, !mult_IZR; ring).
    assert (Hn : (0 <= s0 * s0 + s1 * s1)%Z) by nia.
    unfold to_uint16. rewrite trunc_sqrt by exact Hn.
    apply wrap_u_small. split; [apply Z.sqrt_nonneg |].
    apply Z.sqrt_lt_square; [exact Hn | lia |].
    change (2 ^ 16)%Z with 65536%Z. nia.
  - intros Hneg Hz. subst s1.
    rewrite wrap_u_negative by lia.
    rewrite (wrap_u_small 16 0) by (change (2 ^ 16)%Z with 65536%Z; lia).
    replace (IZR (s0 + 65536) ^ 2 + IZR 0 ^ 2)
      with (IZR ((s0 + 65536) * (s0 + 65536)))
      by (rewrite mult_IZR; ring).
    assert (Hn : (0 <= (s0 + 65536) * (s0 + 65536))%Z) by nia.
    unfold to_uint16. rewrite trunc_sqrt by exact Hn.
    rewrite Z.sqrt_square by lia.
    rewrite wrap_u_small by (change (2 ^ 16)%Z with 65536%Z; lia). lia.
Qed.

(** X7: when the float that [dx[5]] is narrowed to lies strictly between
    [-.0001f] and [.0001f], as it does whenever [dx[5]] is at most [2^-14]
    in magnitude (a vehicle with no vertical acceleration), [HIL_SENSOR]
    reports [zacc = - G_FORCE] and [HIL_STATE_QUATERNION] reports
    [zacc = -1000] mG. *)
Theorem resting_vertical_acceleration (d : D) (system_id component_id : Z) :
  - FLT_0001 < to_float (get_vector_dx_state d 5%nat) < FLT_0001
  \/ - / 16384 <= get_vector_dx_state d 5%nat <= / 16384 ->
  (exists s : mavlink_hil_sensor_t,
      body (hil_sensor_msg d system_id component_id) = HIL_SENSOR s
      /\ sen_zacc s = - G_FORCE)
  /\ (exists q : mavlink_hil_state_quaternion_t,
        hil_state_quaternion_of
          (hil_state_quaternion_msg d system_id component_id) = Some q
        /\ hsq_zacc q = (- 1000)%Z).
Proof.
  intros Hrest.
  assert (Hband : - FLT_0001 < to_float (get_vector_dx_state d 5%nat)
                  < FLT_0001).
  { destruct Hrest as [Hf | Hd]; [exact Hf | apply to_float_band, Hd]. }
  destruct (body_frame_acceleration_cases d) as [[_ Ha] | [Hout _]];
    [| contradiction].
  cbv zeta in Ha.
  split.
  - unfold hil_sensor_msg. rewrite Ha.
    destruct (get_rpy_speed d) as [[gx gy] gz].
    destruct (get_lat_lon_alt d) as [[l0 l1] l2].
    eexists. split; [reflexivity |]. reflexivity.
  - unfold hil_state_quaternion_msg. rewrite Ha.
    destruct (get_rpy_speed d) as [[r p] y].
    destruct (get_lat_lon_alt d) as [[l0 l1] l2].
    destruct (get_ground_speed d) as [[s0 s1] s2].
    eexists. split; [reflexivity |]. cbn [hsq_zacc].
    replace (- G_FORCE / G_FORCE * 1000) with (IZR (- 1000))
      by (unfold G_FORCE; field).
    rewrite round_IZR. reflexivity.
Qed.

End AnyEncoder.

End EncoderLaws.

(** ** Shape of the barometric formula *)

Module BaroLaws.
Import Conv Mavlink Encoder FloatFacts EncoderFacts.

Lemma Rpower_decreasing_base (x y e : R) :
  0 < x -> x < y -> e < 0 -> Rpower y e < Rpower x e.
Proof.
  intros Hx Hxy He. unfold Rpower. apply exp_increasing.
  pose proof (ln_increasing x y Hx Hxy) as Hln. nra.
Qed.

Lemma baro_exponent_negative : (K_G * K_M) / (K_R * K_Lb) < 0.
Proof.
  replace (K_G * K_M / (K_R * K_Lb)) with (- (676294603 / 128674000))
    by (unfold K_G, K_M, K_R, K_Lb; field).
  lra.
Qed.

Lemma alt_to_baro_low_positive (alt : R) : alt <= 11000 -> 0 < alt_to_baro alt.
Proof.
  intros Hle. rewrite alt_to_baro_low by exact Hle.
  apply Rmult_lt_0_compat; [unfold K_Pb; lra | apply exp_pos].
Qed.

Lemma alt_to_baro_low_decreasing (a1 a2 : R) :
  a1 < a2 -> a2 <= 11000 -> alt_to_baro a2 < alt_to_baro a1.
Proof.
  intros Hlt Hle. rewrite !alt_to_baro_low by lra.
  apply Rmult_lt_compat_l; [unfold K_Pb; lra |].
  apply Rpower_decreasing_base.
  - apply troposphere_base_positive. lra.
  - unfold K_Tb, K_Lb. unfold Rdiv.
    apply Rmult_lt_compat_l; [lra |].
    apply Rinv_lt_contravar; [| lra].
    apply Rmult_lt_0_compat; lra.
  - exact baro_exponent_negative.
Qed.

Lemma alt_to_baro_mid_exp (alt : R) :
  11000 < alt <= 20000 ->
  alt_to_baro alt
  = alt_to_baro 11000
    * exp ((- K_G) * K_M * (alt - 11000) / (K_R * (K_Tb + 11000 * K_Lb))).
Proof.
  intros Hr. rewrite alt_to_baro_mid by exact Hr. rewrite Rpower_M_E.
  reflexivity.
Qed.

Lemma stratosphere_exponent (alt : R) :
  (- K_G) * K_M * (alt - 11000) / (K_R * (K_Tb + 11000 * K_Lb))
  = - (alt - 11000) * (K_G * K_M / (K_R * (K_Tb + 11000 * K_Lb))).
Proof. unfold K_G, K_M, K_R, K_Tb, K_Lb. field. Qed.

Lemma stratosphere_rate_positive :
  0 < K_G * K_M / (K_R * (K_Tb + 11000 * K_Lb)).
Proof.
  unfold K_G, K_M, K_R, K_Tb, K_Lb.
  apply Rdiv_lt_0_compat; lra.
Qed.

Lemma alt_to_baro_falls (a1 a2 : R) :
  a1 < a2 -> a2 <= 20000 -> 0 < alt_to_baro a2 < alt_to_baro a1.
Proof.
  intros Hlt Hle.
  pose proof stratosphere_rate_positive as Hq.
  set (q := K_G * K_M / (K_R * (K_Tb + 11000 * K_Lb))) in *.
  pose proof (alt_to_baro_low_positive 11000 ltac:(lra)) as H11.
  destruct (Rle_dec a2 11000) as [H2 | H2].
  - split; [apply alt_to_baro_low_positive; exact H2 |].
    apply alt_to_baro_low_decreasing; assumption.
  - assert (Hmid2 : 11000 < a2 <= 20000) by lra.
    rewrite (alt_to_baro_mid_exp a2 Hmid2), stratosphere_exponent.
    fold q.
    split; [apply Rmult_lt_0_compat; [exact H11 | apply exp_pos] |].
    destruct (Rle_dec a1 11000) as [H1 | H1].
    + apply Rlt_le_trans with (alt_to_baro 11000).
      * rewrite <- (Rmult_1_r (alt_to_baro 11000)) at 2.
        apply Rmult_lt_compat_l; [exact H11 |].
        rewrite <- exp_0. apply exp_increasing. nra.
      * destruct (Req_dec a1 11000) as [He | Hne].
        -- rewrite He. lra.
        -- left. apply alt_to_baro_low_decreasing; lra.
    + assert (Hmid1 : 11000 < a1 <= 20000) by lra.
      rewrite (alt_to_baro_mid_exp a1 Hmid1), stratosphere_exponent.
      fold q.
      apply Rmult_lt_compat_l; [exact H11 |].
      apply exp_increasing. nra.
Qed.

(** X8: up to 20000 m the pressure [alt_to_baro] returns is positive and
    strictly decreasing in the altitude, also across the change of formula
    at 11000 m; over all altitudes it is non-negative and never increases
    with the altitude. *)
Theorem alt_to_baro_decreasing :
  (forall a1 a2 : R,
      a1 < a2 -> a2 <= 20000 -> 0 < alt_to_baro a2 < alt_to_baro a1)
  /\ (forall a1 a2 : R,
         a1 <= a2 -> 0 <= alt_to_baro a2 <= alt_to_baro a1).
Proof.
  split; [exact alt_to_baro_falls |].
  assert (Hpos : forall a, a <= 20000 -> 0 < alt_to_baro a).
  { intros a Ha. apply (alt_to_baro_falls (a - 1) a); lra. }
  assert (Hnn : forall a, 0 <= alt_to_baro a).
  { intros a. destruct (Rle_dec a 20000) as [Ha | Ha].
    - left. apply Hpos. exact Ha.
    - rewrite alt_to_baro_high by lra. lra. }
  intros a1 a2 Hle. split; [apply Hnn |].
  destruct (Rle_dec a2 20000) as [H2 | H2].
  - destruct (Req_dec a1 a2) as [-> | Hne]; [lra |].
    left. apply alt_to_baro_falls; lra.
  - rewrite (alt_to_baro_high a2) by lra. apply Hnn.
Qed.

Lemma alt_to_baro_decreasing_witness :
  0 < alt_to_baro 15000 < alt_to_baro 5000.
Proof.
  destruct alt_to_baro_decreasing as [Hstrict _].
  apply (Hstrict 5000 15000); lra.
Defined.

(** X9: the pressure does not tend to 0 at 20000 m: just below and at
    20000 m it is still more than 5000 Pa, just above it is 0. *)
Theorem alt_to_baro_cutoff :
  5000 < alt_to_baro 20000 /\ forall alt, 20000 < alt -> alt_to_baro alt = 0.
Proof.
  split; [| exact alt_to_baro_high].
  rewrite (alt_to_baro_mid_exp 20000) by lra.
  rewrite stratosphere_exponent.
  pose proof alt_to_baro_11000 as [Hlo _].
  assert (He : 6 / 25 < exp (- (20000 - 11000)
                            * (K_G * K_M / (K_R * (K_Tb + 11000 * K_Lb))))).
  { replace (- (20000 - 11000) * (K_G * K_M / (K_R * (K_Tb + 11000 * K_Lb))))
      with (IZR (- 6086651427) / IZR 4288803400).
    - apply (ExpBoundFacts.exp_gt_check_sound (- 6086651427) 4288803400
               6 25 30 96).
      vm_compute. reflexivity.
    - unfold K_G, K_M, K_R, K_Tb, K_Lb. field. }
  nra.
Qed.

Section AnyEncoder.
Context {D : Type} `{DroneStateEncoder D} `{External}.

(** The pressure is defined at every altitude; it never rises with it. *)
Lemma alt_to_baro_never_rises (a1 a2 : R) :
  a1 <= a2 -> 0 <= alt_to_baro a2 <= alt_to_baro a1.
Proof.
  intros Hle.
  assert (Hnn : forall a, 0 <= alt_to_baro a).
  { intros a. destruct (Rle_dec a 20000) as [Ha | Ha].
    - left. apply (alt_to_baro_falls (a - 1) a); lra.
    - rewrite alt_to_baro_high by lra. lra. }
  split; [apply Hnn |].
  destruct (Rle_dec a2 20000) as [H2 | H2].
  - destruct (Req_dec a1 a2) as [-> | Hne]; [lra |].
    left. apply alt_to_baro_falls; lra.
  - rewrite (alt_to_baro_high a2) by lra. apply Hnn.
Qed.

(** The altitude in mm that the frames carry, and the pressure, narrowed
    to the [float] the source keeps it in. *)
Lemma hil_sensor_pressure_alt (d : D) (system_id component_id : Z) :
  exists s : mavlink_hil_sensor_t,
    Mavlink.body (hil_sensor_msg d system_id component_id) = Mavlink.HIL_SENSOR s
    /\ Mavlink.sen_abs_pressure s
       = to_float (alt_to_baro (IZR (snd (get_lat_lon_alt d)) / 1000) / 100)
    /\ Mavlink.sen_pressure_alt s = IZR (snd (get_lat_lon_alt d))
    /\ Mavlink.sen_diff_pressure s = 0
    /\ Mavlink.sen_fields_updated s = 8191%Z.
Proof.
  unfold hil_sensor_msg.
  destruct (get_body_frame_acceleration d) as [[a0 a1] a2].
  destruct (get_rpy_speed d) as [[gx gy] gz].
  destruct (get_lat_lon_alt d) as [[l0 l1] l2].
  eexists. split; [reflexivity |]. repeat split; reflexivity.
Qed.

(** X21: the absolute pressure of [HIL_SENSOR] is [alt_to_baro] of the
    altitude [get_lat_lon_alt] returns in mm, in hPa and narrowed to float:
    1013.25 hPa at altitude 0, never negative, and never higher for the
    higher of two altitudes (the floats of two altitudes can be equal);
    the differential pressure is 0 and the mask of updated fields is 8191,
    the thirteen low bits. *)
Theorem hil_sensor_pressure (d1 d2 : D) (system_id component_id : Z) :
  let alt1 := snd (get_lat_lon_alt d1) in
  let alt2 := snd (get_lat_lon_alt d2) in
  exists s1 s2 : mavlink_hil_sensor_t,
    Mavlink.body (hil_sensor_msg d1 system_id component_id)
    = Mavlink.HIL_SENSOR s1
    /\ Mavlink.body (hil_sensor_msg d2 system_id component_id)
       = Mavlink.HIL_SENSOR s2
    /\ Mavlink.sen_diff_pressure s1 = 0
    /\ (forall i, (0 <= i)%Z ->
           Z.testbit (Mavlink.sen_fields_updated s1) i = (i <? 13)%Z)
    /\ Mavlink.sen_abs_pressure s1
       = to_float (alt_to_baro (IZR alt1 / 1000) / 100)
    /\ (alt1 = 0%Z -> Mavlink.sen_abs_pressure s1 = 101325 / 100)
    /\ ((alt1 <= alt2)%Z ->
        0 <= Mavlink.sen_abs_pressure s2 <= Mavlink.sen_abs_pressure s1).
Proof.
  cbv zeta.
  destruct (hil_sensor_pressure_alt d1 system_id component_id)
    as (s1 & Hb1 & Hp1 & _ & Hd1 & Hf1).
  destruct (hil_sensor_pressure_alt d2 system_id component_id)
    as (s2 & Hb2 & Hp2 & _).
  exists s1, s2. split; [exact Hb1 |]. split; [exact Hb2 |].
  split; [exact Hd1 |]. split; [| split; [| split]].
  - intros i Hi. rewrite Hf1. change 8191%Z with (Z.ones 13).
    rewrite Z.testbit_ones by lia.
    destruct (Z.leb_spec 0 i); [| lia]. reflexivity.
  - exact Hp1.
  - intros Hz. rewrite Hp1, Hz.
    replace (0 / 1000) with 0 by field.
    rewrite alt_to_baro_0.
    replace (101325 / 100) with (4053 / 4) by field.
    apply to_float_exact, binary32_sea_level.
  - intros Hle. rewrite Hp1, Hp2. apply IZR_le in Hle.
    destruct (alt_to_baro_never_rises (IZR (snd (get_lat_lon_alt d1)) / 1000)
                (IZR (snd (get_lat_lon_alt d2)) / 1000))
      as [Hnn Hdec]; [lra |].
    split.
    + apply to_float_nonneg. lra.
    + apply to_float_monotone. lra.
Qed.

End AnyEncoder.

End BaroLaws.

(** ** What the loop keeps and counts *)

Module LoopLaws.
Import Conv Mavlink Encoder Drone ConvFacts ConvLaws FloatFacts LoopFacts.
Import GroundFacts.
Import Counting.

Lemma actuator_frames_app (q r : list mavlink_message_t) :
  actuator_frames (q ++ r) = (actuator_frames q + actuator_frames r)%Z.
Proof.
  unfold actuator_frames. rewrite filter_app, length_app. lia.
Qed.

Lemma land_bit7 (m : Z) :
  Z.land m 128 = if Z.testbit m 7 then 128%Z else 0%Z.
Proof.
  apply Z.bits_inj'. intros i Hi.
  rewrite Z.land_spec. change 128%Z with (2 ^ 7)%Z.
  rewrite Z.pow2_bits_eqb by lia.
  destruct (Z.eqb_spec 7 i) as [<- | Hne].
  - rewrite andb_true_r. destruct (Z.testbit m 7) eqn:E.
    + rewrite Z.pow2_bits_eqb by lia. reflexivity.
    + rewrite Z.bits_0. reflexivity.
  - rewrite andb_false_r. destruct (Z.testbit m 7).
    + rewrite Z.pow2_bits_eqb by lia. symmetry. apply Z.eqb_neq. exact Hne.
    + rewrite Z.bits_0. reflexivity.
Qed.

(** X10: [_process_hil_actuator_controls] arms the drone exactly when bit 7
    of the mode is set, counts the message, raises the reply flag, and
    routes channels 0..3 to the VTOL propellers, 4..5 to the ailerons and
    8 to the thrust propeller; the channels 6, 7 and 9..15, the other mode
    bits, the time stamp and the flags have no effect. *)
Theorem actuator_controls_effect (c c' : mavlink_hil_actuator_controls_t)
  (d : Drone) :
  let d1 := _process_hil_actuator_controls c d in
  armed (hil d1) = Z.testbit (hac_mode c) 7
  /\ should_reply_lockstep (hil d1) = true
  /\ hil_actuator_controls_msg_n (hil d1)
     = (hil_actuator_controls_msg_n (hil d) + 1)%Z
  /\ vtol_propellers (controllers d1)
     = [hac_controls c 0%nat; hac_controls c 1%nat;
        hac_controls c 2%nat; hac_controls c 3%nat]
  /\ ailerons (controllers d1) = [hac_controls c 4%nat; hac_controls c 5%nat]
  /\ thrust_propellers (controllers d1) = [hac_controls c 8%nat]
  /\ ((forall i, (i < 6 \/ i = 8)%nat -> hac_controls c i = hac_controls c' i) ->
      Z.testbit (hac_mode c) 7 = Z.testbit (hac_mode c') 7 ->
      _process_hil_actuator_controls c' d = d1).
Proof.
  cbv zeta.
  assert (Harm : forall m, (Z.land m MAV_MODE_FLAG_SAFETY_ARMED >? 0)%Z
                           = Z.testbit m 7).
  { intros m. unfold MAV_MODE_FLAG_SAFETY_ARMED. rewrite land_bit7.
    destruct (Z.testbit m 7); reflexivity. }
  unfold _process_hil_actuator_controls. cbv zeta.
  rewrite !Harm. cbn [map Nat.add].
  repeat (split; [reflexivity |]).
  intros Hch Hbit. rewrite <- Hbit.
  rewrite <- !(Hch 0%nat), <- !(Hch 1%nat), <- !(Hch 2%nat), <- !(Hch 3%nat),
    <- !(Hch 4%nat), <- !(Hch 5%nat), <- !(Hch 8%nat) by lia.
  reflexivity.
Qed.

Section Loop.
Context `{Plant} `{External}.

Lemma process_message_counts (m : mavlink_message_t) (d : Drone) :
  hil_actuator_controls_msg_n (hil (_process_mavlink_message m d))
  = (hil_actuator_controls_msg_n (hil d) + actuator_frames [m])%Z
  /\ should_reply_lockstep (hil (_process_mavlink_message m d))
     = should_reply_lockstep (hil d) || is_hil_actuator_controls m.
Proof.
  unfold actuator_frames, is_hil_actuator_controls, _process_mavlink_message.
  simpl.
  destruct (body m) as [| c | c | a | t | g | s | q | i]; simpl;
    rewrite ?Z.add_0_r, ?orb_false_r, ?orb_true_r; try (split; reflexivity).
  unfold _process_command_long_message. cbv zeta.
  destruct (cl_command c =? MAV_CMD_SET_MESSAGE_INTERVAL)%Z; split; reflexivity.
Qed.

Lemma drain_fold_counts (q : list mavlink_message_t) :
  forall d : Drone,
    let d' := fold_left (fun d m => _process_mavlink_message m d) q d in
    hil_actuator_controls_msg_n (hil d')
    = (hil_actuator_controls_msg_n (hil d) + actuator_frames q)%Z
    /\ should_reply_lockstep (hil d')
       = should_reply_lockstep (hil d) || existsb is_hil_actuator_controls q.
Proof.
  induction q as [| m q IH]; intros d; cbv zeta; simpl.
  - unfold actuator_frames. simpl. rewrite Z.add_0_r, orb_false_r.
    split; reflexivity.
  - destruct (IH (_process_mavlink_message m d)) as (Hn & Hr).
    destruct (process_message_counts m d) as (Hn1 & Hr1).
    cbv zeta in *. rewrite Hn, Hr, Hn1, Hr1. split.
    + change (m :: q) with ([m] ++ q). rewrite actuator_frames_app. lia.
    + rewrite orb_assoc. reflexivity.
Qed.

Lemma command_acks_length (s : MAVLinkSystem) (q : list mavlink_message_t) :
  length (command_acks s q) = length (filter is_command_long q).
Proof.
  unfold command_acks. induction q as [| m q IH]; simpl; [reflexivity |].
  rewrite length_app, IH. unfold is_command_long.
  destruct (body m); reflexivity.
Qed.

(** X11: draining the inbound queue counts every [HIL_ACTUATOR_CONTROLS]
    in it, raises the reply flag if there is at least one, enqueues one
    [COMMAND_ACK] per [COMMAND_LONG], and leaves the queue empty and the
    two vectors and the clock untouched. *)
Theorem drain_counts (d : Drone) :
  let d' := _process_mavlink_messages d in
  hil_actuator_controls_msg_n (hil d')
  = (hil_actuator_controls_msg_n (hil d) + actuator_frames (message_queue d))%Z
  /\ should_reply_lockstep (hil d')
     = should_reply_lockstep (hil d)
       || existsb is_hil_actuator_controls (message_queue d)
  /\ length (enqueued (connection d'))
     = (length (enqueued (connection d))
        + length (filter is_command_long (message_queue d)))%nat
  /\ Forall (fun m => msgid m = MAVLINK_MSG_ID_COMMAND_ACK)
       (skipn (length (enqueued (connection d))) (enqueued (connection d')))
  /\ message_queue d' = []
  /\ dynamic_object d' = dynamic_object d.
Proof.
  cbv zeta.
  destruct (drain_fold_counts (message_queue d) (set_message_queue [] d))
    as (Hn & Hr).
  destruct (drain_frame d) as (Ho & _ & Hq & _).
  split; [exact Hn |]. split; [exact Hr |].
  rewrite drain_enqueued, length_app, command_acks_length, skipn_length_app.
  split; [reflexivity |]. split; [| split; assumption].
  unfold command_acks. apply Forall_forall. intros a Ha.
  apply in_flat_map in Ha. destruct Ha as (m & _ & Hin).
  destruct (body m); simpl in Hin; try contradiction.
  destruct Hin as [<- | []]. reflexivity.
Qed.

Lemma before_publish_counts (us : Z) (d : Drone) :
  hil_actuator_controls_msg_n (hil (before_publish us d))
  = (hil_actuator_controls_msg_n (hil d) + actuator_frames (message_queue d))%Z
  /\ should_reply_lockstep (hil (before_publish us d))
     = should_reply_lockstep (hil d)
       || existsb is_hil_actuator_controls (message_queue d).
Proof.
  unfold before_publish, _process_mavlink_messages.
  destruct (after_dynamics_frame us d) as (Hh & _ & _ & Hq & _).
  destruct (drain_fold_counts (message_queue (after_dynamics us d))
              (set_message_queue [] (after_dynamics us d))) as (Hn & Hr).
  cbv zeta in *. rewrite Hn, Hr, Hq. simpl. rewrite Hh. split; reflexivity.
Qed.

Lemma tick_counts (us : Z) (d : Drone) (i : TickInput) :
  hil_actuator_controls_msg_n (hil (tick us d i))
  = (hil_actuator_controls_msg_n (hil d)
     + actuator_frames (message_queue d ++ inbound i))%Z.
Proof.
  unfold tick. rewrite update_phases.
  destruct (publish_frame us (before_publish us (arrive i d)))
    as (_ & _ & _ & _ & _ & Hn & _).
  destruct (before_publish_counts us (arrive i d)) as (Hk & _).
  destruct (arrive_frame i d) as (Hh & Hq & _).
  rewrite Hn, Hk, Hh, Hq. reflexivity.
Qed.

(** X12: over any run of ticks no [HIL_ACTUATOR_CONTROLS] frame is lost or
    counted twice: the counter plus the frames still waiting in the queue
    equals the counter at the start plus the frames waiting then plus the
    frames that arrived during the run.  After at least one tick nothing is
    waiting, so the counter has grown by exactly that number. *)
Theorem run_counts_actuator_frames (us : Z) (inputs : list TickInput)
  (d : Drone) :
  (hil_actuator_controls_msg_n (hil (run us inputs d))
   + actuator_frames (message_queue (run us inputs d)))%Z
  = (hil_actuator_controls_msg_n (hil d)
     + actuator_frames (message_queue d ++ concat (map inbound inputs)))%Z
  /\ (inputs <> [] -> message_queue (run us inputs d) = []).
Proof.
  revert d. induction inputs as [| i inputs IH]; intros d.
  - simpl. rewrite app_nil_r. split; [reflexivity | intros Hne; contradiction].
  - destruct (IH (tick us d i)) as (Hc & Hq).
    change (run us (i :: inputs) d) with (run us inputs (tick us d i)).
    split.
    + rewrite Hc, tick_counts.
      assert (Hempty : message_queue (tick us d i) = [])
        by (unfold tick; apply update_queue_empty).
      rewrite Hempty. simpl.
      rewrite !actuator_frames_app. lia.
    + intros _. destruct inputs as [| j inputs].
      * simpl. unfold tick. apply update_queue_empty.
      * apply Hq. discriminate.
Qed.

(** X14: after the bootstrap window (300 or more [HIL_ACTUATOR_CONTROLS]
    received) the loop answers in lockstep: a tick with an open relay that
    drains at least one [HIL_ACTUATOR_CONTROLS] publishes [HIL_GPS] and
    [HIL_SENSOR] and clears the reply flag, and a following tick in which
    none arrives publishes nothing. *)
Theorem lockstep_one_reply (us : Z) (d : Drone) (i j : TickInput) :
  (300 <= hil_actuator_controls_msg_n (hil d))%Z ->
  relay_open i = true ->
  existsb is_hil_actuator_controls (message_queue d ++ inbound i) = true ->
  unanswered j ->
  In MAVLINK_MSG_ID_HIL_GPS (map msgid (telemetry_of_tick us (arrive i d)))
  /\ In MAVLINK_MSG_ID_HIL_SENSOR
       (map msgid (telemetry_of_tick us (arrive i d)))
  /\ should_reply_lockstep (hil (tick us d i)) = false
  /\ telemetry_of_tick us (arrive j (tick us d i)) = [].
Proof.
  intros Hn Ho Hac [_ Hj].
  destruct (arrive_frame i d) as (Hh & Hq & Hopen & _).
  destruct (before_publish_counts us (arrive i d)) as (_ & Hr).
  rewrite Hq, Hac, orb_true_r in Hr.
  assert (Hbo : connection_open (connection (before_publish us (arrive i d)))
                = true) by (rewrite before_publish_open, Hopen; exact Ho).
  assert (Hg : lockstep_gate (before_publish us (arrive i d)) = true)
    by (unfold lockstep_gate; rewrite Hr; reflexivity).
  assert (Hreply : should_reply_lockstep (hil (tick us d i)) = false).
  { unfold tick. rewrite update_phases.
    apply (publish_hil us _ Hbo Hg). }
  assert (Hin : forall id, In id [MAVLINK_MSG_ID_HIL_GPS; MAVLINK_MSG_ID_HIL_SENSOR] ->
                In id (map msgid (telemetry_of_tick us (arrive i d)))).
  { intros id Hid. unfold telemetry_of_tick.
    rewrite (published_open us _ Hbo Hg).
    apply in_or_app. right. apply in_or_app. left. exact Hid. }
  split; [apply Hin; simpl; auto |].
  split; [apply Hin; simpl; auto |].
  split; [exact Hreply |].
  destruct (arrive_frame j (tick us d i)) as (Hh' & Hq' & _).
  assert (Hempty : message_queue (tick us d i) = [])
    by (unfold tick; apply update_queue_empty).
  apply tick_gate_closed.
  - rewrite Hq', Hempty. exact Hj.
  - rewrite Hh', tick_counts. unfold actuator_frames. lia.
  - rewrite Hh'. exact Hreply.
Qed.

Lemma publish_last (us : Z) (d : Drone) :
  connection_open (connection d) = true ->
  lockstep_gate d = true ->
  last_autopilot_telemetry (hil (_publish_state us d))
  = (if Rgt_dec
          (IZR (current_time_us (clock (dynamic_object d))
                - last_autopilot_telemetry (hil d)))
          (hil_state_quaternion_message_frequency (hil d))
     then current_time_us (clock (dynamic_object d))
     else last_autopilot_telemetry (hil d)).
Proof.
  intros Ho Hg. unfold _publish_state. rewrite Ho, Hg. cbv zeta.
  simpl negb. cbv iota.
  destruct (sys_time_throttle_counter (hil d) mod 1000 =? 0)%Z; simpl;
    destruct (Rgt_dec _ _); reflexivity.
Qed.

(** X15: a publishing call sends [HIL_STATE_QUATERNION] exactly when more
    than the telemetry period has passed on the simulation clock since the
    last one; with a non-negative period it is never due again right after
    the call, so two calls at the same clock time send it at most once. *)
Theorem state_quaternion_rate_limit (us : Z) (d : Drone) :
  connection_open (connection d) = true ->
  lockstep_gate d = true ->
  let due (x : Drone) :=
    IZR (current_time_us (clock (dynamic_object x))
         - last_autopilot_telemetry (hil x))
    > hil_state_quaternion_message_frequency (hil x) in
  (In MAVLINK_MSG_ID_HIL_STATE_QUATERNION (map msgid (published us d))
   <-> due d)
  /\ (0 <= hil_state_quaternion_message_frequency (hil d) ->
      ~ due (_publish_state us d)).
Proof.
  intros Ho Hg. cbv zeta.
  destruct (publish_hil us d Ho Hg) as (_ & _ & Hf & Ht & _).
  rewrite (publish_last us d Ho Hg), Hf, Ht, (published_open us d Ho Hg).
  unfold MAVLINK_MSG_ID_SYSTEM_TIME, MAVLINK_MSG_ID_HIL_GPS,
    MAVLINK_MSG_ID_HIL_SENSOR, MAVLINK_MSG_ID_HIL_STATE_QUATERNION.
  destruct (Rgt_dec _ _) as [Hdue | Hnot].
  - split.
    + split; [intros _; exact Hdue |].
      intros _. apply in_or_app. right. simpl. auto.
    + intros Hfreq. rewrite Z.sub_diag. unfold Rgt in *. lra.
  - split.
    + split; [| intros Hd; contradiction].
      destruct (sys_time_throttle_counter (hil d) mod 1000 =? 0)%Z; simpl;
        intros Hin;
        repeat (destruct Hin as [Hin | Hin]; [discriminate Hin |]);
        contradiction.
    + intros _. exact Hnot.
Qed.

Lemma frame_ids (d : Drone) (s c t : Z) :
  (sysid (hil_gps_msg d s c) = s /\ compid (hil_gps_msg d s c) = c)
  /\ (sysid (hil_sensor_msg d s c) = s /\ compid (hil_sensor_msg d s c) = c)
  /\ (sysid (hil_state_quaternion_msg d s c) = s
      /\ compid (hil_state_quaternion_msg d s c) = c)
  /\ (sysid (system_time_msg d t s c) = s
      /\ compid (system_time_msg d t s c) = c).
Proof.
  unfold hil_gps_msg, hil_sensor_msg, hil_state_quaternion_msg, system_time_msg.
  destruct (get_lat_lon_alt d) as [[l0 l1] l2].
  destruct (get_earth_fixed_velocity d) as [[n e] dn].
  destruct (get_ground_speed d) as [[s0 s1] s2].
  destruct (get_body_frame_acceleration d) as [[a0 a1] a2].
  destruct (get_rpy_speed d) as [[r p] y].
  repeat split; reflexivity.
Qed.

Lemma published_ids (us : Z) (d : Drone) :
  Forall
    (fun m => sysid m = system_id (mavlink_system d)
              /\ compid m = component_id (mavlink_system d))
    (published us d).
Proof.
  destruct (connection_open (connection d)) eqn:Ho;
    [| rewrite (published_closed us d Ho); constructor].
  destruct (lockstep_gate d) eqn:Hg;
    [| rewrite (published_gated us d Hg); constructor].
  unfold published, _publish_state. rewrite Ho, Hg. cbv zeta.
  simpl negb. cbv iota.
  destruct (sys_time_throttle_counter (hil d) mod 1000 =? 0)%Z; simpl;
    destruct (Rgt_dec _ _); simpl;
    rewrite <- ?app_assoc; simpl; rewrite skipn_length_app;
    repeat constructor;
    try apply (frame_ids _ _ _ 0%Z).
  all: apply (frame_ids _ _ _ (system_clock_now d)).
Qed.

(** X16: a publishing call hands the relay between two and four frames, in
    a fixed order: [SYSTEM_TIME] (if any) first, then [HIL_GPS], then
    [HIL_SENSOR], then [HIL_STATE_QUATERNION] (if any); every one carries
    the drone's system and component id. *)
Theorem publish_frame_order (us : Z) (d : Drone) :
  connection_open (connection d) = true ->
  lockstep_gate d = true ->
  (exists first_frames last_frames : list Z,
      map msgid (published us d)
      = first_frames
        ++ [MAVLINK_MSG_ID_HIL_GPS; MAVLINK_MSG_ID_HIL_SENSOR]
        ++ last_frames
      /\ (first_frames = [] \/ first_frames = [MAVLINK_MSG_ID_SYSTEM_TIME])
      /\ (last_frames = []
          \/ last_frames = [MAVLINK_MSG_ID_HIL_STATE_QUATERNION]))
  /\ (2 <= length (published us d) <= 4)%nat
  /\ Forall
       (fun m => sysid m = system_id (mavlink_system d)
                 /\ compid m = component_id (mavlink_system d))
       (published us d).
Proof.
  intros Ho Hg. pose proof (published_open us d Ho Hg) as Hm.
  split; [| split; [| apply published_ids]].
  - eexists. eexists. split; [exact Hm |].
    split; [destruct (_ =? _)%Z | destruct (Rgt_dec _ _)]; auto.
  - rewrite <- (length_map msgid), Hm.
    destruct (_ =? _)%Z; destruct (Rgt_dec _ _); simpl; lia.
Qed.

Lemma level_quaternion : euler_to_quaterions (0, 0, 0) = (0, 0, 0, 1).
Proof.
  unfold euler_to_quaterions.
  replace (0 / 2) with 0 by field.
  rewrite sin_0, cos_0. repeat f_equal; ring.
Qed.

(** X17: right after a ground clamp the encoder reads a level attitude
    (quaternion (0, 0, 0, 1)), zero body rates, body acceleration
    (0, 0, G_FORCE) (the substitution for a vanishing vertical
    acceleration does not apply to it) and yaw 1 cdeg. *)
Theorem clamped_vehicle_readings (us : Z) (d : Drone) :
  ground_contact us d ->
  let d' := fake_ground_transform us d in
  get_attitude d' = (0, 0, 0, 1)
  /\ get_rpy_speed d' = (0, 0, 0)
  /\ get_body_frame_acceleration d' = (0, 0, G_FORCE)
  /\ get_vehicle_yaw_wrt_earth_north d' = 1%Z.
Proof.
  intros Hc. cbv zeta.
  pose proof (fake_ground_transform_contact us d Hc) as Hk. cbv zeta in Hk.
  destruct Hk as (_ & Hx & _ & Hd3 & Hd4 & Hd5 & _).
  unfold get_attitude, get_rpy_speed, get_body_frame_acceleration,
    get_vehicle_yaw_wrt_earth_north. cbv zeta.
  change (Encoder.get_vector_state (fake_ground_transform us d))
    with (state (dynamic_object (fake_ground_transform us d))).
  change (Encoder.get_vector_dx_state (fake_ground_transform us d))
    with (dx_state (dynamic_object (fake_ground_transform us d))).
  rewrite !Hx by lia. rewrite Hd3, Hd4, Hd5.
  split; [apply level_quaternion |]. split; [reflexivity |].
  split.
  - rewrite to_float_0, to_float_G_FORCE.
    destruct (Rlt_dec G_FORCE FLT_0001) as [Hlt | _]; [| reflexivity].
    unfold G_FORCE, FLT_0001 in Hlt. lra.
  - replace (0 * 180 / M_PI * 100) with (IZR 0)
      by (unfold M_PI; field; apply PI_neq0).
    rewrite round_IZR. reflexivity.
Qed.

End Loop.

End LoopLaws.

(** ** The variant without the corrector, as a loop *)

Module LegacyLaws.
Import Conv Mavlink Encoder Drone LoopFacts.
Import LegacyLoop.

Section Loop.
Context `{Solver} `{External}.

Lemma legacy_message_frame (m : mavlink_message_t) (d : Drone) :
  dynamic_object (LegacyLoop._process_mavlink_message m d) = dynamic_object d
  /\ ailerons (controllers (LegacyLoop._process_mavlink_message m d))
     = ailerons (controllers d)
  /\ vtol_propellers (controllers (LegacyLoop._process_mavlink_message m d))
     = vtol_propellers (controllers d).
Proof.
  unfold LegacyLoop._process_mavlink_message.
  destruct (body m) as [| c | c | a | t | g | s | q | i];
    try (repeat split; reflexivity).
  unfold LegacyDrone._process_command_long_message. cbv zeta.
  destruct (cl_command c =? MAV_CMD_SET_MESSAGE_INTERVAL)%Z;
    repeat split; reflexivity.
Qed.

Lemma legacy_drain_frame (d : Drone) :
  dynamic_object (LegacyLoop._process_mavlink_messages d) = dynamic_object d
  /\ ailerons (controllers (LegacyLoop._process_mavlink_messages d))
     = ailerons (controllers d)
  /\ vtol_propellers (controllers (LegacyLoop._process_mavlink_messages d))
     = vtol_propellers (controllers d).
Proof.
  unfold LegacyLoop._process_mavlink_messages. repeat split.
  - rewrite (fold_left_preserves LegacyLoop._process_mavlink_message
               dynamic_object);
      [reflexivity | intros m s; apply (legacy_message_frame m s)].
  - rewrite (fold_left_preserves LegacyLoop._process_mavlink_message
               (fun s => ailerons (controllers s)));
      [reflexivity | intros m s; apply (legacy_message_frame m s)].
  - rewrite (fold_left_preserves LegacyLoop._process_mavlink_message
               (fun s => vtol_propellers (controllers s)));
      [reflexivity | intros m s; apply (legacy_message_frame m s)].
Qed.

Lemma legacy_publish_dynamic_object (d : Drone) :
  dynamic_object (LegacyLoop._publish_state d) = dynamic_object d.
Proof.
  unfold LegacyLoop._publish_state.
  destruct (connection_open (connection d)); simpl; [| reflexivity].
  destruct (Rgt_dec _ _); reflexivity.
Qed.

(** X18: with an open relay the variant's [_publish_state] first sets
    [last_autopilot_telemetry] to the current time and then compares, so
    with a non-negative telemetry period it never sends
    [HIL_STATE_QUATERNION]: every call hands over exactly [HIL_GPS],
    [HIL_SENSOR] and [SYSTEM_TIME], in this order. *)
Theorem legacy_publish_never_sends_attitude (d : Drone) :
  connection_open (connection d) = true ->
  0 <= hil_state_quaternion_message_frequency (hil d) ->
  map msgid (LegacyLoop.published d)
  = [MAVLINK_MSG_ID_HIL_GPS; MAVLINK_MSG_ID_HIL_SENSOR;
     MAVLINK_MSG_ID_SYSTEM_TIME]
  /\ last_autopilot_telemetry (hil (LegacyLoop._publish_state d))
     = LegacyLoop.time d.
Proof.
  intros Ho Hf. unfold LegacyLoop.published, LegacyLoop._publish_state.
  rewrite Ho. cbv zeta. simpl negb. cbv iota.
  destruct (Rgt_dec _ _) as [Hgt | _].
  - exfalso. revert Hgt. simpl. unfold LegacyLoop.time. simpl.
    rewrite Z.sub_diag. unfold Rgt. lra.
  - simpl. rewrite <- ?app_assoc. simpl. rewrite skipn_length_app.
    split; [| reflexivity].
    unfold msgid, hil_gps_msg, hil_sensor_msg, system_time_msg. simpl.
    repeat match goal with
           | |- context [let '(_, _) := ?e in _] => destruct e as [[? ?] ?]
           end; reflexivity.
Qed.

(** X19: in the variant no inbound message ever reaches the ailerons
    controller, and an [HIL_ACTUATOR_CONTROLS] leaves the propellers
    controller holding channels 4 and 5 (the aileron channels): channel 8,
    set first, is overwritten. *)
Theorem legacy_controls_misrouted (d : Drone)
  (c : mavlink_hil_actuator_controls_t) :
  ailerons (controllers (LegacyLoop._process_mavlink_messages d))
  = ailerons (controllers d)
  /\ thrust_propellers
       (controllers (LegacyLoop._process_hil_actuator_controls c d))
     = [hac_controls c 4%nat; hac_controls c 5%nat]
  /\ ailerons (controllers (LegacyLoop._process_hil_actuator_controls c d))
     = ailerons (controllers d).
Proof.
  split; [apply legacy_drain_frame |]. split; reflexivity.
Qed.

Lemma legacy_update_time (us : Z) (d : Drone) :
  LegacyLoop.time (LegacyLoop.update us d) = (LegacyLoop.time d + us)%Z.
Proof.
  unfold LegacyLoop.update, LegacyLoop._step_dynamics. cbv zeta.
  destruct (do_step _ _ _ _) as [x dx].
  unfold LegacyLoop.time, LegacyLoop.set_time. simpl.
  rewrite legacy_publish_dynamic_object.
  destruct (legacy_drain_frame
              (with_mavlink_system (LegacyLoop.MAVLinkSystem_update us) d))
    as (Ho & _).
  rewrite Ho. reflexivity.
Qed.

(** X20: in the variant the simulation time advances by the tick length on
    every tick, whether or not the relay is open and whatever arrives:
    after [n] ticks of [us] microseconds it has advanced by [n * us]. *)
Theorem legacy_time_advances (us : Z) (inputs : list TickInput) (d : Drone) :
  LegacyLoop.time (LegacyLoop.run us inputs d)
  = (LegacyLoop.time d + Z.of_nat (length inputs) * us)%Z.
Proof.
  revert d. induction inputs as [| i inputs IH]; intros d.
  - simpl. lia.
  - change (LegacyLoop.run us (i :: inputs) d)
      with (LegacyLoop.run us inputs (LegacyLoop.tick us d i)).
    rewrite IH. unfold LegacyLoop.tick. rewrite legacy_update_time.
    unfold LegacyLoop.time.
    destruct (arrive_dynamic_object i d) as (Ho & _). rewrite Ho.
    simpl length. lia.
Qed.

End Loop.

End LegacyLaws.

(** ** The further properties on the bench *)

Module BenchLaws.
Import Conv Mavlink Encoder Drone Bench BenchMore ConvFacts ConvLaws.
Import LoopFacts.

#[local] Existing Instance bench_plant.
#[local] Existing Instance bench_external.

Lemma cruising_velocity_small :
  forall i, (i < 3)%nat -> - 328 < Encoder.get_vector_dx_state cruising i < 328.
Proof.
  intros i Hi.
  destruct i as [| [| [| i]]]; [| | | lia].
  - change (Encoder.get_vector_dx_state cruising 0%nat) with (3 / 2). lra.
  - change (Encoder.get_vector_dx_state cruising 1%nat) with (5 / 2). lra.
  - change (Encoder.get_vector_dx_state cruising 2%nat) with 0. lra.
Qed.

Lemma get_ground_speed_whole_metres_witness :
  get_ground_speed cruising
  = (100 * trunc (Encoder.get_vector_dx_state cruising 0%nat),
     100 * trunc (Encoder.get_vector_dx_state cruising 1%nat),
     100 * trunc (Encoder.get_vector_dx_state cruising 2%nat))%Z.
Proof.
  apply (EncoderLaws.get_ground_speed_whole_metres cruising).
  exact cruising_velocity_small.
Defined.

Lemma resting_vertical_acceleration_witness :
  (exists s : mavlink_hil_sensor_t,
      body (hil_sensor_msg fresh_drone 1 1) = HIL_SENSOR s
      /\ sen_zacc s = - G_FORCE)
  /\ (exists q : mavlink_hil_state_quaternion_t,
        hil_state_quaternion_of (hil_state_quaternion_msg fresh_drone 1 1)
        = Some q
        /\ hsq_zacc q = (- 1000)%Z).
Proof.
  apply (EncoderLaws.resting_vertical_acceleration fresh_drone 1 1).
  right. change (Encoder.get_vector_dx_state fresh_drone 5%nat) with 0. lra.
Defined.

Lemma cruising_ground_speed : get_ground_speed cruising = (100, 200, 0)%Z.
Proof.
  unfold get_ground_speed. cbv zeta.
  change (Encoder.get_vector_dx_state cruising 0%nat) with (3 / 2).
  change (Encoder.get_vector_dx_state cruising 1%nat) with (5 / 2).
  change (Encoder.get_vector_dx_state cruising 2%nat) with (IZR 0).
  unfold to_int16.
  rewrite trunc_positive, trunc_IZR, (trunc_between (5 / 2) 2) by (lia || lra).
  reflexivity.
Qed.

Lemma hil_gps_vel_unsigned_witness :
  exists g : mavlink_hil_gps_t,
    hil_gps_of (hil_gps_msg cruising 1 1) = Some g /\ gps_vel g = 223%Z.
Proof.
  destruct (EncoderLaws.hil_gps_vel_unsigned cruising 1 1) as (g & Hg & Hk).
  exists g. split; [exact Hg |].
  rewrite cruising_ground_speed in Hk. destruct Hk as [Hpos _].
  rewrite Hpos by lia. reflexivity.
Defined.

Lemma fresh_drone_altitude : snd (get_lat_lon_alt fresh_drone) = 0%Z.
Proof.
  unfold get_lat_lon_alt. cbv zeta. simpl snd.
  match goal with
  | |- to_int32 ?e = _ => replace e with (IZR 0)
  end.
  - unfold to_int32. rewrite trunc_IZR. reflexivity.
  - simpl. unfold get_vector_state. simpl. unfold zero_vector. lra.
Qed.

Lemma hil_sensor_pressure_witness :
  exists s : mavlink_hil_sensor_t,
    body (hil_sensor_msg fresh_drone 1 1) = HIL_SENSOR s
    /\ sen_abs_pressure s = 101325 / 100.
Proof.
  destruct (BaroLaws.hil_sensor_pressure fresh_drone fresh_drone 1 1)
    as (s1 & s2 & Hb1 & _ & _ & _ & _ & Hsea & _).
  exists s1. split; [exact Hb1 |]. apply Hsea.
  exact fresh_drone_altitude.
Defined.

Lemma lockstep_one_reply_witness :
  In MAVLINK_MSG_ID_HIL_GPS
    (map msgid (telemetry_of_tick 10000 (arrive thrust_arrives after_bootstrap)))
  /\ In MAVLINK_MSG_ID_HIL_SENSOR
       (map msgid
          (telemetry_of_tick 10000 (arrive thrust_arrives after_bootstrap)))
  /\ should_reply_lockstep (hil (tick 10000 after_bootstrap thrust_arrives))
     = false
  /\ telemetry_of_tick 10000
       (arrive quiet_input (tick 10000 after_bootstrap thrust_arrives))
     = [].
Proof.
  apply (LoopLaws.lockstep_one_reply 10000 after_bootstrap thrust_arrives
           quiet_input).
  - simpl. lia.
  - reflexivity.
  - reflexivity.
  - exact BenchRuns.quiet_input_unanswered.
Defined.

Lemma state_quaternion_rate_limit_witness :
  In MAVLINK_MSG_ID_HIL_STATE_QUATERNION
    (map msgid (published 10000 at_two_seconds))
  /\ ~ (IZR (current_time_us
               (clock (dynamic_object (_publish_state 10000 at_two_seconds)))
             - last_autopilot_telemetry
                 (hil (_publish_state 10000 at_two_seconds)))
        > hil_state_quaternion_message_frequency
            (hil (_publish_state 10000 at_two_seconds))).
Proof.
  pose proof (LoopLaws.state_quaternion_rate_limit 10000 at_two_seconds
                eq_refl eq_refl) as Hk.
  cbv zeta in Hk. destruct Hk as (Hiff & Hafter).
  split.
  - apply Hiff. simpl. lra.
  - apply Hafter. simpl. lra.
Defined.

Lemma publish_frame_order_witness :
  (2 <= length (published 10000 fresh_drone) <= 4)%nat.
Proof.
  apply (LoopLaws.publish_frame_order 10000 fresh_drone eq_refl eq_refl).
Defined.

Lemma clamped_vehicle_readings_witness :
  get_attitude (fake_ground_transform 10000 raised_runway) = (0, 0, 0, 1)
  /\ get_rpy_speed (fake_ground_transform 10000 raised_runway) = (0, 0, 0)
  /\ get_body_frame_acceleration (fake_ground_transform 10000 raised_runway)
     = (0, 0, G_FORCE)
  /\ get_vehicle_yaw_wrt_earth_north (fake_ground_transform 10000 raised_runway)
     = 1%Z.
Proof.
  apply (LoopLaws.clamped_vehicle_readings 10000 raised_runway).
  exact GroundClaims.raised_runway_contact.
Defined.

#[local] Existing Instance still_solver.

Lemma legacy_publish_never_sends_attitude_witness :
  map msgid (LegacyLoop.published fresh_drone)
  = [MAVLINK_MSG_ID_HIL_GPS; MAVLINK_MSG_ID_HIL_SENSOR;
     MAVLINK_MSG_ID_SYSTEM_TIME]
  /\ last_autopilot_telemetry (hil (LegacyLoop._publish_state fresh_drone))
     = LegacyLoop.time fresh_drone.
Proof.
  apply (LegacyLaws.legacy_publish_never_sends_attitude fresh_drone).
  - reflexivity.
  - simpl. lra.
Defined.

(** C10, the claim refuted: at a ground speed of 1.5 m/s north and
    2.5 m/s east the frame carries the vector (100, 200, 0) cm/s, whose
    norm is the square root of 50000, and a true airspeed of 223. *)
Lemma true_airspeed_is_not_the_norm :
  exists q : mavlink_hil_state_quaternion_t,
    hil_state_quaternion_of (hil_state_quaternion_msg cruising 1 1) = Some q
    /\ (hsq_vx q, hsq_vy q, hsq_vz q) = (100, 200, 0)%Z
    /\ hsq_true_airspeed q = 223%Z
    /\ norm3 {| vx := IZR (hsq_vx q);
                vy := IZR (hsq_vy q);
                vz := IZR (hsq_vz q) |} = sqrt 50000
    /\ IZR (hsq_true_airspeed q)
       <> norm3 {| vx := IZR (hsq_vx q);
                   vy := IZR (hsq_vy q);
                   vz := IZR (hsq_vz q) |}.
Proof.
  destruct (EncoderFacts.hil_state_quaternion_msg_airspeed cruising 1 1)
    as (q & Hq & Ht & _ & Hv).
  exists q. split; [exact Hq |].
  rewrite cruising_ground_speed in Hv.
  split; [exact Hv |].
  pose proof (EncoderFacts.get_true_wind_speed_no_wind cruising eq_refl) as Hw.
  rewrite cruising_ground_speed in Hw.
  assert (Hair : hsq_true_airspeed q = 223%Z).
  { rewrite Ht, Hw. reflexivity. }
  split; [exact Hair |].
  injection Hv as H0 H1 H2.
  assert (Hnorm : norm3 {| vx := IZR (hsq_vx q);
                           vy := IZR (hsq_vy q);
                           vz := IZR (hsq_vz q) |} = sqrt 50000).
  { unfold norm3. simpl. rewrite H0, H1, H2. f_equal. lra. }
  split; [exact Hnorm |].
  rewrite Hnorm, Hair. intros Heq.
  assert (Hsq : sqrt 50000 * sqrt 50000 = 50000) by (apply sqrt_sqrt; lra).
  rewrite <- Heq in Hsq. lra.
Qed.

End BenchLaws.
